(** * SOL/USDT forward tester: indicator engine, strategy simulator,
      report generator and divergence correlation

    A shallow embedding of [forward_tester.py] (class [ForwardTester]) and of
    the correlation pass of [divergence_analyzer.py] (class
    [DivergenceAnalyzer]), with the properties of the design document
    checked against it.

    Numbers.  The program computes on IEEE doubles.  Here a double is an
    exact rational, or one of the three special values [PInf], [NInf],
    [NaN]; rounding, overflow and the sign of zero are not modelled (a
    zero divisor is taken as [+0]).  Results of the arithmetic are kept in
    lowest terms ([Qred]), which changes no value.  Input prices and volumes are finite
    ([Q]); columns in which pandas can produce NaN or an infinity are
    [float64].

    Time.  A pandas [Timestamp] is its number of nanoseconds since the
    epoch ([Z]); [isoformat()] strings and [pd.to_datetime] are the
    identity on that number. *)

From Stdlib Require Import String ZArith QArith Qabs List Sorted Permutation
  Bool Lia Lqa.
Import ListNotations.

Local Open Scope Z_scope.
Local Open Scope Q_scope.

(** ** Doubles *)

Module Float.

Inductive float64 : Type :=
| Fin (q : Q)
| PInf
| NInf
| NaN.

Definition Qlt_bool (x y : Q) : bool := negb (Qle_bool y x).

Definition isna (x : float64) : bool :=
  match x with NaN => true | _ => false end.

Definition fneg (x : float64) : float64 :=
  match x with
  | Fin q => Fin (- q)
  | PInf => NInf
  | NInf => PInf
  | NaN => NaN
  end.

Definition fadd (x y : float64) : float64 :=
  match x, y with
  | NaN, _ | _, NaN => NaN
  | Fin a, Fin b => Fin (Qred (a + b))
  | PInf, NInf | NInf, PInf => NaN
  | PInf, _ | _, PInf => PInf
  | NInf, _ | _, NInf => NInf
  end.

Definition fsub (x y : float64) : float64 := fadd x (fneg y).

(** The sign of an infinity scaled by the finite factor [q]; [0 * inf] is
    NaN. *)
Definition scale_inf (positive : bool) (q : Q) : float64 :=
  if Qeq_bool q 0 then NaN
  else if xorb positive (Qlt_bool q 0) then PInf else NInf.

Definition fmul (x y : float64) : float64 :=
  match x, y with
  | NaN, _ | _, NaN => NaN
  | Fin a, Fin b => Fin (Qred (a * b))
  | PInf, Fin q | Fin q, PInf => scale_inf true q
  | NInf, Fin q | Fin q, NInf => scale_inf false q
  | PInf, PInf | NInf, NInf => PInf
  | PInf, NInf | NInf, PInf => NaN
  end.

Definition fdiv (x y : float64) : float64 :=
  match x, y with
  | NaN, _ | _, NaN => NaN
  | Fin a, Fin b =>
      if Qeq_bool b 0 then
        if Qeq_bool a 0 then NaN
        else if Qlt_bool a 0 then NInf else PInf
      else Fin (Qred (a / b))
  | Fin _, PInf | Fin _, NInf => Fin 0
  | PInf, Fin b => if Qlt_bool b 0 then NInf else PInf
  | NInf, Fin b => if Qlt_bool b 0 then PInf else NInf
  | PInf, PInf | PInf, NInf | NInf, PInf | NInf, NInf => NaN
  end.

Definition fabs (x : float64) : float64 :=
  match x with
  | Fin q => Fin (Qabs q)
  | PInf | NInf => PInf
  | NaN => NaN
  end.

(** Comparisons: every comparison with NaN is false. *)
Definition fltb (x y : float64) : bool :=
  match x, y with
  | NaN, _ | _, NaN => false
  | Fin a, Fin b => Qlt_bool a b
  | NInf, NInf | PInf, _ => false
  | NInf, _ => true
  | Fin _, PInf => true
  | Fin _, NInf => false
  end.

Definition feqb (x y : float64) : bool :=
  match x, y with
  | Fin a, Fin b => Qeq_bool a b
  | PInf, PInf | NInf, NInf => true
  | _, _ => false
  end.

Definition fleb (x y : float64) : bool := fltb x y || feqb x y.
Definition fgtb (x y : float64) : bool := fltb y x.
Definition fgeb (x y : float64) : bool := fleb y x.

(** [Series.sum()]: NaN entries are skipped, the empty sum is 0. *)
Definition fsum (xs : list float64) : float64 :=
  fold_left fadd (filter (fun x => negb (isna x)) xs) (Fin 0).

(** [Series.mean()]: NaN entries are skipped; NaN when nothing is left. *)
Definition fmean (xs : list float64) : float64 :=
  let valid := filter (fun x => negb (isna x)) xs in
  match valid with
  | [] => NaN
  | _ => fdiv (fold_left fadd valid (Fin 0))
              (Fin (inject_Z (Z.of_nat (length valid))))
  end.

(** [Series.min()]: NaN entries are skipped; NaN when nothing is left. *)
Definition fmin2 (x y : float64) : float64 := if fltb y x then y else x.

Definition fmin (xs : list float64) : float64 :=
  match filter (fun x => negb (isna x)) xs with
  | [] => NaN
  | x :: rest => fold_left fmin2 rest x
  end.

(** [Series.fillna(0)] on one cell. *)
Definition fillna0 (x : float64) : float64 :=
  match x with NaN => Fin 0 | _ => x end.

(** [Series.replace(0, np.nan)] on one cell. *)
Definition replace0_nan (x : float64) : float64 :=
  if feqb x (Fin 0) then NaN else x.

End Float.
Import Float.

(** ** Data frames

    A raw frame is the list of its rows; a column is the list of one field.
    The frame's index is the position in the list. *)

Definition Timestamp := Z.

Record Bar : Type := mkBar {
  timestamp : Timestamp;
  open : Q;
  high : Q;
  low : Q;
  close : Q;
  volume : Q
}.

(** A row of the frame returned by [calculate_indicators]. *)
Record Row : Type := mkRow {
  bar : Bar;
  macd : Q;
  macd_signal : Q;
  macd_diff : Q;
  macd_prev : float64;
  macd_bullish : bool;
  macd_bearish : bool;
  ema6 : Q;
  ema7 : Q;
  ema21 : Q;
  bb_mid : float64;
  bb_std : float64;
  bb_high : float64;
  bb_low : float64;
  bb_width : float64;
  bb_width_prev : float64;
  bb_expanding : bool;
  rsi : float64;
  volume_usdt : Q
}.

(** *** Column operations *)

Fixpoint mapi_from {A B : Type} (f : nat -> A -> B) (i : nat) (l : list A)
  : list B :=
  match l with
  | [] => []
  | a :: l' => f i a :: mapi_from f (S i) l'
  end.

Definition mapi {A B : Type} (f : nat -> A -> B) (l : list A) : list B :=
  mapi_from f 0 l.

Fixpoint map2 {A B C : Type} (f : A -> B -> C) (xs : list A) (ys : list B)
  : list C :=
  match xs, ys with
  | x :: xs', y :: ys' => f x y :: map2 f xs' ys'
  | _, _ => []
  end.

(** [Series.iloc[i]] on a column; a missing cell reads as NaN when a frame
    is assembled. *)
Definition cell (col : list float64) (i : nat) : float64 := nth i col NaN.
Definition cellQ (col : list Q) (i : nat) : Q := nth i col 0.
Definition cellb (col : list bool) (i : nat) : bool := nth i col false.

(** [Series.shift(1)] *)
Definition shift1 (xs : list float64) : list float64 :=
  match xs with
  | [] => []
  | _ => NaN :: removelast xs
  end.

(** [Series.diff()] *)
Definition diff (xs : list float64) : list float64 :=
  map2 fsub xs (shift1 xs).

(** [Series.ewm(span=span, adjust=False).mean()]:
    [y0 = x0], [y_t = (1 - alpha) * y_(t-1) + alpha * x_t] with
    [alpha = 2 / (span + 1)]. *)
Fixpoint ewm_from (alpha prev : Q) (xs : list Q) : list Q :=
  match xs with
  | [] => []
  | x :: xs' =>
      let y := Qred ((1 - alpha) * prev + alpha * x) in
      y :: ewm_from alpha y xs'
  end.

Definition ewm_mean (span : Z) (xs : list Q) : list Q :=
  match xs with
  | [] => []
  | x0 :: xs' => x0 :: ewm_from (2 / (inject_Z span + 1)) x0 xs'
  end.

(** The cells [i - w + 1 .. i] of a column. *)
Definition window {A : Type} (w : nat) (xs : list A) (i : nat) : list A :=
  firstn w (skipn (i + 1 - w) xs).

Fixpoint all_finite (xs : list float64) : option (list Q) :=
  match xs with
  | [] => Some []
  | Fin q :: xs' =>
      match all_finite xs' with
      | Some qs => Some (q :: qs)
      | None => None
      end
  | _ :: _ => None
  end.

(** [Series.rolling(window=w)] followed by an aggregation: NaN until [w]
    observations are available ([min_periods] defaults to the window), and
    NaN for a window holding a NaN or an infinity. *)
Definition rolling (w : nat) (agg : list Q -> float64) (xs : list float64)
  : list float64 :=
  mapi (fun i _ =>
          if (i + 1 <? w)%nat then NaN
          else match all_finite (window w xs i) with
               | Some qs => agg qs
               | None => NaN
               end) xs.

Definition Qsum (qs : list Q) : Q :=
  fold_left (fun acc x => Qred (acc + x)) qs 0.

Definition Qlen (qs : list Q) : Q := inject_Z (Z.of_nat (List.length qs)).

Definition mean_agg (qs : list Q) : float64 :=
  match qs with
  | [] => NaN
  | _ => Fin (Qred (Qsum qs / Qlen qs))
  end.

(** ** Results and exceptions of a call *)

Inductive Exception : Type := IndexError.

Inductive Outcome (A : Type) : Type :=
| Returned (a : A)
| Raised (e : Exception).

Arguments Returned {A} a.
Arguments Raised {A} e.

(** A concrete square root for running the model: the rational square root
    rounded down to twelve decimal places. *)
Definition Qsqrt_floor (q : Q) : Q :=
  let scale := (10 ^ 12)%Z in
  Qmake (Z.sqrt (Qnum q * Zpos (Qden q) * scale * scale))
        (Qden q * Z.to_pos scale).

Section Simulator.

(** The square root of the floating-point unit, used by the rolling
    standard deviation only.  Nothing below depends on how it rounds. *)
Variable sqrt : Q -> Q.

(** Sample standard deviation ([ddof = 1]) of a full window. *)
Definition std_agg (qs : list Q) : float64 :=
  match qs with
  | [] | [_] => NaN
  | _ =>
      let m := Qred (Qsum qs / Qlen qs) in
      Fin (Qred (sqrt (Qred (Qsum (map (fun x => Qred ((x - m) * (x - m))) qs)
                             / (Qlen qs - 1)))))
  end.

(** ** Indicator engine: [ForwardTester.calculate_indicators] *)

Definition close_col (df : list Bar) : list Q := map close df.
Definition closeF_col (df : list Bar) : list float64 := map Fin (close_col df).

(** MACD *)
Definition exp1_col (df : list Bar) : list Q := ewm_mean 12 (close_col df).
Definition exp2_col (df : list Bar) : list Q := ewm_mean 26 (close_col df).
Definition macd_col (df : list Bar) : list Q :=
  map2 (fun a b => Qred (a - b)) (exp1_col df) (exp2_col df).
Definition macd_signal_col (df : list Bar) : list Q :=
  ewm_mean 9 (macd_col df).
Definition macd_diff_col (df : list Bar) : list Q :=
  map2 (fun a b => Qred (a - b)) (macd_col df) (macd_signal_col df).
Definition macd_prev_col (df : list Bar) : list float64 :=
  shift1 (map Fin (macd_diff_col df)).
Definition macd_bullish_col (df : list Bar) : list bool :=
  map2 (fun d p => fgtb (Fin d) (Fin 0) && fleb p (Fin 0))
       (macd_diff_col df) (macd_prev_col df).
Definition macd_bearish_col (df : list Bar) : list bool :=
  map2 (fun d p => fltb (Fin d) (Fin 0) && fgeb p (Fin 0))
       (macd_diff_col df) (macd_prev_col df).

(** EMAs *)
Definition ema6_col (df : list Bar) : list Q := ewm_mean 6 (close_col df).
Definition ema7_col (df : list Bar) : list Q := ewm_mean 7 (close_col df).
Definition ema21_col (df : list Bar) : list Q := ewm_mean 21 (close_col df).

(** Bollinger *)
Definition bb_mid_col (df : list Bar) : list float64 :=
  rolling 20 mean_agg (closeF_col df).
Definition bb_std_col (df : list Bar) : list float64 :=
  rolling 20 std_agg (closeF_col df).
Definition bb_high_col (df : list Bar) : list float64 :=
  map2 fadd (bb_mid_col df) (map (fun s => fmul s (Fin 2)) (bb_std_col df)).
Definition bb_low_col (df : list Bar) : list float64 :=
  map2 fsub (bb_mid_col df) (map (fun s => fmul s (Fin 2)) (bb_std_col df)).
Definition bb_width_col (df : list Bar) : list float64 :=
  map (fun x => fmul x (Fin 100))
      (map2 fdiv (map2 fsub (bb_high_col df) (bb_low_col df)) (closeF_col df)).
Definition bb_width_prev_col (df : list Bar) : list float64 :=
  shift1 (bb_width_col df).
Definition bb_expanding_col (df : list Bar) : list bool :=
  map2 (fun w wp =>
          fgtb (fmul (fdiv (fsub w wp) (replace0_nan wp)) (Fin 100))
               (Fin (1 # 2)))
       (bb_width_col df) (bb_width_prev_col df).

(** RSI *)
Definition delta_col (df : list Bar) : list float64 := diff (closeF_col df).
Definition gain_col (df : list Bar) : list float64 :=
  rolling 14 mean_agg
    (map (fun d => if fgtb d (Fin 0) then d else Fin 0) (delta_col df)).
Definition loss_col (df : list Bar) : list float64 :=
  rolling 14 mean_agg
    (map (fun d => fneg (if fltb d (Fin 0) then d else Fin 0)) (delta_col df)).
Definition rs_col (df : list Bar) : list float64 :=
  map2 fdiv (gain_col df) (map replace0_nan (loss_col df)).
Definition rsi_col (df : list Bar) : list float64 :=
  map (fun rs => fsub (Fin 100) (fdiv (Fin 100) (fadd (Fin 1) rs)))
      (rs_col df).

(** Volume *)
Definition volume_usdt_col (df : list Bar) : list Q :=
  map2 (fun v c => Qred (v * c)) (map volume df) (close_col df).

(** The returned frame: every input row with the new columns read at its
    index, after [fillna(0)]. *)
Definition calculate_indicators (df : list Bar) : list Row :=
  let c_macd := macd_col df in
  let c_macd_signal := macd_signal_col df in
  let c_macd_diff := macd_diff_col df in
  let c_macd_prev := macd_prev_col df in
  let c_macd_bullish := macd_bullish_col df in
  let c_macd_bearish := macd_bearish_col df in
  let c_ema6 := ema6_col df in
  let c_ema7 := ema7_col df in
  let c_ema21 := ema21_col df in
  let c_bb_mid := bb_mid_col df in
  let c_bb_std := bb_std_col df in
  let c_bb_high := bb_high_col df in
  let c_bb_low := bb_low_col df in
  let c_bb_width := bb_width_col df in
  let c_bb_width_prev := bb_width_prev_col df in
  let c_bb_expanding := bb_expanding_col df in
  let c_rsi := rsi_col df in
  let c_volume_usdt := volume_usdt_col df in
  mapi (fun i b =>
          {| bar := b;
             macd := cellQ c_macd i;
             macd_signal := cellQ c_macd_signal i;
             macd_diff := cellQ c_macd_diff i;
             macd_prev := fillna0 (cell c_macd_prev i);
             macd_bullish := cellb c_macd_bullish i;
             macd_bearish := cellb c_macd_bearish i;
             ema6 := cellQ c_ema6 i;
             ema7 := cellQ c_ema7 i;
             ema21 := cellQ c_ema21 i;
             bb_mid := fillna0 (cell c_bb_mid i);
             bb_std := fillna0 (cell c_bb_std i);
             bb_high := fillna0 (cell c_bb_high i);
             bb_low := fillna0 (cell c_bb_low i);
             bb_width := fillna0 (cell c_bb_width i);
             bb_width_prev := fillna0 (cell c_bb_width_prev i);
             bb_expanding := cellb c_bb_expanding i;
             rsi := fillna0 (cell c_rsi i);
             volume_usdt := cellQ c_volume_usdt i |})
       df.

(** ** Strategy simulator: [ForwardTester.__init__], [is_trading_hour], [run] *)

Inductive Side : Type := LONG | SHORT.

Inductive Reason : Type := STOP_LOSS | TAKE_PROFIT.

(** One entry of [self.trades]. *)
Record Trade : Type := mkTrade {
  side : Side;
  entry : Q;
  exit : Q;
  pnl_usdt : Q;
  pnl_pct : float64;
  reason : Reason;
  entry_time : Timestamp;
  exit_time : Timestamp;
  duration_min : Q
}.

(** The attributes of a [ForwardTester] that the simulation reads or
    writes.  Printing, the pacing delay of [simulate_real_time] and the
    Telegram notifier do not touch them and are left out. *)
Record ForwardTester : Type := mkTester {
  position_size : Q;
  fees : Q;
  stop_loss_pct : Q;
  take_profit_pct : Q;
  volume_min : Q;
  trading_hours : list (Z * Z);
  trades : list Trade;
  equity_curve : list (Timestamp * Q)
}.

Definition default_trading_hours : list (Z * Z) := [(7, 10); (12, 16)]%Z.

(** [__init__]: percentages are divided by 100, and a missing or empty
    list of trading hours is replaced by the default. *)
Definition init (position_size fees stop_loss take_profit volume_min : Q)
                (trading_hours : option (list (Z * Z))) : ForwardTester :=
  {| position_size := position_size;
     fees := fees;
     stop_loss_pct := stop_loss / 100;
     take_profit_pct := take_profit / 100;
     volume_min := volume_min;
     trading_hours := match trading_hours with
                      | None | Some [] => default_trading_hours
                      | Some hours => hours
                      end;
     trades := [];
     equity_curve := [] |}.

Definition ns_per_hour : Z := 3600000000000%Z.
Definition ns_per_day : Z := (24 * ns_per_hour)%Z.

(** [timestamp.hour] *)
Definition hour (ts : Timestamp) : Z := ((ts / ns_per_hour) mod 24)%Z.

Definition is_trading_hour (self : ForwardTester) (ts : Timestamp) : bool :=
  existsb (fun '(start, stop) => ((start <=? hour ts) && (hour ts <? stop))%Z)
          (trading_hours self).

(** The local variables [position], [entry_price], [entry_time]: they are
    assigned together on entry and read only while [position] is set. *)
Record Position : Type := mkPosition {
  pos_side : Side;
  entry_price : Q;
  pos_entry_time : Timestamp
}.

(** The state carried through the loop of [run]. *)
Record State : Type := mkState {
  tester : ForwardTester;
  position : option Position;
  capital : Q
}.

Definition set_position (st : State) (p : option Position) : State :=
  {| tester := tester st; position := p; capital := capital st |}.

(** [self.trades.append(trade); self.equity_curve.append(point)] *)
Definition record_trade (t : ForwardTester) (trade : Trade)
                        (point : Timestamp * Q) : ForwardTester :=
  {| position_size := position_size t;
     fees := fees t;
     stop_loss_pct := stop_loss_pct t;
     take_profit_pct := take_profit_pct t;
     volume_min := volume_min t;
     trading_hours := trading_hours t;
     trades := trades t ++ [trade];
     equity_curve := equity_curve t ++ [point] |}.

Definition set_equity_curve (t : ForwardTester)
                            (curve : list (Timestamp * Q)) : ForwardTester :=
  {| position_size := position_size t;
     fees := fees t;
     stop_loss_pct := stop_loss_pct t;
     take_profit_pct := take_profit_pct t;
     volume_min := volume_min t;
     trading_hours := trading_hours t;
     trades := trades t;
     equity_curve := curve |}.

(** The three filters at the head of the loop body. *)
Definition passes_filters (t : ForwardTester) (row : Row) : bool :=
  is_trading_hour t (timestamp (bar row))
  && negb (Qlt_bool (volume_usdt row) (volume_min t))
  && bb_expanding row.

Definition long_signal (row : Row) : bool :=
  macd_bullish row
  && Qlt_bool (ema6 row) (close (bar row))
  && Qlt_bool (ema21 row) (ema7 row).

Definition short_signal (row : Row) : bool :=
  macd_bearish row
  && Qlt_bool (close (bar row)) (ema6 row)
  && Qlt_bool (ema7 row) (ema21 row).

(** Stop-loss and take-profit prices of an open position. *)
Definition sl_price (t : ForwardTester) (p : Position) : Q :=
  match pos_side p with
  | LONG => entry_price p * (1 - stop_loss_pct t)
  | SHORT => entry_price p * (1 + stop_loss_pct t)
  end.

Definition tp_price (t : ForwardTester) (p : Position) : Q :=
  match pos_side p with
  | LONG => entry_price p * (1 + take_profit_pct t)
  | SHORT => entry_price p * (1 - take_profit_pct t)
  end.

(** The two trigger conditions, as the source tests them. *)
Definition stop_hit (t : ForwardTester) (p : Position) (price : Q) : bool :=
  match pos_side p with
  | LONG => Qle_bool price (sl_price t p)
  | SHORT => Qle_bool (sl_price t p) price
  end.

Definition target_hit (t : ForwardTester) (p : Position) (price : Q) : bool :=
  match pos_side p with
  | LONG => Qle_bool (tp_price t p) price
  | SHORT => Qle_bool price (tp_price t p)
  end.

(** The [if / elif] of the exit: the stop is tested first. *)
Definition exit_decision (t : ForwardTester) (p : Position) (price : Q)
  : option (Q * Reason) :=
  match pos_side p with
  | LONG =>
      if Qle_bool price (sl_price t p) then
        Some (price * (1 - fees t), STOP_LOSS)
      else if Qle_bool (tp_price t p) price then
        Some (price * (1 - fees t), TAKE_PROFIT)
      else None
  | SHORT =>
      if Qle_bool (sl_price t p) price then
        Some (price * (1 + fees t), STOP_LOSS)
      else if Qle_bool price (tp_price t p) then
        Some (price * (1 + fees t), TAKE_PROFIT)
      else None
  end.

Definition ns_per_second : Q := 1000000000.

Definition close_trade (t : ForwardTester) (p : Position) (ts : Timestamp)
                       (exit_price : Q) (why : Reason) : Trade :=
  let pnl :=
    match pos_side p with
    | LONG => (exit_price - entry_price p) * position_size t
    | SHORT => (entry_price p - exit_price) * position_size t
    end in
  {| side := pos_side p;
     entry := entry_price p;
     exit := exit_price;
     pnl_usdt := pnl;
     pnl_pct := fmul (fdiv (Fin pnl) (Fin (entry_price p * position_size t)))
                     (Fin 100);
     reason := why;
     entry_time := pos_entry_time p;
     exit_time := ts;
     duration_min :=
       inject_Z (ts - pos_entry_time p) / ns_per_second / 60 |}.

(** One iteration of [for i in range(30, len(df))]. *)
Definition body (st : State) (row : Row) : State :=
  let t := tester st in
  let ts := timestamp (bar row) in
  let price := close (bar row) in
  if negb (is_trading_hour t ts) then st
  else if Qlt_bool (volume_usdt row) (volume_min t) then st
  else if negb (bb_expanding row) then st
  else
    match position st with
    | None =>
        if long_signal row then
          set_position st
            (Some {| pos_side := LONG;
                     entry_price := price * (1 + fees t);
                     pos_entry_time := ts |})
        else if short_signal row then
          set_position st
            (Some {| pos_side := SHORT;
                     entry_price := price * (1 - fees t);
                     pos_entry_time := ts |})
        else st
    | Some p =>
        match exit_decision t p price with
        | Some (exit_price, why) =>
            let trade := close_trade t p ts exit_price why in
            let capital' := capital st + pnl_usdt trade in
            {| tester := record_trade t trade (ts, capital');
               position := None;
               capital := capital' |}
        | None => st
        end
    end.

(** ** Report generator: [ForwardTester.generate_report] *)

Record Report : Type := mkReport {
  n_trades : nat;
  wins : nat;
  losses : nat;
  win_rate : Q;
  avg_win : float64;
  avg_loss : float64;
  profit_factor : float64;
  expectancy : float64;
  total_return_pct : float64;
  max_drawdown_pct : float64;
  final_capital : Q;
  initial_capital : Q;
  trades_df : list Trade;
  report_equity_curve : list (Timestamp * Q)
}.

(** The dictionary that [generate_report] returns: either the single entry
    ['error'] or the fourteen entries of a report. *)
Inductive ReportDict : Type :=
| ErrorEntry (error : string)
| ReportEntries (report : Report).

Definition keys (d : ReportDict) : list string :=
  match d with
  | ErrorEntry _ => ["error"%string]
  | ReportEntries _ =>
      ["trades"; "wins"; "losses"; "win_rate"; "avg_win"; "avg_loss";
       "profit_factor"; "expectancy"; "total_return_pct";
       "max_drawdown_pct"; "final_capital"; "initial_capital";
       "trades_df"; "equity_curve"]%string
  end.

Definition has_key (k : string) (d : ReportDict) : bool :=
  existsb (String.eqb k) (keys d).

Definition no_trade_message : string := "Nenhum trade executado".

(** [df_trades['pnl_pct'] > 0] and [df_trades['pnl_pct'] <= 0] *)
Definition is_win (t : Trade) : bool := fgtb (pnl_pct t) (Fin 0).
Definition is_loss (t : Trade) : bool := fleb (pnl_pct t) (Fin 0).

(** [equity.expanding().max()] *)
Fixpoint expanding_max_from (peak : Q) (xs : list Q) : list Q :=
  match xs with
  | [] => []
  | x :: xs' =>
      let peak' := if Qlt_bool peak x then x else peak in
      peak' :: expanding_max_from peak' xs'
  end.

Definition expanding_max (xs : list Q) : list Q :=
  match xs with
  | [] => []
  | x :: xs' => x :: expanding_max_from x xs'
  end.

Definition drawdown (equity : list Q) : list float64 :=
  map2 (fun e peak => fmul (fdiv (Fin (e - peak)) (Fin peak)) (Fin 100))
       equity (expanding_max equity).

Definition nat_Q (n : nat) : Q := inject_Z (Z.of_nat n).

Definition generate_report (self : ForwardTester)
                           (final_capital initial_price : Q) : ReportDict :=
  match trades self with
  | [] => ErrorEntry no_trade_message
  | _ =>
      let df_trades := trades self in
      let winners := filter is_win df_trades in
      let losers := filter is_loss df_trades in
      let wins := List.length winners in
      let losses := List.length losers in
      let equity := map snd (equity_curve self) in
      let start := position_size self * initial_price in
      ReportEntries
        {| n_trades := List.length df_trades;
           wins := wins;
           losses := losses;
           win_rate := nat_Q wins / nat_Q (List.length df_trades) * 100;
           avg_win := if (0 <? wins)%nat then fmean (map pnl_pct winners)
                      else Fin 0;
           avg_loss := if (0 <? losses)%nat then fmean (map pnl_pct losers)
                       else Fin 0;
           profit_factor :=
             if (0 <? losses)%nat
             then fabs (fdiv (fsum (map pnl_pct winners))
                             (fsum (map pnl_pct losers)))
             else Fin 0;
           expectancy := fmean (map pnl_pct df_trades);
           total_return_pct :=
             fmul (fdiv (Fin (final_capital - start)) (Fin start)) (Fin 100);
           max_drawdown_pct := fmin (drawdown equity);
           final_capital := final_capital;
           initial_capital := start;
           trades_df := df_trades;
           report_equity_curve := equity_curve self |}
  end.

(** ** [ForwardTester.run] *)

Definition max_timestamp (df : list Bar) : Timestamp :=
  match df with
  | [] => 0%Z
  | b :: rest => fold_left (fun m x => Z.max m (timestamp x)) rest (timestamp b)
  end.

(** The bars of the last [days] days, counted back from the latest bar. *)
Definition recent_bars (days : Z) (df : list Bar) : list Bar :=
  let cutoff := (max_timestamp df - days * ns_per_day)%Z in
  filter (fun b => (cutoff <=? timestamp b)%Z) df.

(** [if days_to_test and len(df) > 100: ...] *)
Definition select_bars (days_to_test : option Z) (df : list Bar) : list Bar :=
  match days_to_test with
  | Some days =>
      if negb (days =? 0)%Z && (100 <? List.length df)%nat
      then recent_bars days df
      else df
  | None => df
  end.

(** The loop over the rows from position 30 on. *)
Definition run_loop (st : State) (df : list Row) : State :=
  fold_left body (skipn 30 df) st.

(** [run] returns the report, or raises; the second component is the
    tester after the call. *)
Definition run (self : ForwardTester) (df : list Bar)
               (days_to_test : option Z)
  : Outcome ReportDict * ForwardTester :=
  let df := calculate_indicators (select_bars days_to_test df) in
  match df with
  | [] => (Raised IndexError, self)
  | first :: _ =>
      let initial_price := close (bar first) in
      let start := position_size self * initial_price in
      let self1 := set_equity_curve self [(timestamp (bar first), start)] in
      let st := run_loop {| tester := self1; position := None;
                            capital := start |} df in
      (Returned (generate_report (tester st) (capital st) initial_price),
       tester st)
  end.

(** ** Divergence analyzer: [DivergenceAnalyzer] *)

Inductive DivergenceType : Type := BEARISH | BULLISH | WARNING.

Inductive Severity : Type := HIGH | MEDIUM.

Inductive TradeResult : Type := WIN | LOSS.

(** A divergence dictionary.  The last three entries are absent until the
    correlation pass of [analyze] sets them. *)
Record Divergence : Type := mkDivergence {
  div_timestamp : Timestamp;
  div_type : DivergenceType;
  indicator : string;
  price_action : string;
  indicator_action : string;
  severity : Severity;
  price : Q;
  impacted_trade : option bool;
  trade_side : option Side;
  trade_result : option TradeResult
}.

Definition new_divergence (ts : Timestamp) (ty : DivergenceType)
                          (ind pa ia : string) (sev : Severity) (p : Q)
  : Divergence :=
  {| div_timestamp := ts; div_type := ty; indicator := ind;
     price_action := pa; indicator_action := ia; severity := sev;
     price := p;
     impacted_trade := None; trade_side := None; trade_result := None |}.

(** [xs.iloc[a:b]] *)
Definition slice {A : Type} (a b : nat) (xs : list A) : list A :=
  firstn (b - a) (skipn a xs).

Definition Qmax_list (xs : list Q) : Q :=
  match xs with
  | [] => 0
  | x :: rest => fold_left (fun m y => if Qlt_bool m y then y else m) rest x
  end.

Definition Qmin_list (xs : list Q) : Q :=
  match xs with
  | [] => 0
  | x :: rest => fold_left (fun m y => if Qlt_bool y m then y else m) rest x
  end.

(** Position of the first cell that beats all earlier ones. *)
Fixpoint arg_best (better : Q -> Q -> bool) (xs : list Q)
                  (i best_i : nat) (best : Q) : nat :=
  match xs with
  | [] => best_i
  | x :: xs' =>
      if better x best then arg_best better xs' (S i) i x
      else arg_best better xs' (S i) best_i best
  end.

(** [xs.iloc[a:b].idxmax()] and [idxmin()], as positions in [xs]. *)
Definition idxmax (a b : nat) (xs : list Q) : nat :=
  match slice a b xs with
  | [] => a
  | x :: rest => arg_best (fun y best => Qlt_bool best y) rest (S a) a x
  end.

Definition idxmin (a b : nat) (xs : list Q) : nat :=
  match slice a b xs with
  | [] => a
  | x :: rest => arg_best (fun y best => Qlt_bool y best) rest (S a) a x
  end.

Definition high_col (df : list Row) : list Q := map (fun r => high (bar r)) df.
Definition low_col (df : list Row) : list Q := map (fun r => low (bar r)) df.

Definition row_timestamp (df : list Row) (i : nat) : Timestamp :=
  nth i (map (fun r => timestamp (bar r)) df) 0%Z.
Definition row_close (df : list Row) (i : nat) : Q :=
  cellQ (map (fun r => close (bar r)) df) i.

(** The two tests of [detect_rsi_divergence] at position [i]. *)
Definition rsi_top (df : list Row) (w i : nat) : list Divergence :=
  let highs := high_col df in
  let rsis := map rsi df in
  if Qlt_bool (Qmax_list (slice (i - w) i highs)) (cellQ highs i)
     && Qlt_bool (Qmax_list (slice (i + 1) (i + w + 1) highs)) (cellQ highs i)
  then
    let prev_high_idx := idxmax (i - w) i highs in
    if Qlt_bool (cellQ highs prev_high_idx) (cellQ highs i)
       && fltb (cell rsis i) (fsub (cell rsis prev_high_idx) (Fin 5))
    then [new_divergence (row_timestamp df i) BEARISH "RSI"
            "Topo mais alto" "Topo mais baixo"
            (if fltb (cell rsis i) (Fin 50) then HIGH else MEDIUM)
            (row_close df i)]
    else []
  else [].

Definition rsi_bottom (df : list Row) (w i : nat) : list Divergence :=
  let lows := low_col df in
  let rsis := map rsi df in
  if Qlt_bool (cellQ lows i) (Qmin_list (slice (i - w) i lows))
     && Qlt_bool (cellQ lows i) (Qmin_list (slice (i + 1) (i + w + 1) lows))
  then
    let prev_low_idx := idxmin (i - w) i lows in
    if Qlt_bool (cellQ lows i) (cellQ lows prev_low_idx)
       && fgtb (cell rsis i) (fadd (cell rsis prev_low_idx) (Fin 5))
    then [new_divergence (row_timestamp df i) BULLISH "RSI"
            "Fundo mais baixo" "Fundo mais alto"
            (if fgtb (cell rsis i) (Fin 50) then HIGH else MEDIUM)
            (row_close df i)]
    else []
  else [].

(** [range(a, b)] *)
Definition range (a b : nat) : list nat := seq a (b - a).

Definition detect_rsi_divergence (df : list Row) (w : nat) : list Divergence :=
  flat_map (fun i => rsi_top df w i ++ rsi_bottom df w i)
           (range w (List.length df - w)).

Definition macd_top (df : list Row) (w i : nat) : list Divergence :=
  let macds := map macd df in
  let highs := high_col df in
  if Qlt_bool (Qmax_list (slice (i - w) i macds)) (cellQ macds i)
     && Qlt_bool (Qmax_list (slice (i + 1) (i + w + 1) macds)) (cellQ macds i)
  then
    let prev_price_high := cellQ highs (idxmax (i - w) i highs) in
    if Qlt_bool (cellQ highs i)
                (prev_price_high - prev_price_high * (5 # 1000))
    then [new_divergence (row_timestamp df i) BEARISH "MACD"
            "Preço não confirma topo MACD" "MACD topo mais alto" HIGH
            (row_close df i)]
    else []
  else [].

Definition detect_macd_divergence (df : list Row) (w : nat) : list Divergence :=
  flat_map (macd_top df w) (range w (List.length df - w)).

Definition volume_fade (df : list Row) (w i : nat) : list Divergence :=
  let vols := map volume_usdt df in
  if Qlt_bool (cellQ (map ema21 df) i) (cellQ (map ema7 df) i) then
    let recent := slice (i - w) i vols in
    let recent_volume := Qsum recent / Qlen recent in
    if Qlt_bool (cellQ vols i) (recent_volume * (7 # 10))
    then [new_divergence (row_timestamp df i) WARNING "Volume"
            "Tendência alta com volume decrescente"
            "Volume 30% abaixo da média" MEDIUM (row_close df i)]
    else []
  else [].

Definition detect_volume_divergence (df : list Row) (w : nat)
  : list Divergence :=
  flat_map (volume_fade df w) (range w (List.length df)).

(** The test of the correlation pass: the divergence lies within the
    trade's window, bounds included. *)
Definition holds (div : Divergence) (trade : Trade) : bool :=
  ((entry_time trade <=? div_timestamp div)
   && (div_timestamp div <=? exit_time trade))%Z.

(** The inner loop of the correlation pass: the first trade whose
    [entry_time .. exit_time] holds the divergence annotates it. *)
Fixpoint correlate (div : Divergence) (trades_df : list Trade) : Divergence :=
  match trades_df with
  | [] => div
  | trade :: rest =>
      if holds div trade then
        {| div_timestamp := div_timestamp div;
           div_type := div_type div;
           indicator := indicator div;
           price_action := price_action div;
           indicator_action := indicator_action div;
           severity := severity div;
           price := price div;
           impacted_trade := Some true;
           trade_side := Some (side trade);
           trade_result :=
             Some (if fgtb (pnl_pct trade) (Fin 0) then WIN else LOSS) |}
      else correlate div rest
  end.

(** [list.sort(key=lambda x: x['timestamp'])]: a stable sort. *)
Fixpoint insert_by_time (d : Divergence) (sorted : list Divergence)
  : list Divergence :=
  match sorted with
  | [] => [d]
  | x :: rest =>
      if (div_timestamp x <=? div_timestamp d)%Z
      then x :: insert_by_time d rest
      else d :: x :: rest
  end.

Definition sort_by_time (ds : list Divergence) : list Divergence :=
  fold_left (fun sorted d => insert_by_time d sorted) ds [].

(** The divergences of the three detectors with their default windows. *)
Definition detect_all (df : list Row) : list Divergence :=
  detect_rsi_divergence df 5
  ++ detect_macd_divergence df 5
  ++ detect_volume_divergence df 10.

(** [DivergenceAnalyzer.analyze] *)
Definition analyze (df : list Row) (trades_df : option (list Trade))
  : list Divergence :=
  let all_divergences := detect_all df in
  let correlated :=
    match trades_df with
    | Some ts => map (fun div => correlate div ts) all_divergences
    | None => all_divergences
    end in
  sort_by_time correlated.

(** ** Vocabulary of the properties *)

Definition row_time (row : Row) : Timestamp := timestamp (bar row).

Definition exits_after_entry (trade : Trade) : Prop :=
  (entry_time trade < exit_time trade)%Z.

(** The report entries of a call that returned them. *)
Definition report_of (out : Outcome ReportDict) : option Report :=
  match out with
  | Returned (ReportEntries r) => Some r
  | _ => None
  end.

(** ** Sample inputs

    Bars a quarter of an hour apart starting at midnight of the epoch day,
    so that the bars from position 28 on fall into the default trading
    hours; every bar has open = high = low = close and base volume 1000. *)

Definition quarter_hour : Z := 900000000000%Z.

Definition sample_bar (i : Z) (c : Q) : Bar :=
  {| timestamp := (i * quarter_hour)%Z;
     open := c; high := c; low := c; close := c; volume := 1000 |}.

Definition upto (n : nat) : list Z := map Z.of_nat (seq 0 n).

(** Fifteen bars closing at 1, 2, ..., 15: every delta is a gain. *)
Definition rising_series : list Bar :=
  map (fun i => sample_bar i (inject_Z i + 1)) (upto 15).

(** Thirty bars drifting down by one cent a bar from 100. *)
Definition drift : list Bar :=
  map (fun i => sample_bar i (100 - inject_Z i / 100)) (upto 30).

(** A jump to 110 at position 30 (a LONG entry), then 120 (take-profit). *)
Definition winning_series : list Bar :=
  drift ++ [sample_bar 30 110; sample_bar 31 120; sample_bar 32 121].

(** The same entry, then 105 (stop-loss). *)
Definition losing_series : list Bar :=
  drift ++ [sample_bar 30 110; sample_bar 31 105; sample_bar 32 121].

(** Forty bars at a constant 100. *)
Definition flat_series : list Bar :=
  map (fun i => sample_bar i 100) (upto 40).

(** Five bars. *)
Definition short_series : list Bar :=
  map (fun i => sample_bar i 100) (upto 5).

(** Forty bars one day apart, and 120 bars a quarter of an hour apart. *)
Definition daily_series : list Bar :=
  map (fun i => sample_bar (96 * i) 100) (upto 40).

Definition long_series : list Bar :=
  map (fun i => sample_bar i 100) (upto 120).

(** The tester of the default configuration. *)
Definition default_tester : ForwardTester :=
  init 40 (15 # 10000) (8 # 10) (15 # 10) 75000 None.

(** A tester without fees whose stop and target both sit at the entry
    price. *)
Definition tight_tester : ForwardTester := init 40 0 0 0 75000 None.

(** A row at 07:15 that passes the three filters and gives no entry
    signal, and the same row at 03:15, outside the trading hours. *)
Definition plain_row (ts : Timestamp) (c : Q) : Row :=
  {| bar := {| timestamp := ts; open := c; high := c; low := c; close := c;
               volume := 1000 |};
     macd := 0; macd_signal := 0; macd_diff := 0; macd_prev := Fin 0;
     macd_bullish := false; macd_bearish := false;
     ema6 := c; ema7 := c; ema21 := c;
     bb_mid := Fin c; bb_std := Fin 1; bb_high := Fin (c + 2);
     bb_low := Fin (c - 2); bb_width := Fin 4; bb_width_prev := Fin 3;
     bb_expanding := true; rsi := Fin 50; volume_usdt := 1000 * c |}.

Definition row_0715 : Row := plain_row (29 * quarter_hour)%Z 100.
Definition row_0315 : Row := plain_row (13 * quarter_hour)%Z 100.

(** A LONG position opened at 100 at 07:00 on the tight tester. *)
Definition holding_long : State :=
  {| tester := set_equity_curve tight_tester [(0%Z, 4000)];
     position := Some {| pos_side := LONG; entry_price := 100;
                         pos_entry_time := (28 * quarter_hour)%Z |};
     capital := 4000 |}.

(** Trades for the report generator: one won, one lost, one flat. *)
Definition sample_trade (s : Side) (pct : Q) (why : Reason)
                        (t_in t_out : Timestamp) : Trade :=
  {| side := s; entry := 100; exit := 100 + pct;
     pnl_usdt := 40 * pct; pnl_pct := Fin pct; reason := why;
     entry_time := t_in; exit_time := t_out;
     duration_min := inject_Z (t_out - t_in) / ns_per_second / 60 |}.

Definition won_trade : Trade :=
  sample_trade LONG (3 # 2) TAKE_PROFIT
    (28 * quarter_hour)%Z (29 * quarter_hour)%Z.
Definition lost_trade : Trade :=
  sample_trade LONG (- (1)) STOP_LOSS
    (30 * quarter_hour)%Z (31 * quarter_hour)%Z.
Definition flat_trade : Trade :=
  sample_trade SHORT 0 STOP_LOSS
    (32 * quarter_hour)%Z (34 * quarter_hour)%Z.

Definition tester_with (ts : list Trade) : ForwardTester :=
  fold_left (fun t tr => record_trade t tr (exit_time tr, 4000 + pnl_usdt tr))
            ts (set_equity_curve default_tester [(0%Z, 4000)]).

(** A divergence stamped 08:15, inside the window of [flat_trade]. *)
Definition sample_divergence : Divergence :=
  new_divergence (33 * quarter_hour)%Z WARNING "Volume"
    "Tendência alta com volume decrescente" "Volume 30% abaixo da média"
    MEDIUM 100.

End Simulator.

(** * Further code and vocabulary *)

(** ** Bookkeeping of a run *)

(** The equity points that closing the trades [new] one after the other
    appends, starting from the capital [c]. *)
Fixpoint equity_points (c : Q) (new : list Trade) : list (Timestamp * Q) :=
  match new with
  | [] => []
  | trade :: rest =>
      (exit_time trade, c + pnl_usdt trade)
      :: equity_points (c + pnl_usdt trade) rest
  end.

(** The capital after closing the trades [new]. *)
Definition capital_after (c : Q) (new : list Trade) : Q :=
  fold_left (fun acc trade => acc + pnl_usdt trade) new c.

(** Entry and exit instants of a list of trades, in order. *)
Definition trade_times (new : list Trade) : list Timestamp :=
  flat_map (fun trade => [entry_time trade; exit_time trade]) new.

Definition open_time (st : State) : list Timestamp :=
  match position st with
  | Some p => [pos_entry_time p]
  | None => []
  end.

(** A configuration with fees between 0 and 1 and a non-negative stop
    distance and position size. *)
Definition sane_config (t : ForwardTester) : Prop :=
  0 <= fees t /\ fees t <= 1
  /\ 0 <= stop_loss_pct t
  /\ 0 <= position_size t.

(** ** Error rates: [DivergenceAnalyzer.calculate_error_rates] *)

Module Impact.
Inductive Level : Type := HIGH | MEDIUM | LOW.
End Impact.

(** The value stored under one indicator after the first loop, and after
    the second. *)
Record Tally : Type := mkTally {
  count : nat;
  impacted_losses : nat
}.

Record IndicatorStats : Type := mkStats {
  stats_count : nat;
  stats_impacted_losses : nat;
  error_rate : Q;
  impact_level : Impact.Level
}.

(** [div.get('impacted_trade') and div.get('trade_result') == 'LOSS'] *)
Definition impacted_loss (div : Divergence) : bool :=
  match impacted_trade div, trade_result div with
  | Some true, Some LOSS => true
  | _, _ => false
  end.

(** One iteration of the first loop on the dictionary [stats], kept in
    insertion order: the indicator's entry is created when missing, then
    counted up in place. *)
Fixpoint tally_one (div : Divergence) (stats : list (string * Tally))
  : list (string * Tally) :=
  let hit := if impacted_loss div then 1%nat else 0%nat in
  match stats with
  | [] => [(indicator div, {| count := 1; impacted_losses := hit |})]
  | (name, s) :: rest =>
      if String.eqb name (indicator div)
      then (name, {| count := count s + 1;
                     impacted_losses := impacted_losses s + hit |}) :: rest
      else (name, s) :: tally_one div rest
  end.

Definition tally (divergences : list Divergence) : list (string * Tally) :=
  fold_left (fun stats div => tally_one div stats) divergences [].

(** The second loop: rate and level of one entry. *)
Definition rate_of (s : Tally) : Q :=
  if (0 <? count s)%nat
  then nat_Q (impacted_losses s) / nat_Q (count s) * 100
  else 0.

Definition level_of (rate : Q) : Impact.Level :=
  if Qlt_bool 60 rate then Impact.HIGH
  else if Qlt_bool 40 rate then Impact.MEDIUM
  else Impact.LOW.

Definition finish (s : Tally) : IndicatorStats :=
  {| stats_count := count s;
     stats_impacted_losses := impacted_losses s;
     error_rate := rate_of s;
     impact_level := level_of (rate_of s) |}.

Definition calculate_error_rates (divergences : list Divergence)
                                 (trades_df : option (list Trade))
  : list (string * IndicatorStats) :=
  match divergences, trades_df with
  | [], _ | _, None => []
  | _, Some _ => map (fun '(name, s) => (name, finish s)) (tally divergences)
  end.

(** Number of divergences of an indicator, and of those that hit a losing
    trade. *)
Definition events_of (name : string) (divergences : list Divergence) : nat :=
  List.length (filter (fun d => String.eqb name (indicator d)) divergences).

Definition losses_of (name : string) (divergences : list Divergence) : nat :=
  List.length
    (filter (fun d => String.eqb name (indicator d) && impacted_loss d)
            divergences).

(** ** Market data: the volume estimate of [CoinGeckoData.get_ohlc_days] *)

(** [Series.clip(lower, upper)] on one cell; NaN stays NaN. *)
Definition clip (lower upper : Q) (x : float64) : float64 :=
  match x with
  | NaN => NaN
  | _ => if fltb x (Fin lower) then Fin lower
         else if fltb (Fin upper) x then Fin upper
         else x
  end.

(** [((high - low) / close * 100000).clip(1000, 500000)] *)
Definition estimated_volume (high low close : Q) : float64 :=
  clip 1000 500000
       (fmul (fdiv (fsub (Fin high) (Fin low)) (Fin close)) (Fin 100000)).


(** A double that compares [<= 0]. *)
Definition at_most_zero (x : float64) : Prop := fleb x (Fin 0) = true.

(** What a detector reports: an event without correlation entries that
    carries the time and close of a row, of one of the three kinds. *)
Definition fresh_event (df : list Row) (d : Divergence) : Prop :=
  impacted_trade d = None /\ trade_side d = None /\ trade_result d = None
  /\ (exists row, In row df
                  /\ div_timestamp d = row_time row
                  /\ price d = close (bar row))
  /\ ((indicator d = "RSI"%string
       /\ (div_type d = BEARISH \/ div_type d = BULLISH))
      \/ (indicator d = "MACD"%string
          /\ div_type d = BEARISH /\ severity d = HIGH)
      \/ (indicator d = "Volume"%string
          /\ div_type d = WARNING /\ severity d = MEDIUM)).

(** Two testers with the same configuration (the trade list and the
    equity curve may differ). *)
Definition same_config (a b : ForwardTester) : Prop :=
  position_size a = position_size b
  /\ fees a = fees b
  /\ stop_loss_pct a = stop_loss_pct b
  /\ take_profit_pct a = take_profit_pct b
  /\ volume_min a = volume_min b
  /\ trading_hours a = trading_hours b.


(** A cell that is NaN or a number [>= 0]. *)
Definition nonneg_or_nan (x : float64) : Prop :=
  match x with
  | Fin q => 0 <= q
  | NaN => True
  | PInf | NInf => False
  end.

(** A cell that is NaN or a number. *)
Definition number_or_nan (x : float64) : Prop :=
  match x with
  | Fin _ | NaN => True
  | PInf | NInf => False
  end.


(** [stats[name]] on a dictionary kept as a list of entries. *)
Fixpoint lookup {V : Type} (name : string) (stats : list (string * V))
  : option V :=
  match stats with
  | [] => None
  | (key, v) :: rest =>
      if String.eqb key name then Some v else lookup name rest
  end.

(** The sum of the counts of a dictionary of error rates. *)
Definition total_count (stats : list (string * IndicatorStats)) : nat :=
  fold_right (fun entry acc => (stats_count (snd entry) + acc)%nat) 0%nat
             stats.


(** Count and impacted losses stored under [name], (0, 0) when absent. *)
Definition tally_of (name : string) (stats : list (string * Tally))
  : nat * nat :=
  match lookup name stats with
  | Some s => (count s, impacted_losses s)
  | None => (0%nat, 0%nat)
  end.


(** A position opened by the tester [t] on the row [row]: the row passed
    the filters and gave the signal of the position's side, and the entry
    price is the close with the fee added (LONG) or taken off (SHORT). *)
Definition opened_at (t : ForwardTester) (row : Row) (p : Position) : Prop :=
  passes_filters t row = true
  /\ pos_entry_time p = row_time row
  /\ ((pos_side p = LONG /\ long_signal row = true
       /\ entry_price p = close (bar row) * (1 + fees t))
      \/ (pos_side p = SHORT /\ long_signal row = false
          /\ short_signal row = true
          /\ entry_price p = close (bar row) * (1 - fees t))).

(** The trade booked when the tester [t] closes the position [p] on the
    row [row]. *)
Definition closed_at (t : ForwardTester) (row : Row) (p : Position)
                     (trade : Trade) : Prop :=
  passes_filters t row = true
  /\ exists exit_price why,
       exit_decision t p (close (bar row)) = Some (exit_price, why)
       /\ trade = close_trade t p (row_time row) exit_price why.


(** ** Further sample inputs *)

(** Twelve plain rows at a constant price. *)
Definition constant_rows : list Row :=
  map (fun i => plain_row (i * quarter_hour)%Z 100) (upto 12).

(** A row in an uptrend (EMA7 above EMA21) with the given quote volume. *)
Definition uptrend_row (i : Z) (quote_volume : Q) : Row :=
  {| bar := {| timestamp := (i * quarter_hour)%Z; open := 100; high := 100;
               low := 100; close := 100; volume := quote_volume / 100 |};
     macd := 0; macd_signal := 0; macd_diff := 0; macd_prev := Fin 0;
     macd_bullish := false; macd_bearish := false;
     ema6 := 100; ema7 := 101; ema21 := 100;
     bb_mid := Fin 100; bb_std := Fin 1; bb_high := Fin 102;
     bb_low := Fin 98; bb_width := Fin 4; bb_width_prev := Fin 4;
     bb_expanding := false; rsi := Fin 50; volume_usdt := quote_volume |}.

(** Ten rows with a quote volume of 100000, then one with 50000. *)
Definition fading_rows : list Row :=
  map (fun i => uptrend_row i 100000) (upto 10) ++ [uptrend_row 10 50000].

(** Three divergences: two of the RSI, one of them on a losing trade, and
    one of the volume. *)
Definition rsi_event (ts : Timestamp) : Divergence :=
  new_divergence ts BEARISH "RSI" "Topo mais alto" "Topo mais baixo" HIGH 100.

Definition sample_events : list Divergence :=
  [correlate (rsi_event (30 * quarter_hour)%Z) [won_trade; lost_trade];
   rsi_event (40 * quarter_hour)%Z;
   sample_divergence].


(** * Properties *)

(** ** Arithmetic and list facts *)

Lemma Qlt_bool_iff (x y : Q) : Qlt_bool x y = true <-> x < y.
Proof.
  unfold Qlt_bool. rewrite negb_true_iff.
  split; intro H.
  - apply Qnot_le_lt. intro Hle. apply Qle_bool_iff in Hle. congruence.
  - destruct (Qle_bool y x) eqn:E; [|reflexivity].
    apply Qle_bool_iff in E. exfalso. apply (Qlt_not_le _ _ H E).
Qed.

Lemma Qlt_bool_irrefl (x y : Q) : x == y -> Qlt_bool x y = false.
Proof.
  intro H. destruct (Qlt_bool x y) eqn:E; [|reflexivity].
  apply Qlt_bool_iff in E. rewrite H in E. exfalso. apply (Qlt_irrefl _ E).
Qed.

Lemma fdiv_nan_r (x : float64) : fdiv x NaN = NaN.
Proof. destruct x; reflexivity. Qed.

Lemma fadd_nan_r (x : float64) : fadd x NaN = NaN.
Proof. destruct x; reflexivity. Qed.

Lemma length_mapi_from {A B : Type} (f : nat -> A -> B) (l : list A) :
  forall i, List.length (mapi_from f i l) = List.length l.
Proof.
  induction l as [|a l IH]; intro i; simpl; [reflexivity|].
  now rewrite IH.
Qed.

Lemma map_mapi_from {A B C : Type} (g : B -> C) (h : A -> C)
      (f : nat -> A -> B) (l : list A) :
  (forall i a, g (f i a) = h a) ->
  forall i, map g (mapi_from f i l) = map h l.
Proof.
  intros Hg. induction l as [|a l IH]; intro i; simpl; [reflexivity|].
  now rewrite Hg, IH.
Qed.

Lemma nth_mapi_from {A B : Type} (f : nat -> A -> B) (l : list A)
      (da : A) (db : B) :
  forall i n, (n < List.length l)%nat ->
  nth n (mapi_from f i l) db = f (i + n)%nat (nth n l da).
Proof.
  induction l as [|a l IH]; intros i n Hn; simpl in Hn; [lia|].
  destruct n as [|n]; simpl.
  - now rewrite Nat.add_0_r.
  - rewrite IH by lia. f_equal. lia.
Qed.

Lemma length_map2 {A B C : Type} (f : A -> B -> C) (xs : list A) :
  forall ys, List.length (map2 f xs ys)
             = Nat.min (List.length xs) (List.length ys).
Proof.
  induction xs as [|x xs IH]; intros [|y ys]; simpl; try reflexivity.
  now rewrite IH.
Qed.

Lemma nth_map2 {A B C : Type} (f : A -> B -> C) (da : A) (db : B) (dc : C)
      (xs : list A) :
  forall ys n, (n < List.length xs)%nat -> (n < List.length ys)%nat ->
  nth n (map2 f xs ys) dc = f (nth n xs da) (nth n ys db).
Proof.
  induction xs as [|x xs IH]; intros [|y ys] n Hx Hy; simpl in *; try lia.
  destruct n as [|n]; [reflexivity|]. apply IH; lia.
Qed.

Lemma length_shift1 (xs : list float64) :
  List.length (shift1 xs) = List.length xs.
Proof.
  destruct xs as [|x xs]; [reflexivity|].
  unfold shift1. rewrite removelast_firstn_len.
  cbn [List.length pred]. rewrite length_firstn. cbn [List.length]. lia.
Qed.

Lemma length_ewm_from (alpha : Q) (xs : list Q) :
  forall prev, List.length (ewm_from alpha prev xs) = List.length xs.
Proof.
  induction xs as [|x xs IH]; intro prev; simpl; [reflexivity|].
  now rewrite IH.
Qed.

Lemma length_ewm_mean (span : Z) (xs : list Q) :
  List.length (ewm_mean span xs) = List.length xs.
Proof.
  destruct xs as [|x xs]; simpl; [reflexivity|].
  now rewrite length_ewm_from.
Qed.

Lemma length_rolling (w : nat) (agg : list Q -> float64) (xs : list float64) :
  List.length (rolling w agg xs) = List.length xs.
Proof. apply length_mapi_from. Qed.

Lemma length_diff (xs : list float64) :
  List.length (diff xs) = List.length xs.
Proof.
  unfold diff. rewrite length_map2, length_shift1. apply Nat.min_id.
Qed.

Section Properties.

Variable sqrt : Q -> Q.

(** ** Indicator engine *)

Lemma length_loss_col (df : list Bar) :
  List.length (loss_col df) = List.length df.
Proof.
  unfold loss_col, delta_col, closeF_col, close_col.
  now rewrite length_rolling, length_map, length_diff, !length_map.
Qed.

Lemma length_gain_col (df : list Bar) :
  List.length (gain_col df) = List.length df.
Proof.
  unfold gain_col, delta_col, closeF_col, close_col.
  now rewrite length_rolling, length_map, length_diff, !length_map.
Qed.

Lemma length_rsi_col (df : list Bar) :
  List.length (rsi_col df) = List.length df.
Proof.
  unfold rsi_col, rs_col.
  rewrite length_map, length_map2, length_map, length_gain_col,
    length_loss_col.
  apply Nat.min_id.
Qed.

Lemma bars_of_calculate_indicators (df : list Bar) :
  map bar (calculate_indicators sqrt df) = df.
Proof.
  unfold calculate_indicators, mapi. cbv zeta.
  rewrite (map_mapi_from bar (fun b => b)); [apply map_id|].
  intros i a. reflexivity.
Qed.

Lemma length_calculate_indicators (df : list Bar) :
  List.length (calculate_indicators sqrt df) = List.length df.
Proof.
  rewrite <- (bars_of_calculate_indicators df) at 2. now rewrite length_map.
Qed.

(** C8.  The frame returned by the indicator engine has as many rows as the
    input frame and carries the same timestamps in the same order: the
    engine adds columns, it neither adds, drops nor reorders bars. *)
Theorem calculate_indicators_same_length_and_timestamps (df : list Bar) :
  List.length (calculate_indicators sqrt df) = List.length df
  /\ map (fun row => timestamp (bar row)) (calculate_indicators sqrt df)
     = map timestamp df
  /\ map bar (calculate_indicators sqrt df) = df.
Proof.
  pose proof (bars_of_calculate_indicators df) as Hbars.
  split; [|split]; [| |exact Hbars].
  - rewrite <- Hbars at 2. now rewrite length_map.
  - rewrite <- Hbars at 2. now rewrite map_map.
Qed.

Lemma nth_error_mapi_from {A B : Type} (f : nat -> A -> B) (l : list A) :
  forall i n, nth_error (mapi_from f i l) n
              = option_map (f (i + n)%nat) (nth_error l n).
Proof.
  induction l as [|a l IH]; intros i n.
  - destruct n; reflexivity.
  - destruct n as [|n]; simpl.
    + now rewrite Nat.add_0_r.
    + rewrite IH. now replace (S i + n)%nat with (i + S n)%nat by lia.
Qed.

Lemma row_of_calculate_indicators (df : list Bar) (i : nat) (row : Row) :
  nth_error (calculate_indicators sqrt df) i = Some row ->
  (i < List.length df)%nat
  /\ nth_error df i = Some (bar row)
  /\ rsi row = fillna0 (cell (rsi_col df) i)
  /\ bb_expanding row = cellb (bb_expanding_col sqrt df) i.
Proof.
  unfold calculate_indicators, mapi. cbv zeta.
  rewrite nth_error_mapi_from. simpl.
  destruct (nth_error df i) as [b|] eqn:Hb; simpl; [|discriminate].
  intro H. injection H as <-. simpl.
  split; [|repeat split].
  apply nth_error_Some. congruence.
Qed.

(** With a zero average loss the guard turns the divisor into NaN, the
    NaN runs through the formula, and [fillna(0)] stores 0. *)
Lemma rsi_zero_when_loss_zero (df : list Bar) (i : nat) (row : Row) :
  nth_error (calculate_indicators sqrt df) i = Some row ->
  feqb (cell (loss_col df) i) (Fin 0) = true ->
  rsi row = Fin 0.
Proof.
  intros Hrow Hloss.
  destruct (row_of_calculate_indicators df i row Hrow) as (Hi & _ & -> & _).
  unfold cell, rsi_col.
  set (g := fun rs => fsub (Fin 100) (fdiv (Fin 100) (fadd (Fin 1) rs))).
  change NaN with (g NaN) at 1. rewrite map_nth.
  unfold rs_col.
  rewrite (nth_map2 fdiv NaN NaN NaN)
    by (rewrite ?length_map, ?length_gain_col, ?length_loss_col; exact Hi).
  change NaN with (replace0_nan NaN) at 2. rewrite map_nth.
  unfold cell in Hloss. unfold replace0_nan at 1. rewrite Hloss.
  rewrite fdiv_nan_r. reflexivity.
Qed.


(** ** Strategy simulator: one bar *)

Lemma body_rejected (st : State) (row : Row) :
  passes_filters (tester st) row = false -> body st row = st.
Proof.
  unfold passes_filters, body. cbv zeta.
  destruct (is_trading_hour (tester st) (timestamp (bar row))); simpl;
    [|reflexivity].
  destruct (Qlt_bool (volume_usdt row) (volume_min (tester st))); simpl;
    [reflexivity|].
  destruct (bb_expanding row); simpl; [discriminate|reflexivity].
Qed.

Lemma body_accepted (st : State) (row : Row) :
  passes_filters (tester st) row = true ->
  body st row =
  match position st with
  | None =>
      if long_signal row then
        set_position st
          (Some {| pos_side := LONG;
                   entry_price := close (bar row) * (1 + fees (tester st));
                   pos_entry_time := timestamp (bar row) |})
      else if short_signal row then
        set_position st
          (Some {| pos_side := SHORT;
                   entry_price := close (bar row) * (1 - fees (tester st));
                   pos_entry_time := timestamp (bar row) |})
      else st
  | Some p =>
      match exit_decision (tester st) p (close (bar row)) with
      | Some (exit_price, why) =>
          let trade :=
            close_trade (tester st) p (timestamp (bar row)) exit_price why in
          {| tester := record_trade (tester st) trade
                         (timestamp (bar row), capital st + pnl_usdt trade);
             position := None;
             capital := capital st + pnl_usdt trade |}
      | None => st
      end
  end.
Proof.
  unfold passes_filters, body. cbv zeta.
  destruct (is_trading_hour (tester st) (timestamp (bar row))); simpl;
    [|discriminate].
  destruct (Qlt_bool (volume_usdt row) (volume_min (tester st))); simpl;
    [discriminate|].
  destruct (bb_expanding row); simpl; [reflexivity|discriminate].
Qed.

Lemma loop_all_rejected (rows : list Row) (st : State) :
  Forall (fun row => passes_filters (tester st) row = false) rows ->
  fold_left body rows st = st.
Proof.
  induction rows as [|row rows IH]; intro H; [reflexivity|].
  inversion H as [|? ? Hrow Hrest]; subst. simpl.
  rewrite (body_rejected st row Hrow). exact (IH Hrest).
Qed.

(** A position that was open before a bar and is closed after it was
    closed by the exit test, which only an accepted bar reaches. *)
Lemma close_needs_accepted_bar (st : State) (row : Row) (p : Position) :
  position st = Some p ->
  position (body st row) = None ->
  passes_filters (tester st) row = true.
Proof.
  intros Hp Hclosed.
  destruct (passes_filters (tester st) row) eqn:E; [reflexivity|].
  rewrite (body_rejected st row E) in Hclosed. congruence.
Qed.

(** C9.  While a position is open, a bar rejected by the trading-hour, the
    volume or the Bollinger filter leaves the whole state as it is, whatever
    its price: the exit test is not reached, no trade is recorded, the
    position stays open.  The same holds over any run of rejected bars, and
    a position that closes on a bar closes on a bar that passes all three
    filters. *)
Theorem exit_only_on_accepted_bars (st : State) (p : Position) :
  position st = Some p ->
  (forall row, passes_filters (tester st) row = false -> body st row = st)
  /\ (forall rows,
        Forall (fun row => passes_filters (tester st) row = false) rows ->
        fold_left body rows st = st)
  /\ (forall row, position (body st row) = None ->
        is_trading_hour (tester st) (timestamp (bar row)) = true
        /\ Qlt_bool (volume_usdt row) (volume_min (tester st)) = false
        /\ bb_expanding row = true).
Proof.
  intro Hp. split; [|split].
  - intros row. apply body_rejected.
  - intros rows. apply loop_all_rejected.
  - intros row Hclosed.
    pose proof (close_needs_accepted_bar st row p Hp Hclosed) as Hpass.
    unfold passes_filters in Hpass.
    apply andb_true_iff in Hpass as [Hpass Hbb].
    apply andb_true_iff in Hpass as [Hhour Hvol].
    apply negb_true_iff in Hvol. auto.
Qed.

Lemma stop_first (t : ForwardTester) (p : Position) (px : Q) :
  stop_hit t p px = true ->
  exists exit_price, exit_decision t p px = Some (exit_price, STOP_LOSS).
Proof.
  unfold stop_hit, exit_decision.
  destruct (pos_side p); intros ->; eauto.
Qed.

(** The stop fires for a price exactly at the stop price. *)
Lemma stop_hit_at_stop_price (t : ForwardTester) (p : Position) (px : Q) :
  px == sl_price t p -> stop_hit t p px = true.
Proof.
  intro H. unfold stop_hit.
  destruct (pos_side p); apply Qle_bool_iff; rewrite H; apply Qle_refl.
Qed.

(** C6 (as amended).  On a bar that passes the three filters, if both the
    stop-loss and the take-profit condition of the open position hold
    (a price exactly at the stop price included), the position closes on
    that bar and the recorded trade has reason STOP_LOSS. *)
Theorem stop_loss_before_take_profit (st : State) (row : Row) (p : Position) :
  position st = Some p ->
  passes_filters (tester st) row = true ->
  stop_hit (tester st) p (close (bar row)) = true ->
  target_hit (tester st) p (close (bar row)) = true ->
  position (body st row) = None
  /\ exists trade,
       trades (tester (body st row)) = trades (tester st) ++ [trade]
       /\ reason trade = STOP_LOSS
       /\ side trade = pos_side p
       /\ entry_time trade = pos_entry_time p
       /\ exit_time trade = timestamp (bar row).
Proof.
  intros Hp Hpass Hstop _.
  rewrite (body_accepted st row Hpass), Hp.
  destruct (stop_first _ _ _ Hstop) as [exit_price ->]. cbv zeta. simpl.
  split; [reflexivity|].
  eexists. split; [reflexivity|]. simpl. auto.
Qed.


(** ** Strategy simulator: the whole loop *)

(** What one bar does to the trade list: nothing, or one trade appended
    that was entered when the open position was entered and left at this
    bar. *)
Lemma body_trades (st : State) (row : Row) :
  (trades (tester (body st row)) = trades (tester st)
   /\ (position (body st row) = position st
       \/ (position st = None
           /\ exists p, position (body st row) = Some p
                        /\ pos_entry_time p = row_time row)))
  \/ (exists p trade,
        position st = Some p
        /\ position (body st row) = None
        /\ trades (tester (body st row)) = trades (tester st) ++ [trade]
        /\ entry_time trade = pos_entry_time p
        /\ exit_time trade = row_time row).
Proof.
  destruct (passes_filters (tester st) row) eqn:Hpass.
  - rewrite (body_accepted st row Hpass).
    destruct (position st) as [p|] eqn:Hp.
    + destruct (exit_decision (tester st) p (close (bar row)))
        as [[exit_price why]|].
      * right. exists p. eexists. cbv zeta. simpl.
        repeat split; reflexivity.
      * left. rewrite Hp. auto.
    + left. destruct (long_signal row); [|destruct (short_signal row)];
        simpl; (split; [reflexivity|]); try (left; exact Hp);
        right; (split; [reflexivity|]); eexists; split; reflexivity.
  - rewrite (body_rejected st row Hpass). left. auto.
Qed.

Lemma loop_trades_exit_after_entry (rows : list Row) :
  StronglySorted Z.lt (map row_time rows) ->
  forall st,
    (forall p, position st = Some p ->
               Forall (fun row => (pos_entry_time p < row_time row)%Z) rows) ->
    exists new,
      trades (tester (fold_left body rows st)) = trades (tester st) ++ new
      /\ Forall exits_after_entry new.
Proof.
  induction rows as [|row rows IH]; intros Hsorted st Hopen.
  - exists []. simpl. rewrite app_nil_r. auto.
  - simpl in Hsorted. apply StronglySorted_inv in Hsorted as [Hrest Hhead].
    rewrite Forall_map in Hhead.
    simpl fold_left.
    destruct (body_trades st row)
      as [[Hsame Hpos] | (p & trade & Hp & Hnone & Happ & Hin & Hout)].
    + destruct (IH Hrest (body st row)) as (new & Hnew & Hok).
      * intros p Hp.
        destruct Hpos as [Hkeep | (_ & q & Hq & Htime)].
        -- rewrite Hkeep in Hp. specialize (Hopen p Hp).
           now inversion Hopen.
        -- rewrite Hq in Hp. injection Hp as <-. rewrite Htime. exact Hhead.
      * exists new. now rewrite Hnew, Hsame.
    + destruct (IH Hrest (body st row)) as (new & Hnew & Hok).
      * intros q Hq. congruence.
      * exists (trade :: new). split.
        -- rewrite Hnew, Happ, <- app_assoc. reflexivity.
        -- constructor; [|exact Hok].
           unfold exits_after_entry. rewrite Hin, Hout.
           specialize (Hopen p Hp). now inversion Hopen.
Qed.

Lemma StronglySorted_skipn {A : Type} (R : A -> A -> Prop) (n : nat) :
  forall l, StronglySorted R l -> StronglySorted R (skipn n l).
Proof.
  induction n as [|n IH]; intros l Hl; [exact Hl|].
  destruct l as [|a l]; [exact Hl|]. simpl.
  apply IH. now apply StronglySorted_inv in Hl.
Qed.

Lemma StronglySorted_map_filter {A B : Type} (R : B -> B -> Prop)
      (f : A -> B) (keep : A -> bool) :
  forall l, StronglySorted R (map f l) ->
            StronglySorted R (map f (filter keep l)).
Proof.
  induction l as [|a l IH]; intro Hl; [exact Hl|].
  simpl in Hl. apply StronglySorted_inv in Hl as [Hrest Hhead].
  simpl. destruct (keep a); [|exact (IH Hrest)].
  simpl. constructor; [exact (IH Hrest)|].
  rewrite Forall_map in *. rewrite Forall_forall in *.
  intros x Hx. apply Hhead. apply filter_In in Hx. tauto.
Qed.

Lemma select_bars_sorted (days : option Z) (df : list Bar) :
  StronglySorted Z.lt (map timestamp df) ->
  StronglySorted Z.lt (map timestamp (select_bars days df)).
Proof.
  intro H. unfold select_bars.
  destruct days as [d|]; [|exact H].
  destruct (negb (d =? 0)%Z && (100 <? List.length df)%nat); [|exact H].
  unfold recent_bars. now apply StronglySorted_map_filter.
Qed.

(** The shape of [run]: it raises on an empty frame, and otherwise returns
    the report of the state the loop ends in. *)
Lemma run_unfold (t : ForwardTester) (df : list Bar) (days : option Z) :
  match select_bars days df with
  | [] => run sqrt t df days = (Raised IndexError, t)
  | first :: _ =>
      let start := position_size t * close first in
      let st := run_loop
                  {| tester := set_equity_curve t [(timestamp first, start)];
                     position := None; capital := start |}
                  (calculate_indicators sqrt (select_bars days df)) in
      run sqrt t df days
      = (Returned (generate_report (tester st) (capital st) (close first)),
         tester st)
  end.
Proof.
  unfold run.
  pose proof (bars_of_calculate_indicators (select_bars days df)) as Hbars.
  destruct (calculate_indicators sqrt (select_bars days df)) as [|r rows]
    eqn:Hrows.
  - simpl in Hbars. rewrite <- Hbars. reflexivity.
  - simpl in Hbars. rewrite <- Hbars. reflexivity.
Qed.

Lemma generate_report_trades (t : ForwardTester) (final start : Q)
      (r : Report) :
  generate_report t final start = ReportEntries r ->
  trades_df r = trades t /\ n_trades r = List.length (trades t).
Proof.
  unfold generate_report.
  destruct (trades t) as [|tr rest]; [discriminate|].
  intro H. injection H as <-. simpl. auto.
Qed.

(** C7.  On a series of bars sorted strictly ascending by timestamp, every
    trade that a run records was left strictly after it was entered; the
    recorded trades are the ones listed in the report. *)
Theorem trades_exit_after_entry
        (t : ForwardTester) (df : list Bar) (days : option Z) :
  Sorted Z.lt (map timestamp df) ->
  exists new,
    trades (snd (run sqrt t df days)) = trades t ++ new
    /\ Forall (fun trade => (entry_time trade < exit_time trade)%Z) new
    /\ forall r, fst (run sqrt t df days) = Returned (ReportEntries r) ->
                 trades_df r = trades t ++ new.
Proof.
  intro Hsorted.
  apply Sorted_StronglySorted in Hsorted;
    [|intros x y z; apply Z.lt_trans].
  apply (select_bars_sorted days) in Hsorted.
  pose proof (run_unfold t df days) as Hrun.
  destruct (select_bars days df) as [|first rest] eqn:Hsel.
  - rewrite Hrun. exists []. simpl. rewrite app_nil_r.
    repeat split; [constructor|discriminate].
  - cbv zeta in Hrun. rewrite Hrun. unfold run_loop. simpl fst. simpl snd.
    set (rows := calculate_indicators sqrt (first :: rest)).
    set (st0 := {| tester := _; position := None; capital := _ |}).
    destruct (loop_trades_exit_after_entry (skipn 30 rows)) with (st := st0)
      as (new & Hnew & Hok).
    + rewrite <- skipn_map. apply StronglySorted_skipn.
      unfold row_time, rows.
      rewrite <- (map_map bar timestamp), bars_of_calculate_indicators.
      exact Hsorted.
    + intros p Hp. discriminate.
    + exists new. split; [exact Hnew|]. split; [exact Hok|].
      intros r Hr. injection Hr as Hr.
      apply generate_report_trades in Hr as [-> _]. exact Hnew.
Qed.


(** ** Strategy simulator: what [run] returns *)

(** C1 (as amended).  A run that returns with an empty trade list returns
    the one-entry dictionary ['error': 'Nenhum trade executado'].  It is
    returned, not raised, which tells it apart from a failed run; a run
    that returns with trades returns the report entries, which have no
    ['error'] entry. *)
Theorem zero_trade_run_returns_error_entry
        (t : ForwardTester) (df : list Bar) (days : option Z)
        (d : ReportDict) (t' : ForwardTester) :
  run sqrt t df days = (Returned d, t') ->
  (trades t' = [] ->
     d = ErrorEntry no_trade_message /\ keys d = ["error"%string])
  /\ (trades t' <> [] ->
        has_key "error" d = false
        /\ exists r, d = ReportEntries r
                     /\ n_trades r = List.length (trades t')).
Proof.
  intro Hrun.
  pose proof (run_unfold t df days) as Hshape.
  destruct (select_bars days df) as [|first rest]; [congruence|].
  cbv zeta in Hshape. rewrite Hshape in Hrun. clear Hshape.
  injection Hrun as Hd Ht. rewrite Ht in Hd. subst d.
  unfold generate_report.
  destruct (trades t') as [|trade others] eqn:Htrades.
  - split; [auto|congruence].
  - split; [discriminate|]. intros _.
    split; [reflexivity|]. eexists. split; reflexivity.
Qed.

Lemma run_raises_on_empty (t : ForwardTester) (df : list Bar)
      (days : option Z) :
  select_bars days df = [] -> run sqrt t df days = (Raised IndexError, t).
Proof.
  intro H. pose proof (run_unfold t df days) as Hshape.
  now rewrite H in Hshape.
Qed.

(** C2 (as amended).  With at least one and fewer than 31 bars left after
    the day filter, the run does not fail: the loop has no row to visit and
    [run] returns the report of the tester's own trade list, which for a
    tester without trades is the ['error'] entry of C1. *)
Theorem short_series_returns_without_simulating
        (t : ForwardTester) (df : list Bar) (days : option Z) :
  (0 < List.length (select_bars days df) < 31)%nat ->
  exists first,
    hd_error (select_bars days df) = Some first
    /\ (let start := position_size t * close first in
        let t1 := set_equity_curve t [(timestamp first, start)] in
        run sqrt t df days
        = (Returned (generate_report t1 start (close first)), t1))
    /\ (trades t = [] ->
        fst (run sqrt t df days) = Returned (ErrorEntry no_trade_message)).
Proof.
  intros [Hpos Hshort].
  pose proof (run_unfold t df days) as Hshape.
  destruct (select_bars days df) as [|first rest] eqn:Hsel;
    [simpl in Hpos; lia|].
  cbv zeta in Hshape. unfold run_loop in Hshape.
  rewrite skipn_all2 in Hshape.
  2:{ rewrite length_calculate_indicators. lia. }
  simpl in Hshape.
  exists first. split; [reflexivity|]. split; [exact Hshape|].
  intro Hnone. rewrite Hshape. simpl. unfold generate_report. simpl.
  now rewrite Hnone.
Qed.

(** ** The day filter *)

Lemma fold_max_bounds (rest : list Bar) :
  forall m,
    let top := fold_left (fun m x => Z.max m (timestamp x)) rest m in
    (m <= top)%Z
    /\ (forall b, In b rest -> (timestamp b <= top)%Z)
    /\ (top = m \/ exists b, In b rest /\ timestamp b = top).
Proof.
  induction rest as [|x rest IH]; intro m; simpl.
  - split; [lia|]. split; [tauto|auto].
  - destruct (IH (Z.max m (timestamp x))) as (Hge & Hall & Hhit).
    split; [lia|]. split.
    + intros b [<-|Hb]; [lia|auto].
    + destruct Hhit as [Heq | (b & Hb & Heq)].
      * destruct (Z.max_spec m (timestamp x)) as [[_ Hm]|[_ Hm]].
        -- right. exists x. split; [auto|congruence].
        -- left. congruence.
      * right. exists b. auto.
Qed.

Lemma max_timestamp_spec (df : list Bar) :
  df <> [] ->
  (forall b, In b df -> (timestamp b <= max_timestamp df)%Z)
  /\ exists b, In b df /\ timestamp b = max_timestamp df.
Proof.
  destruct df as [|b0 rest]; [congruence|]. intros _.
  unfold max_timestamp.
  destruct (fold_max_bounds rest (timestamp b0)) as (Hge & Hall & Hhit).
  split.
  - intros b [<-|Hb]; [exact Hge|auto].
  - destruct Hhit as [Heq | (b & Hb & Heq)].
    + exists b0. split; [left; reflexivity|now rewrite Heq].
    + exists b. split; [right; exact Hb|exact Heq].
Qed.

Lemma select_bars_unrestricted (days : Z) (df : list Bar) :
  days = 0%Z \/ (List.length df <= 100)%nat ->
  select_bars (Some days) df = df.
Proof.
  intros [-> | Hlen]; unfold select_bars; [reflexivity|].
  destruct (Nat.ltb_spec 100 (List.length df)); [lia|].
  now rewrite andb_false_r.
Qed.

Lemma run_after_selection (t : ForwardTester) (df : list Bar)
      (days : option Z) :
  run sqrt t df days = run sqrt t (select_bars days df) None.
Proof. reflexivity. Qed.

(** C5 (as amended).  For a series of more than 100 bars and a day count
    [N] other than 0, the run works on exactly the bars whose timestamp is
    at most [N] days older than the latest timestamp of the series, in
    their order, and computes the indicators and skips the first 30 rows
    on those bars only. *)
Theorem recent_days_restrict_long_series
        (t : ForwardTester) (df : list Bar) (N : Z) :
  N <> 0%Z ->
  (100 < List.length df)%nat ->
  select_bars (Some N) df = recent_bars N df
  /\ run sqrt t df (Some N) = run sqrt t (recent_bars N df) None
  /\ recent_bars N df
     = filter (fun b => (max_timestamp df - N * ns_per_day <=? timestamp b)%Z)
              df
  /\ (forall b, In b (recent_bars N df) <->
                In b df
                /\ (max_timestamp df - N * ns_per_day <= timestamp b)%Z)
  /\ (forall b, In b df -> (timestamp b <= max_timestamp df)%Z)
  /\ (exists b, In b df /\ timestamp b = max_timestamp df).
Proof.
  intros HN Hlen.
  assert (Hsel : select_bars (Some N) df = recent_bars N df).
  { unfold select_bars.
    destruct (Z.eqb_spec N 0); [contradiction|].
    destruct (Nat.ltb_spec 100 (List.length df)); [reflexivity|lia]. }
  split; [exact Hsel|].
  split; [now rewrite run_after_selection, Hsel|].
  split; [reflexivity|].
  split.
  - intro b. unfold recent_bars. rewrite filter_In, Z.leb_le. tauto.
  - apply max_timestamp_spec. intro Hnil. rewrite Hnil in Hlen.
    simpl in Hlen. lia.
Qed.


(** ** Report generator *)

Lemma filter_none {A : Type} (f : A -> bool) (l : list A) :
  Forall (fun x => f x = false) l -> filter f l = [].
Proof.
  induction 1 as [|x l Hx _ IH]; simpl; [reflexivity|].
  now rewrite Hx.
Qed.

Lemma filter_some {A : Type} (f : A -> bool) (l : list A) :
  Exists (fun x => f x = true) l -> (0 < List.length (filter f l))%nat.
Proof.
  induction 1 as [x l Hx | x l _ IH]; simpl.
  - rewrite Hx. simpl. lia.
  - destruct (f x); simpl; lia.
Qed.

Lemma generate_report_nonempty (t : ForwardTester) (final start : Q) :
  trades t <> [] ->
  exists r,
    generate_report t final start = ReportEntries r
    /\ n_trades r = List.length (trades t)
    /\ wins r = List.length (filter is_win (trades t))
    /\ losses r = List.length (filter is_loss (trades t))
    /\ profit_factor r =
       (if (0 <? List.length (filter is_loss (trades t)))%nat
        then fabs (fdiv (fsum (map pnl_pct (filter is_win (trades t))))
                        (fsum (map pnl_pct (filter is_loss (trades t)))))
        else Fin 0).
Proof.
  intro Hne. unfold generate_report.
  destruct (trades t) as [|trade rest] eqn:E; [congruence|].
  eexists. split; [reflexivity|]. simpl. auto.
Qed.

Lemma zero_over_nonzero (q : Q) :
  ~ q == 0 -> feqb (fabs (fdiv (Fin 0) (Fin q))) (Fin 0) = true.
Proof.
  intro Hq. unfold fdiv.
  destruct (Qeq_bool q 0) eqn:Eq0.
  - apply Qeq_bool_iff in Eq0. contradiction.
  - unfold fabs, feqb. apply Qeq_bool_iff.
    rewrite Qred_correct. unfold Qdiv. rewrite Qmult_0_l. reflexivity.
Qed.

(** C4 (as amended).  For a nonempty trade list: without a losing trade
    (PnL% <= 0) the profit factor is 0; with at least one losing trade it is
    the absolute value of the winning PnL% sum divided by the losing PnL%
    sum.  That ratio is itself 0 when no trade wins and the losing sum is a
    nonzero number, so a profit factor of 0 does not tell that there are no
    losing trades. *)
Theorem profit_factor_by_cases (t : ForwardTester) (final start : Q) :
  trades t <> [] ->
  exists r,
    generate_report t final start = ReportEntries r
    /\ (Forall (fun trade => is_loss trade = false) (trades t) ->
        profit_factor r = Fin 0)
    /\ (Exists (fun trade => is_loss trade = true) (trades t) ->
        profit_factor r
        = fabs (fdiv (fsum (map pnl_pct (filter is_win (trades t))))
                     (fsum (map pnl_pct (filter is_loss (trades t))))))
    /\ (Forall (fun trade => is_win trade = false) (trades t) ->
        forall q,
          fsum (map pnl_pct (filter is_loss (trades t))) = Fin q ->
          ~ q == 0 ->
          Exists (fun trade => is_loss trade = true) (trades t)
          /\ feqb (profit_factor r) (Fin 0) = true).
Proof.
  intro Hne.
  destruct (generate_report_nonempty t final start Hne)
    as (r & Hr & _ & _ & _ & Hpf).
  exists r. split; [exact Hr|]. split; [|split].
  - intro Hnone. rewrite Hpf, (filter_none _ _ Hnone). reflexivity.
  - intro Hsome. rewrite Hpf.
    apply filter_some in Hsome. apply Nat.ltb_lt in Hsome.
    now rewrite Hsome.
  - intros Hnowin q Hsum Hq.
    assert (Hsome : Exists (fun trade => is_loss trade = true) (trades t)).
    { apply Exists_exists.
      destruct (filter is_loss (trades t)) as [|x l] eqn:E.
      - simpl in Hsum. injection Hsum as <-. exfalso. apply Hq. reflexivity.
      - exists x. apply filter_In. rewrite E. left. reflexivity. }
    split; [exact Hsome|].
    rewrite Hpf. apply filter_some in Hsome. apply Nat.ltb_lt in Hsome.
    rewrite Hsome, (filter_none _ _ Hnowin), Hsum.
    change (fsum (map pnl_pct [])) with (Fin 0).
    now apply zero_over_nonzero.
Qed.


(** ** Zero PnL% *)





Lemma In_insert_by_time (d x : Divergence) (sorted : list Divergence) :
  In x (insert_by_time d sorted) <-> x = d \/ In x sorted.
Proof.
  induction sorted as [|y sorted IH]; simpl; [intuition|].
  destruct (div_timestamp y <=? div_timestamp d)%Z; simpl;
    [rewrite IH|]; intuition.
Qed.

Lemma In_sort_by_time (x : Divergence) (ds : list Divergence) :
  In x (sort_by_time ds) <-> In x ds.
Proof.
  unfold sort_by_time.
  assert (H : forall acc, In x (fold_left (fun sorted d =>
                                             insert_by_time d sorted) ds acc)
                          <-> In x acc \/ In x ds).
  { induction ds as [|d ds IH]; intro acc; simpl; [intuition|].
    rewrite IH, In_insert_by_time. intuition. }
  rewrite H. simpl. intuition.
Qed.




End Properties.


(** * The properties on the sample inputs *)

(** ** Runs *)

Lemma flat_run :
  run Qsqrt_floor default_tester flat_series None
  = (Returned (ErrorEntry no_trade_message),
     set_equity_curve default_tester [(0%Z, 40 * 100)]).
Proof. vm_compute. reflexivity. Qed.

Lemma short_run :
  run Qsqrt_floor default_tester short_series None
  = (Returned (ErrorEntry no_trade_message),
     set_equity_curve default_tester [(0%Z, 40 * 100)]).
Proof. vm_compute. reflexivity. Qed.

(** C1, the claim as stated fails: the flat series gives a run without
    trades, and what the run returns is the ['error'] entry, not a report. *)
Lemma flat_run_returns_error_entry :
  trades (snd (run Qsqrt_floor default_tester flat_series None)) = []
  /\ fst (run Qsqrt_floor default_tester flat_series None)
     = Returned (ErrorEntry "Nenhum trade executado")
  /\ has_key "error" (ErrorEntry "Nenhum trade executado") = true
  /\ forall r,
       fst (run Qsqrt_floor default_tester flat_series None)
       <> Returned (ReportEntries r).
Proof.
  rewrite flat_run. simpl.
  repeat split; try reflexivity. intros r H. discriminate.
Qed.

Lemma zero_trade_run_witness :
  run Qsqrt_floor default_tester flat_series None
  = (Returned (ErrorEntry no_trade_message),
     set_equity_curve default_tester [(0%Z, 40 * 100)])
  /\ ErrorEntry no_trade_message = ErrorEntry no_trade_message
  /\ keys (ErrorEntry no_trade_message) = ["error"%string].
Proof.
  split; [exact flat_run|].
  apply (zero_trade_run_returns_error_entry Qsqrt_floor default_tester
           flat_series None _ _ flat_run).
  reflexivity.
Defined.

(** C2, the claim as stated fails: five bars are fewer than 31, and the run
    returns instead of failing. *)
Lemma short_run_does_not_fail :
  (List.length (select_bars None short_series) < 31)%nat
  /\ fst (run Qsqrt_floor default_tester short_series None)
     = Returned (ErrorEntry "Nenhum trade executado")
  /\ forall e,
       fst (run Qsqrt_floor default_tester short_series None) <> Raised e.
Proof.
  rewrite short_run. simpl.
  repeat split; try reflexivity; [lia|]. intros e H. discriminate.
Qed.

Lemma short_series_witness :
  (0 < List.length (select_bars None short_series) < 31)%nat
  /\ fst (run Qsqrt_floor default_tester short_series None)
     = Returned (ErrorEntry no_trade_message).
Proof.
  assert (H : (0 < List.length (select_bars None short_series) < 31)%nat)
    by (simpl; lia).
  split; [exact H|].
  destruct (short_series_returns_without_simulating Qsqrt_floor
              default_tester short_series None H) as (first & _ & _ & Hfresh).
  apply Hfresh. reflexivity.
Defined.

(** ** RSI *)

(** C3, evaluated on fifteen rising closes: at the last bar the average
    loss is 0 and the average gain is 1, and the RSI stored for the bar is
    0, not 100. *)
Theorem rsi_of_rising_series_is_zero :
  cell (loss_col rising_series) 14 = Fin 0
  /\ cell (gain_col rising_series) 14 = Fin 1
  /\ exists row,
       nth_error (calculate_indicators Qsqrt_floor rising_series) 14
       = Some row
       /\ rsi row = Fin 0
       /\ rsi row <> Fin 100.
Proof.
  split; [vm_compute; reflexivity|]. split; [vm_compute; reflexivity|].
  destruct (nth_error (calculate_indicators Qsqrt_floor rising_series) 14)
    as [row|] eqn:Hrow; [|vm_compute in Hrow; discriminate].
  exists row. split; [reflexivity|].
  assert (Hrsi : rsi row = Fin 0).
  { apply (rsi_zero_when_loss_zero Qsqrt_floor rising_series 14 row Hrow).
    vm_compute. reflexivity. }
  split; [exact Hrsi|]. rewrite Hrsi. discriminate.
Qed.


(** ** Profit factor *)

(** C4, the claim as stated fails: with one losing trade and no winning
    trade the profit factor is 0, although the list has a losing trade. *)
Lemma profit_factor_zero_with_losing_trade :
  exists r,
    generate_report (tester_with [lost_trade]) 3960 100 = ReportEntries r
    /\ profit_factor r = Fin 0
    /\ losses r = 1%nat
    /\ In lost_trade (trades (tester_with [lost_trade]))
    /\ is_loss lost_trade = true.
Proof.
  eexists. split; [vm_compute; reflexivity|]. simpl.
  repeat split; auto.
Qed.

(** The same on a run: the losing series ends in one stop-loss trade and a
    profit factor of 0. *)
Lemma losing_run_profit_factor :
  option_map (fun r => (map reason (trades_df r), losses r, profit_factor r))
             (report_of (fst (run Qsqrt_floor default_tester losing_series
                                  None)))
  = Some ([STOP_LOSS], 1%nat, Fin 0).
Proof. vm_compute. reflexivity. Qed.

Lemma profit_factor_witness :
  trades (tester_with [won_trade; lost_trade]) <> []
  /\ exists r,
       generate_report (tester_with [won_trade; lost_trade]) 4020 100
       = ReportEntries r
       /\ profit_factor r = Fin (3 # 2).
Proof.
  assert (Hne : trades (tester_with [won_trade; lost_trade]) <> [])
    by (simpl; discriminate).
  split; [exact Hne|].
  destruct (profit_factor_by_cases (tester_with [won_trade; lost_trade])
              4020 100 Hne) as (r & Hr & _ & Hratio & _).
  exists r. split; [exact Hr|].
  rewrite Hratio; [vm_compute; reflexivity|].
  apply Exists_cons_tl, Exists_cons_hd. vm_compute. reflexivity.
Defined.

(** ** Day filter *)

(** C5, the claim as stated fails: the forty daily bars with a day count of
    1 are all processed, although only the last two lie within one day of
    the latest bar. *)
Lemma day_count_ignored_on_short_input :
  select_bars (Some 1%Z) daily_series = daily_series
  /\ List.length (select_bars (Some 1%Z) daily_series) = 40%nat
  /\ List.length (recent_bars 1 daily_series) = 2%nat
  /\ run Qsqrt_floor default_tester daily_series (Some 1%Z)
     = run Qsqrt_floor default_tester daily_series None.
Proof.
  repeat split; vm_compute; reflexivity.
Qed.

Lemma recent_days_witness :
  1%Z <> 0%Z
  /\ (100 < List.length long_series)%nat
  /\ select_bars (Some 1%Z) long_series = recent_bars 1 long_series
  /\ List.length (recent_bars 1 long_series) = 97%nat.
Proof.
  assert (H1 : 1%Z <> 0%Z) by discriminate.
  assert (H2 : (100 < List.length long_series)%nat)
    by (vm_compute; repeat constructor).
  split; [exact H1|]. split; [exact H2|].
  split;
    [exact (proj1 (recent_days_restrict_long_series Qsqrt_floor
                     default_tester long_series 1%Z H1 H2))
    |vm_compute; reflexivity].
Defined.

(** ** Exit on a bar *)

(** C6, the claim as stated fails: at 03:15, outside the trading hours, the
    price sits on both the stop and the target of the open position, and
    the bar leaves the position open and records nothing. *)
Lemma stop_not_taken_on_rejected_bar :
  exists p,
    position holding_long = Some p
    /\ stop_hit (tester holding_long) p (close (bar row_0315)) = true
    /\ target_hit (tester holding_long) p (close (bar row_0315)) = true
    /\ position (body holding_long row_0315) = Some p
    /\ trades (tester (body holding_long row_0315)) = [].
Proof.
  eexists. split; [reflexivity|].
  repeat split; vm_compute; reflexivity.
Qed.

Lemma stop_loss_before_take_profit_witness :
  position holding_long
  = Some {| pos_side := LONG; entry_price := 100;
            pos_entry_time := (28 * quarter_hour)%Z |}
  /\ passes_filters (tester holding_long) row_0715 = true
  /\ stop_hit (tester holding_long)
       {| pos_side := LONG; entry_price := 100;
          pos_entry_time := (28 * quarter_hour)%Z |}
       (close (bar row_0715)) = true
  /\ target_hit (tester holding_long)
       {| pos_side := LONG; entry_price := 100;
          pos_entry_time := (28 * quarter_hour)%Z |}
       (close (bar row_0715)) = true
  /\ position (body holding_long row_0715) = None
  /\ map reason (trades (tester (body holding_long row_0715))) = [STOP_LOSS].
Proof.
  set (p := {| pos_side := LONG; entry_price := 100;
               pos_entry_time := (28 * quarter_hour)%Z |}).
  assert (Hp : position holding_long = Some p) by reflexivity.
  assert (Hf : passes_filters (tester holding_long) row_0715 = true)
    by (vm_compute; reflexivity).
  assert (Hs : stop_hit (tester holding_long) p (close (bar row_0715)) = true)
    by (vm_compute; reflexivity).
  assert (Ht : target_hit (tester holding_long) p (close (bar row_0715))
               = true)
    by (vm_compute; reflexivity).
  repeat (split; [assumption|]).
  destruct (stop_loss_before_take_profit holding_long row_0715 p Hp Hf Hs Ht)
    as (Hnone & trade & Htrades & Hreason & _).
  split; [exact Hnone|].
  rewrite Htrades, map_app. simpl. now rewrite Hreason.
Defined.

Lemma exit_only_on_accepted_bars_witness :
  position holding_long
  = Some {| pos_side := LONG; entry_price := 100;
            pos_entry_time := (28 * quarter_hour)%Z |}
  /\ passes_filters (tester holding_long) row_0315 = false
  /\ body holding_long row_0315 = holding_long.
Proof.
  assert (Hp : position holding_long
               = Some {| pos_side := LONG; entry_price := 100;
                         pos_entry_time := (28 * quarter_hour)%Z |})
    by reflexivity.
  assert (Hf : passes_filters (tester holding_long) row_0315 = false)
    by (vm_compute; reflexivity).
  split; [exact Hp|]. split; [exact Hf|].
  exact (proj1 (exit_only_on_accepted_bars holding_long _ Hp) row_0315 Hf).
Defined.


(** ** Entry and exit times *)

(** The winning series records one trade: in at 07:30, out at 07:45, by
    take-profit. *)
Lemma winning_run_trades :
  map (fun trade => (side trade, reason trade,
                     entry_time trade, exit_time trade))
      (trades (snd (run Qsqrt_floor default_tester winning_series None)))
  = [(LONG, TAKE_PROFIT, (30 * quarter_hour)%Z, (31 * quarter_hour)%Z)].
Proof. vm_compute. reflexivity. Qed.

Lemma trades_exit_after_entry_witness :
  Sorted Z.lt (map timestamp winning_series)
  /\ exists new,
       trades (snd (run Qsqrt_floor default_tester winning_series None))
       = trades default_tester ++ new
       /\ Forall (fun trade => (entry_time trade < exit_time trade)%Z) new
       /\ forall r,
            fst (run Qsqrt_floor default_tester winning_series None)
            = Returned (ReportEntries r) ->
            trades_df r = trades default_tester ++ new.
Proof.
  assert (H : Sorted Z.lt (map timestamp winning_series))
    by (vm_compute; repeat constructor).
  split; [exact H|].
  exact (trades_exit_after_entry Qsqrt_floor default_tester winning_series
           None H).
Defined.

(** ** Zero PnL% *)


(** * Further properties of the code *)

(** ** One bar, case by case *)

(** A bar leaves the state alone, opens a position, or closes the open one. *)
Lemma body_step (st : State) (row : Row) :
  body st row = st
  \/ (position st = None
      /\ passes_filters (tester st) row = true
      /\ exists p,
           body st row = set_position st (Some p)
           /\ pos_entry_time p = row_time row
           /\ ((pos_side p = LONG
                /\ entry_price p = close (bar row) * (1 + fees (tester st)))
               \/ (pos_side p = SHORT
                   /\ entry_price p
                      = close (bar row) * (1 - fees (tester st)))))
  \/ (exists p exit_price why,
        position st = Some p
        /\ passes_filters (tester st) row = true
        /\ exit_decision (tester st) p (close (bar row))
           = Some (exit_price, why)
        /\ body st row
           = let trade := close_trade (tester st) p (row_time row)
                                      exit_price why in
             {| tester := record_trade (tester st) trade
                            (row_time row, capital st + pnl_usdt trade);
                position := None;
                capital := capital st + pnl_usdt trade |}).
Proof.
  destruct (passes_filters (tester st) row) eqn:Hpass.
  - rewrite (body_accepted st row Hpass).
    destruct (position st) as [p|] eqn:Hp.
    + destruct (exit_decision (tester st) p (close (bar row)))
        as [[exit_price why]|] eqn:Hexit; [|left; reflexivity].
      right. right. exists p, exit_price, why. auto.
    + destruct (long_signal row).
      * right. left. repeat split. eexists. split; [reflexivity|].
        split; [reflexivity|]. left. split; reflexivity.
      * destruct (short_signal row); [|left; reflexivity].
        right. left. repeat split. eexists. split; [reflexivity|].
        split; [reflexivity|]. right. split; reflexivity.
  - left. apply body_rejected. exact Hpass.
Qed.

(** An invariant that may depend on the rows still to come. *)
Lemma loop_invariant (Inv : list Row -> State -> Prop) :
  (forall st row rest, Inv (row :: rest) st -> Inv rest (body st row)) ->
  forall rows st, Inv rows st -> Inv [] (fold_left body rows st).
Proof.
  intros Hstep rows. induction rows as [|row rows IH]; intros st H.
  - exact H.
  - simpl. apply IH. apply Hstep. exact H.
Qed.

Lemma body_keeps_config (st : State) (row : Row) :
  position_size (tester (body st row)) = position_size (tester st)
  /\ fees (tester (body st row)) = fees (tester st)
  /\ stop_loss_pct (tester (body st row)) = stop_loss_pct (tester st)
  /\ take_profit_pct (tester (body st row)) = take_profit_pct (tester st)
  /\ volume_min (tester (body st row)) = volume_min (tester st)
  /\ trading_hours (tester (body st row)) = trading_hours (tester st).
Proof.
  destruct (body_step st row)
    as [-> | [(_ & _ & p & -> & _) | (p & x & why & _ & _ & _ & ->)]];
    simpl; auto 10.
Qed.

Lemma equity_points_app (c : Q) (new : list Trade) (trade : Trade) :
  equity_points c (new ++ [trade])
  = equity_points c new
    ++ [(exit_time trade, capital_after c new + pnl_usdt trade)].
Proof.
  revert c. induction new as [|x new IH]; intro c; simpl; [reflexivity|].
  now rewrite IH.
Qed.

Lemma capital_after_app (c : Q) (new : list Trade) (trade : Trade) :
  capital_after c (new ++ [trade]) = capital_after c new + pnl_usdt trade.
Proof. unfold capital_after. now rewrite fold_left_app. Qed.

(** The books of the loop: what was appended to the trade list, to the
    equity curve and to the capital. *)
Lemma loop_books (rows : list Row) (st : State) :
  exists new,
    trades (tester (fold_left body rows st)) = trades (tester st) ++ new
    /\ equity_curve (tester (fold_left body rows st))
       = equity_curve (tester st) ++ equity_points (capital st) new
    /\ capital (fold_left body rows st) = capital_after (capital st) new.
Proof.
  pose (Inv := fun (_ : list Row) (s : State) =>
    exists new,
      trades (tester s) = trades (tester st) ++ new
      /\ equity_curve (tester s)
         = equity_curve (tester st) ++ equity_points (capital st) new
      /\ capital s = capital_after (capital st) new).
  apply (loop_invariant Inv) with (rows := rows).
  - clear rows. intros s row rest (new & Ht & He & Hc).
    destruct (body_step s row)
      as [-> | [(_ & _ & p & -> & _) | (p & x & why & _ & _ & _ & ->)]].
    + exists new. auto.
    + exists new. auto.
    + cbv zeta.
      exists (new ++ [close_trade (tester s) p (row_time row) x why]).
      simpl. rewrite Ht, He, Hc, equity_points_app, capital_after_app.
      rewrite <- !app_assoc. auto.
  - exists []. simpl. rewrite !app_nil_r. auto.
Qed.

Lemma loop_keeps_config (rows : list Row) :
  forall st,
    position_size (tester (fold_left body rows st)) = position_size (tester st)
    /\ fees (tester (fold_left body rows st)) = fees (tester st)
    /\ stop_loss_pct (tester (fold_left body rows st))
       = stop_loss_pct (tester st)
    /\ take_profit_pct (tester (fold_left body rows st))
       = take_profit_pct (tester st)
    /\ volume_min (tester (fold_left body rows st)) = volume_min (tester st)
    /\ trading_hours (tester (fold_left body rows st))
       = trading_hours (tester st).
Proof.
  induction rows as [|row rows IH]; intro st; simpl; [auto 10|].
  destruct (IH (body st row)) as (H1 & H2 & H3 & H4 & H5 & H6).
  destruct (body_keeps_config st row) as (K1 & K2 & K3 & K4 & K5 & K6).
  rewrite H1, H2, H3, H4, H5, H6. auto 10.
Qed.

Section Coverage.

Variable sqrt : Q -> Q.

(** ** The books of a run *)

Lemma run_books (t : ForwardTester) (df : list Bar) (days : option Z)
      (first : Bar) (rest : list Bar) :
  select_bars days df = first :: rest ->
  exists new final,
    run sqrt t df days
    = (Returned (generate_report (snd (run sqrt t df days)) final
                                 (close first)),
       snd (run sqrt t df days))
    /\ trades (snd (run sqrt t df days)) = trades t ++ new
    /\ equity_curve (snd (run sqrt t df days))
       = (timestamp first, position_size t * close first)
         :: equity_points (position_size t * close first) new
    /\ final = capital_after (position_size t * close first) new
    /\ position_size (snd (run sqrt t df days)) = position_size t.
Proof.
  intro Hsel.
  pose proof (run_unfold sqrt t df days) as Hrun. rewrite Hsel in Hrun.
  cbv zeta in Hrun. unfold run_loop in Hrun.
  set (rows := skipn 30 (calculate_indicators sqrt (first :: rest))) in *.
  set (st0 := {| tester := _; position := None; capital := _ |}) in *.
  destruct (loop_books rows st0) as (new & Ht & He & Hc).
  exists new, (capital (fold_left body rows st0)).
  rewrite Hrun. simpl fst. simpl snd.
  split; [reflexivity|]. split; [exact Ht|]. split; [exact He|].
  split; [exact Hc|].
  now rewrite (proj1 (loop_keeps_config rows st0)).
Qed.

Lemma capital_after_sum (c : Q) (new : list Trade) :
  capital_after c new == c + fold_right Qplus 0 (map pnl_usdt new).
Proof.
  unfold capital_after. revert c.
  induction new as [|x new IH]; intro c; simpl.
  - ring.
  - rewrite IH. ring.
Qed.

(** X1.  Capital accounting: in the report of a run, the final capital is
    the initial capital ([position_size] times the first close) plus the
    PnL of the trades the run recorded, added in the order they closed. *)
Theorem final_capital_is_start_plus_pnl
        (t : ForwardTester) (df : list Bar) (days : option Z) (r : Report) :
  fst (run sqrt t df days) = Returned (ReportEntries r) ->
  exists new,
    trades_df r = trades t ++ new
    /\ final_capital r = capital_after (initial_capital r) new
    /\ final_capital r - initial_capital r
       == fold_right Qplus 0 (map pnl_usdt new)
    /\ exists first, hd_error (select_bars days df) = Some first
                     /\ initial_capital r = position_size t * close first.
Proof.
  intro Hr.
  destruct (select_bars days df) as [|first rest] eqn:Hsel.
  - rewrite (run_raises_on_empty sqrt t df days Hsel) in Hr. discriminate.
  - destruct (run_books t df days first rest Hsel)
      as (new & final & Hrun & Ht & _ & Hfinal & Hps).
    rewrite Hrun in Hr. simpl in Hr. injection Hr as Hr.
    unfold generate_report in Hr.
    destruct (trades (snd (run sqrt t df days))) as [|x xs] eqn:Hall;
      [discriminate|].
    injection Hr as <-. simpl.
    exists new. rewrite Hps, <- Hfinal.
    split; [exact Ht|]. split; [reflexivity|].
    split; [rewrite Hfinal, capital_after_sum; ring|].
    exists first. auto.
Qed.

(** X2.  Trades pile up over the runs of one tester, the equity curve
    starts afresh: the report counts the tester's earlier trades together
    with the new ones, while its equity curve holds the starting point and
    one point per new trade, stamped with the trade's exit time. *)
Theorem trades_accumulate_equity_restarts
        (t : ForwardTester) (df : list Bar) (days : option Z) (r : Report) :
  fst (run sqrt t df days) = Returned (ReportEntries r) ->
  exists new,
    trades_df r = trades t ++ new
    /\ n_trades r = (List.length (trades t) + List.length new)%nat
    /\ List.length (report_equity_curve r) = S (List.length new)
    /\ map fst (report_equity_curve r)
       = map timestamp (firstn 1 (select_bars days df)) ++ map exit_time new
    /\ report_equity_curve r = equity_curve (snd (run sqrt t df days)).
Proof.
  intro Hr.
  destruct (select_bars days df) as [|first rest] eqn:Hsel.
  - rewrite (run_raises_on_empty sqrt t df days Hsel) in Hr. discriminate.
  - destruct (run_books t df days first rest Hsel)
      as (new & final & Hrun & Ht & He & _ & _).
    rewrite Hrun in Hr. simpl in Hr. injection Hr as Hr.
    unfold generate_report in Hr.
    destruct (trades (snd (run sqrt t df days))) as [|x xs] eqn:Hall;
      [discriminate|].
    injection Hr as <-. simpl. rewrite He.
    exists new. split; [exact Ht|].
    assert (Hpts : forall c l, map fst (equity_points c l) = map exit_time l).
    { intros c l. revert c. induction l as [|y l IH]; intro c; simpl;
        [reflexivity|]. now rewrite IH. }
    split; [rewrite <- (length_app (trades t) new), <- Ht; reflexivity|].
    split; [simpl; f_equal; rewrite <- (length_map fst), Hpts;
            apply length_map|].
    split; [simpl; now rewrite Hpts|reflexivity].
Qed.


(** ** The order of entries and exits *)

Lemma StronglySorted_snoc {A : Type} (R : A -> A -> Prop) (l : list A)
      (a : A) :
  StronglySorted R l -> Forall (fun x => R x a) l ->
  StronglySorted R (l ++ [a]).
Proof.
  induction 1 as [|x l Hl IH Hx]; intro Ha; simpl.
  - repeat constructor.
  - inversion Ha as [|? ? Hxa Hla]; subst.
    constructor; [exact (IH Hla)|].
    apply Forall_app. split; [exact Hx|]. repeat constructor. exact Hxa.
Qed.

Lemma StronglySorted_prefix {A : Type} (R : A -> A -> Prop) (l1 l2 : list A) :
  StronglySorted R (l1 ++ l2) -> StronglySorted R l1.
Proof.
  induction l1 as [|x l1 IH]; simpl; intro H; [constructor|].
  apply StronglySorted_inv in H as [Hrest Hx].
  constructor; [exact (IH Hrest)|].
  apply Forall_app in Hx. tauto.
Qed.

Lemma Forall_skipn_of {A : Type} (P : A -> Prop) (n : nat) :
  forall l, Forall P l -> Forall P (skipn n l).
Proof.
  induction n as [|n IH]; intros l H; [exact H|].
  destruct l as [|a l]; [exact H|]. simpl. apply IH. now inversion H.
Qed.

Lemma trade_times_snoc (new : list Trade) (trade : Trade) :
  trade_times (new ++ [trade])
  = trade_times new ++ [entry_time trade; exit_time trade].
Proof.
  unfold trade_times. rewrite flat_map_app. reflexivity.
Qed.

(** Along the loop, the instants booked so far (the starting bar, the
    entries and exits of the recorded trades, the entry of the open
    position) strictly increase and lie before every row still to come. *)
Lemma loop_times_increase (ts0 : Timestamp) (rows : list Row) (st : State) :
  StronglySorted Z.lt (map row_time rows) ->
  position st = None ->
  Forall (fun row => (ts0 < row_time row)%Z) rows ->
  exists new,
    trades (tester (fold_left body rows st)) = trades (tester st) ++ new
    /\ StronglySorted Z.lt (ts0 :: trade_times new).
Proof.
  intros Hsorted Hflat Hfirst.
  pose (Inv := fun (todo : list Row) (s : State) =>
    exists new,
      trades (tester s) = trades (tester st) ++ new
      /\ StronglySorted Z.lt ((ts0 :: trade_times new) ++ open_time s)
      /\ Forall (fun x => Forall (fun row => (x < row_time row)%Z) todo)
                ((ts0 :: trade_times new) ++ open_time s)
      /\ StronglySorted Z.lt (map row_time todo)).
  assert (Hend : Inv [] (fold_left body rows st)).
  { apply (loop_invariant Inv) with (rows := rows).
    - clear. intros s row rest (new & Ht & Hss & Hall & Hrows).
      simpl in Hrows. apply StronglySorted_inv in Hrows as [Hrest Hrow].
      rewrite Forall_map in Hrow.
      assert (Hhead : Forall (fun x => (x < row_time row)%Z)
                             ((ts0 :: trade_times new) ++ open_time s)).
      { eapply Forall_impl; [|exact Hall].
        intros x Hx. now inversion Hx. }
      assert (Htail : Forall (fun x =>
                                Forall (fun r => (x < row_time r)%Z) rest)
                             ((ts0 :: trade_times new) ++ open_time s)).
      { eapply Forall_impl; [|exact Hall].
        intros x Hx. now inversion Hx. }
      assert (Hnext : StronglySorted Z.lt
                        (((ts0 :: trade_times new) ++ open_time s)
                         ++ [row_time row])
                      /\ Forall (fun x =>
                                   Forall (fun r => (x < row_time r)%Z) rest)
                                (((ts0 :: trade_times new) ++ open_time s)
                                 ++ [row_time row])).
      { split; [now apply StronglySorted_snoc|].
        apply Forall_app. split; [exact Htail|]. repeat constructor.
        exact Hrow. }
      destruct (body_step s row)
        as [-> | [(Hnone & _ & p & -> & Htime & _)
                 | (p & x & why & Hp & _ & _ & ->)]].
      + exists new. auto.
      + exists new. unfold open_time in *. simpl. rewrite Hnone in Hnext.
        rewrite app_nil_r in Hnext. rewrite Htime.
        destruct Hnext. auto.
      + cbv zeta.
        exists (new ++ [close_trade (tester s) p (row_time row) x why]).
        unfold open_time in *. simpl position. cbv iota.
        rewrite Hp in Hnext. rewrite app_nil_r.
        rewrite trade_times_snoc. simpl entry_time. simpl exit_time.
        simpl trades. rewrite Ht, <- app_assoc.
        split; [reflexivity|].
        replace (ts0 :: trade_times new ++ [pos_entry_time p; row_time row])
          with (((ts0 :: trade_times new) ++ [pos_entry_time p])
                ++ [row_time row])
          by (simpl; now rewrite <- app_assoc).
        destruct Hnext. auto.
    - exists []. unfold open_time. rewrite Hflat. simpl.
      rewrite app_nil_r.
      split; [reflexivity|]. split; [repeat constructor|].
      split; [|exact Hsorted]. repeat constructor. exact Hfirst. }
  destruct Hend as (new & Ht & Hss & _).
  exists new. split; [exact Ht|].
  now apply StronglySorted_prefix in Hss.
Qed.

Lemma exit_times_of_trade_times (a : Timestamp) (new : list Trade) :
  StronglySorted Z.lt (a :: trade_times new) ->
  StronglySorted Z.lt (a :: map exit_time new).
Proof.
  revert a. induction new as [|trade new IH]; intros a H; [exact H|].
  simpl in *. apply StronglySorted_inv in H as [Hrest Ha].
  apply StronglySorted_inv in Hrest as [Hrest _].
  specialize (IH _ Hrest).
  inversion Ha as [|? ? _ Ha']; subst.
  constructor; [exact IH|].
  inversion Ha' as [|? ? Hax Hrest']; subst.
  constructor; [exact Hax|].
  apply StronglySorted_inv in IH as [_ Hx].
  eapply Forall_impl; [|exact Hx]. intros y Hy. lia.
Qed.

(** X3.  On bars sorted strictly ascending by timestamp, the time of the
    first bar, then the entry and the exit time of each trade of the run,
    in the order recorded, strictly increase: a trade is entered after the
    trade before it was left (trade windows never overlap), and the
    timestamps of the equity curve of a run that returns strictly
    increase. *)
Theorem trade_windows_do_not_overlap
        (t : ForwardTester) (df : list Bar) (days : option Z) :
  Sorted Z.lt (map timestamp df) ->
  exists new,
    trades (snd (run sqrt t df days)) = trades t ++ new
    /\ Sorted Z.lt (map timestamp (firstn 1 (select_bars days df))
                    ++ trade_times new)
    /\ (select_bars days df <> [] ->
        Sorted Z.lt (map fst (equity_curve (snd (run sqrt t df days))))).
Proof.
  intro Hsorted.
  apply Sorted_StronglySorted in Hsorted;
    [|intros x y z; apply Z.lt_trans].
  apply (select_bars_sorted days) in Hsorted.
  destruct (select_bars days df) as [|first rest] eqn:Hsel.
  - rewrite (run_raises_on_empty sqrt t df days Hsel).
    exists []. simpl. rewrite app_nil_r.
    split; [reflexivity|]. split; [constructor|congruence].
  - destruct (run_books t df days first rest Hsel)
      as (new & final & _ & Ht & He & _ & _).
    pose proof (run_unfold sqrt t df days) as Hrun. rewrite Hsel in Hrun.
    cbv zeta in Hrun. unfold run_loop in Hrun.
    set (rows := skipn 30 (calculate_indicators sqrt (first :: rest))) in *.
    set (st0 := {| tester := _; position := None; capital := _ |}) in *.
    assert (Hall : map row_time (calculate_indicators sqrt (first :: rest))
                   = map timestamp (first :: rest)).
    { unfold row_time.
      now rewrite <- (map_map bar timestamp), bars_of_calculate_indicators. }
    destruct (loop_times_increase (timestamp first) rows st0)
      as (new' & Ht' & Hss).
    + unfold rows. rewrite <- skipn_map, Hall.
      now apply StronglySorted_skipn.
    + reflexivity.
    + apply (proj1 (Forall_map row_time
                       (fun x => (timestamp first < x)%Z) rows)).
      unfold rows. rewrite <- skipn_map, Hall.
      simpl map. rewrite skipn_cons. apply Forall_skipn_of.
      simpl in Hsorted. now apply StronglySorted_inv in Hsorted.
    + rewrite Hrun in Ht. simpl snd in Ht. rewrite Ht' in Ht.
      simpl trades in Ht. apply app_inv_head in Ht. subst new'.
      exists new. split; [rewrite Hrun; simpl snd; exact Ht'|].
      split; [apply StronglySorted_Sorted; exact Hss|].
      intros _. rewrite He. simpl map.
      assert (Hpts : forall c l,
                 map fst (equity_points c l) = map exit_time l).
      { intros c l. revert c. induction l as [|y l IH]; intro c; simpl;
          [reflexivity|]. now rewrite IH. }
      rewrite Hpts. apply StronglySorted_Sorted.
      now apply exit_times_of_trade_times.
Qed.




(** ** Exit reason and the sign of the PnL *)

Lemma exit_decision_same_config (a b : ForwardTester) (p : Position)
      (px : Q) :
  same_config a b -> exit_decision a p px = exit_decision b p px.
Proof.
  intros (_ & Hf & Hs & Ht & _).
  unfold exit_decision, sl_price, tp_price. now rewrite Hf, Hs, Ht.
Qed.

Lemma close_trade_same_config (a b : ForwardTester) (p : Position)
      (ts : Timestamp) (x : Q) (why : Reason) :
  same_config a b -> close_trade a p ts x why = close_trade b p ts x why.
Proof.
  intros (Hps & _). unfold close_trade. now rewrite Hps.
Qed.

(** What holds of every trade a tester of configuration [t0] can close,
    holds of the trades of the loop. *)
Lemma loop_new_trades (Good : Trade -> Prop) (t0 : ForwardTester) :
  0 <= fees t0 -> fees t0 <= 1 ->
  (forall p px ts x why,
      0 <= entry_price p -> 0 <= px ->
      exit_decision t0 p px = Some (x, why) ->
      Good (close_trade t0 p ts x why)) ->
  forall rows st,
    same_config (tester st) t0 ->
    position st = None ->
    Forall (fun row => 0 <= close (bar row)) rows ->
    exists new,
      trades (tester (fold_left body rows st)) = trades (tester st) ++ new
      /\ Forall Good new.
Proof.
  intros Hf0 Hf1 Hgood rows st Hcfg Hflat Hpos.
  pose (Inv := fun (todo : list Row) (s : State) =>
    same_config (tester s) t0
    /\ (forall p, position s = Some p -> 0 <= entry_price p)
    /\ Forall (fun row => 0 <= close (bar row)) todo
    /\ exists new,
         trades (tester s) = trades (tester st) ++ new /\ Forall Good new).
  assert (Hend : Inv [] (fold_left body rows st)).
  { apply (loop_invariant Inv) with (rows := rows).
    - clear - Hf0 Hf1 Hgood.
      intros s row rest (Hcfg & Hentry & Hrows & new & Ht & Hnew).
      inversion Hrows as [|? ? Hrow Hrest]; subst.
      assert (Hcfg' : same_config (tester (body s row)) t0).
      { destruct (body_keeps_config s row) as (K1 & K2 & K3 & K4 & K5 & K6).
        destruct Hcfg as (C1 & C2 & C3 & C4 & C5 & C6).
        unfold same_config. rewrite K1, K2, K3, K4, K5, K6. auto 10. }
      split; [exact Hcfg'|].
      destruct (body_step s row)
        as [Hsame | [(Hnone & _ & p & Hbody & _ & Hprice)
                    | (p & x & why & Hp & _ & Hexit & Hbody)]].
      + rewrite Hsame. split; [exact Hentry|]. split; [exact Hrest|].
        exists new. auto.
      + rewrite Hbody. simpl. split.
        * intros q Hq. injection Hq as <-.
          destruct Hcfg as (_ & C2 & _).
          destruct Hprice as [[_ ->] | [_ ->]]; rewrite C2;
            apply Qmult_le_0_compat; lra.
        * split; [exact Hrest|]. exists new. auto.
      + rewrite Hbody. cbv zeta. simpl. split; [discriminate|].
        split; [exact Hrest|].
        exists (new ++ [close_trade (tester s) p (row_time row) x why]).
        rewrite Ht, <- app_assoc. split; [reflexivity|].
        apply Forall_app. split; [exact Hnew|]. repeat constructor.
        rewrite (close_trade_same_config _ t0 _ _ _ _ Hcfg).
        rewrite (exit_decision_same_config _ t0 _ _ Hcfg) in Hexit.
        eapply Hgood; eauto.
    - unfold Inv. split; [exact Hcfg|].
      split; [intros p Hp; congruence|]. split; [exact Hpos|].
      exists []. rewrite app_nil_r. auto. }
  destruct Hend as (_ & _ & _ & new & Ht & Hnew). eauto.
Qed.

Lemma run_new_trades (Good : Trade -> Prop) (t : ForwardTester)
      (df : list Bar) (days : option Z) :
  0 <= fees t -> fees t <= 1 ->
  (forall p px ts x why,
      0 <= entry_price p -> 0 <= px ->
      exit_decision t p px = Some (x, why) ->
      Good (close_trade t p ts x why)) ->
  Forall (fun b => 0 <= close b) df ->
  exists new,
    trades (snd (run sqrt t df days)) = trades t ++ new /\ Forall Good new.
Proof.
  intros Hf0 Hf1 Hgood Hpos.
  assert (Hsel : Forall (fun b => 0 <= close b) (select_bars days df)).
  { unfold select_bars. destruct days as [d|]; [|exact Hpos].
    destruct (negb (d =? 0)%Z && (100 <? List.length df)%nat); [|exact Hpos].
    unfold recent_bars. rewrite Forall_forall in *.
    intros b Hb. apply filter_In in Hb. apply Hpos. tauto. }
  pose proof (run_unfold sqrt t df days) as Hrun.
  destruct (select_bars days df) as [|first rest] eqn:Hbars.
  - rewrite Hrun. exists []. simpl. now rewrite app_nil_r.
  - cbv zeta in Hrun. rewrite Hrun. simpl snd. unfold run_loop.
    set (st0 := {| tester := _; position := None; capital := _ |}).
    destruct (loop_new_trades Good t Hf0 Hf1 Hgood
                (skipn 30 (calculate_indicators sqrt (first :: rest))) st0)
      as (new & Ht & Hnew).
    + unfold same_config. simpl. auto 10.
    + reflexivity.
    + apply Forall_skipn_of.
      apply (proj1 (Forall_map bar (fun b => 0 <= close b) _)).
      now rewrite bars_of_calculate_indicators.
    + exists new. auto.
Qed.

Lemma Qlt_bool_false_iff (x y : Q) : Qlt_bool x y = false <-> y <= x.
Proof. unfold Qlt_bool. rewrite negb_false_iff. apply Qle_bool_iff. Qed.

Lemma not_win_when_pnl_not_positive (pnl d : Q) :
  pnl <= 0 -> 0 <= d ->
  fgtb (fmul (fdiv (Fin pnl) (Fin d)) (Fin 100)) (Fin 0) = false.
Proof.
  intros Hpnl Hd. unfold fdiv.
  destruct (Qeq_bool d 0) eqn:Ed.
  - destruct (Qeq_bool pnl 0) eqn:Ep; [reflexivity|].
    destruct (Qlt_bool pnl 0) eqn:Elt; [reflexivity|].
    apply Qlt_bool_false_iff in Elt.
    assert (Hz : pnl == 0) by (apply Qle_antisym; assumption).
    apply Qeq_bool_iff in Hz. congruence.
  - assert (Hd' : 0 < d).
    { apply Qle_lteq in Hd as [Hd|Hd]; [exact Hd|].
      symmetry in Hd. apply Qeq_bool_iff in Hd. congruence. }
    unfold fmul, fgtb, fltb. apply Qlt_bool_false_iff.
    rewrite !Qred_correct.
    assert (pnl / d <= 0).
    { apply Qle_shift_div_r; [exact Hd'|]. lra. }
    lra.
Qed.


Lemma stop_exit_books_no_gain (t : ForwardTester) (p : Position)
      (px : Q) (ts : Timestamp) (x : Q) :
  sane_config t ->
  0 <= entry_price p -> 0 <= px ->
  exit_decision t p px = Some (x, STOP_LOSS) ->
  pnl_usdt (close_trade t p ts x STOP_LOSS) <= 0
  /\ is_win (close_trade t p ts x STOP_LOSS) = false.
Proof.
  intros (Hf0 & Hf1 & Hs & Hps) He Hpx Hexit.
  assert (Hpnl : pnl_usdt (close_trade t p ts x STOP_LOSS) <= 0).
  { unfold exit_decision, sl_price, tp_price in Hexit.
    unfold close_trade. simpl.
    assert (Hpf : 0 <= px * fees t) by (apply Qmult_le_0_compat; lra).
    assert (Hes : 0 <= entry_price p * stop_loss_pct t)
      by (apply Qmult_le_0_compat; lra).
    destruct (pos_side p).
    - destruct (Qle_bool px (entry_price p * (1 - stop_loss_pct t))) eqn:E1.
      + injection Hexit as <-. apply Qle_bool_iff in E1.
        assert (Hd : px * (1 - fees t) - entry_price p <= 0) by lra.
        setoid_replace ((px * (1 - fees t) - entry_price p) * position_size t)
          with (- ((entry_price p - px * (1 - fees t)) * position_size t))
          by ring.
        assert (0 <= (entry_price p - px * (1 - fees t)) * position_size t)
          by (apply Qmult_le_0_compat; lra).
        lra.
      + destruct (Qle_bool (entry_price p * (1 + take_profit_pct t)) px);
          discriminate.
    - destruct (Qle_bool (entry_price p * (1 + stop_loss_pct t)) px) eqn:E1.
      + injection Hexit as <-. apply Qle_bool_iff in E1.
        setoid_replace ((entry_price p - px * (1 + fees t)) * position_size t)
          with (- ((px * (1 + fees t) - entry_price p) * position_size t))
          by ring.
        assert (0 <= (px * (1 + fees t) - entry_price p) * position_size t)
          by (apply Qmult_le_0_compat; lra).
        lra.
      + destruct (Qle_bool px (entry_price p * (1 - take_profit_pct t)));
          discriminate. }
  split; [exact Hpnl|].
  unfold is_win. unfold close_trade in *. simpl in *.
  apply not_win_when_pnl_not_positive; [exact Hpnl|].
  apply Qmult_le_0_compat; assumption.
Qed.

(** X4.  With fees between 0 and 1, a non-negative stop distance and
    position size, and non-negative closes, a trade that a run closes by
    STOP_LOSS never books a gain: its PnL in quote currency is at most 0
    and the report does not count it as a win. *)
Theorem stop_loss_trades_never_win
        (t : ForwardTester) (df : list Bar) (days : option Z) :
  sane_config t ->
  Forall (fun b => 0 <= close b) df ->
  exists new,
    trades (snd (run sqrt t df days)) = trades t ++ new
    /\ Forall (fun trade =>
                 reason trade = STOP_LOSS ->
                 pnl_usdt trade <= 0 /\ is_win trade = false) new.
Proof.
  intros Hsane Hpos.
  pose proof Hsane as (Hf0 & Hf1 & _).
  apply run_new_trades; try assumption.
  intros p px ts x why He Hpx Hexit Hwhy.
  simpl in Hwhy. subst why.
  apply (stop_exit_books_no_gain t p px ts x); assumption.
Qed.




(** ** Bounds of the report *)

Lemma nat_Q_nonneg (n : nat) : 0 <= nat_Q n.
Proof.
  unfold nat_Q. change 0 with (inject_Z 0). rewrite <- Zle_Qle. lia.
Qed.

Lemma nat_Q_le (m n : nat) : (m <= n)%nat -> nat_Q m <= nat_Q n.
Proof. intro H. unfold nat_Q. rewrite <- Zle_Qle. lia. Qed.

Lemma nat_Q_pos (n : nat) : (0 < n)%nat -> 0 < nat_Q n.
Proof.
  intro H. unfold nat_Q. change 0 with (inject_Z 0). rewrite <- Zlt_Qlt. lia.
Qed.

Lemma percentage_bounds (m n : nat) :
  (m <= n)%nat -> (0 < n)%nat ->
  0 <= nat_Q m / nat_Q n * 100 /\ nat_Q m / nat_Q n * 100 <= 100.
Proof.
  intros Hmn Hn.
  pose proof (nat_Q_nonneg m) as Hm0.
  pose proof (nat_Q_le m n Hmn) as Hle.
  pose proof (nat_Q_pos n Hn) as Hpos.
  assert (H0 : 0 <= nat_Q m / nat_Q n).
  { apply Qle_shift_div_l; [exact Hpos|]. lra. }
  assert (H1 : nat_Q m / nat_Q n <= 1).
  { apply Qle_shift_div_r; [exact Hpos|]. lra. }
  split; lra.
Qed.

Lemma length_filter_le {A : Type} (f : A -> bool) (l : list A) :
  (List.length (filter f l) <= List.length l)%nat.
Proof.
  induction l as [|a l IH]; simpl; [lia|].
  destruct (f a); simpl; lia.
Qed.

(** X6.  In every report, wins and losses are each at most the number of
    trades, and the win rate, wins over trades times 100, lies between 0
    and 100. *)
Theorem win_rate_between_0_and_100
        (t : ForwardTester) (final start : Q) (r : Report) :
  generate_report t final start = ReportEntries r ->
  (wins r <= n_trades r)%nat
  /\ (losses r <= n_trades r)%nat
  /\ (0 < n_trades r)%nat
  /\ win_rate r == nat_Q (wins r) / nat_Q (n_trades r) * 100
  /\ 0 <= win_rate r /\ win_rate r <= 100.
Proof.
  unfold generate_report.
  destruct (trades t) as [|x xs] eqn:Ht; [discriminate|].
  intro H. injection H as <-. cbn [wins losses n_trades win_rate].
  pose proof (length_filter_le is_win (x :: xs)) as Hw.
  pose proof (length_filter_le is_loss (x :: xs)) as Hl.
  assert (Hn : (0 < List.length (x :: xs))%nat) by (simpl; lia).
  split; [exact Hw|]. split; [exact Hl|]. split; [exact Hn|].
  split; [reflexivity|].
  apply percentage_bounds; assumption.
Qed.

Lemma fmin2_at_most_zero (a y : float64) :
  at_most_zero a -> at_most_zero (fmin2 a y).
Proof.
  unfold at_most_zero, fmin2. intro Ha.
  destruct (fltb y a) eqn:Hlt; [|exact Ha].
  destruct y as [p| | |], a as [q| | |]; simpl in *; try discriminate;
    try reflexivity.
  apply Qlt_bool_iff in Hlt.
  apply orb_true_iff in Ha.
  assert (Hq : q <= 0).
  { destruct Ha as [Ha|Ha]; [apply Qlt_bool_iff in Ha; lra|].
    apply Qeq_bool_iff in Ha. lra. }
  apply orb_true_iff. left. apply Qlt_bool_iff. lra.
Qed.

Lemma fold_fmin2_at_most_zero (l : list float64) :
  forall a, at_most_zero a -> at_most_zero (fold_left fmin2 l a).
Proof.
  induction l as [|y l IH]; intros a Ha; simpl; [exact Ha|].
  apply IH. now apply fmin2_at_most_zero.
Qed.

Lemma max_drawdown_at_most_zero (c : Q) (rest : list Q) :
  ~ c == 0 -> at_most_zero (fmin (drawdown (c :: rest))).
Proof.
  intro Hc. unfold drawdown, expanding_max. cbn [map2].
  assert (Hfirst : exists z,
             fmul (fdiv (Fin (c - c)) (Fin c)) (Fin 100) = Fin z /\ z == 0).
  { unfold fdiv. destruct (Qeq_bool c 0) eqn:E.
    - apply Qeq_bool_iff in E. contradiction.
    - eexists. split; [reflexivity|].
      rewrite !Qred_correct. unfold Qdiv.
      setoid_replace (c - c) with 0 by ring. ring. }
  destruct Hfirst as (z & -> & Hz).
  unfold fmin. cbn [filter isna negb].
  apply fold_fmin2_at_most_zero.
  unfold at_most_zero, fleb, feqb.
  apply orb_true_iff. right. now apply Qeq_bool_iff.
Qed.

(** X7.  In the report of a run whose starting capital is not 0, the
    maximum drawdown is at most 0: the equity is compared with its own
    running peak, and the starting point has drawdown 0. *)
Theorem max_drawdown_never_positive
        (t : ForwardTester) (df : list Bar) (days : option Z) (r : Report) :
  fst (run sqrt t df days) = Returned (ReportEntries r) ->
  ~ initial_capital r == 0 ->
  fleb (max_drawdown_pct r) (Fin 0) = true.
Proof.
  intros Hr Hstart.
  destruct (select_bars days df) as [|first rest] eqn:Hsel.
  - rewrite (run_raises_on_empty sqrt t df days Hsel) in Hr. discriminate.
  - destruct (run_books t df days first rest Hsel)
      as (new & final & Hrun & _ & He & _ & Hps).
    rewrite Hrun in Hr. simpl in Hr. injection Hr as Hr.
    unfold generate_report in Hr.
    destruct (trades (snd (run sqrt t df days))) as [|x xs];
      [discriminate|].
    injection Hr as <-. cbn [max_drawdown_pct initial_capital] in *.
    rewrite He. cbn [map snd]. rewrite Hps in Hstart.
    now apply max_drawdown_at_most_zero.
Qed.


(** ** When [run] raises *)


(** X9.  A negative day count on a series of more than 100 bars leaves no
    bar: the cutoff lies after the latest bar, and [run] raises IndexError
    without touching the tester. *)
Theorem negative_day_count_raises
        (t : ForwardTester) (df : list Bar) (N : Z) :
  (N < 0)%Z ->
  (100 < List.length df)%nat ->
  select_bars (Some N) df = []
  /\ run sqrt t df (Some N) = (Raised IndexError, t).
Proof.
  intros HN Hlen.
  assert (Hne : df <> []) by (intro E; rewrite E in Hlen; simpl in Hlen; lia).
  destruct (max_timestamp_spec df Hne) as (Hmax & _).
  assert (Hsel : select_bars (Some N) df = []).
  { unfold select_bars.
    destruct (Z.eqb_spec N 0); [lia|].
    destruct (Nat.ltb_spec 100 (List.length df)); [|lia].
    simpl. unfold recent_bars. apply filter_none.
    apply Forall_forall. intros b Hb. apply Z.leb_gt.
    specialize (Hmax b Hb). unfold ns_per_day, ns_per_hour. lia. }
  split; [exact Hsel|]. now apply run_raises_on_empty.
Qed.


(** ** A constant close *)

Lemma ewm_from_const (alpha c : Q) (xs : list Q) :
  forall prev,
    prev == c -> Forall (fun x => x == c) xs ->
    Forall (fun y => y == c) (ewm_from alpha prev xs).
Proof.
  induction xs as [|x xs IH]; intros prev Hprev Hxs; simpl; [constructor|].
  inversion Hxs as [|? ? Hx Hrest]; subst.
  assert (Hy : Qred ((1 - alpha) * prev + alpha * x) == c).
  { rewrite Qred_correct, Hprev, Hx. ring. }
  constructor; [exact Hy|]. now apply IH.
Qed.

Lemma ewm_mean_const (span : Z) (c : Q) (xs : list Q) :
  Forall (fun x => x == c) xs -> Forall (fun y => y == c) (ewm_mean span xs).
Proof.
  intro H. destruct xs as [|x xs]; simpl; [constructor|].
  inversion H as [|? ? Hx Hrest]; subst.
  constructor; [exact Hx|]. now apply ewm_from_const.
Qed.

Lemma Forall_map2 {A B C : Type} (P : A -> Prop) (R : C -> Prop)
      (f : A -> B -> C) :
  (forall a b, P a -> R (f a b)) ->
  forall xs ys, Forall P xs -> Forall R (map2 f xs ys).
Proof.
  intros Hf xs. induction xs as [|x xs IH]; intros ys Hxs; simpl;
    [constructor|].
  destruct ys as [|y ys]; [constructor|].
  inversion Hxs; subst. constructor; auto.
Qed.

Lemma Forall_mapi_from {A B : Type} (P : B -> Prop) (f : nat -> A -> B) :
  (forall i a, P (f i a)) ->
  forall l i, Forall P (mapi_from f i l).
Proof.
  intros Hf l. induction l as [|a l IH]; intro i; simpl; constructor; auto.
Qed.

Lemma cellb_all_false (col : list bool) (i : nat) :
  Forall (fun b => b = false) col -> cellb col i = false.
Proof.
  unfold cellb. revert i.
  induction col as [|b col IH]; intros i H; [destruct i; reflexivity|].
  inversion H; subst. destruct i; simpl; auto.
Qed.

Lemma macd_diff_of_constant_close (c : Q) (df : list Bar) :
  Forall (fun b => close b == c) df ->
  Forall (fun d => d == 0) (macd_diff_col df).
Proof.
  intro H.
  assert (Hclose : Forall (fun x => x == c) (close_col df)).
  { unfold close_col. apply Forall_map. exact H. }
  assert (Hmacd : Forall (fun d => d == 0) (macd_col df)).
  { unfold macd_col, exp1_col, exp2_col.
    pose proof (ewm_mean_const 12 c _ Hclose) as H1.
    pose proof (ewm_mean_const 26 c _ Hclose) as H2.
    revert H1 H2.
    generalize (ewm_mean 12 (close_col df)), (ewm_mean 26 (close_col df)).
    intros xs. induction xs as [|x xs IH]; intros ys H1 H2; cbn [map2];
      [constructor|].
    destruct ys as [|y ys]; [constructor|].
    inversion H1; inversion H2; subst.
    constructor; [|now apply IH].
    cbv beta. rewrite Qred_correct. lra. }
  unfold macd_diff_col, macd_signal_col.
  pose proof (ewm_mean_const 9 0 _ Hmacd) as Hsig.
  revert Hmacd Hsig.
  generalize (macd_col df), (ewm_mean 9 (macd_col df)).
  intros xs. induction xs as [|x xs IH]; intros ys H1 H2; cbn [map2];
    [constructor|].
  destruct ys as [|y ys]; [constructor|].
  inversion H1; inversion H2; subst.
  constructor; [|now apply IH].
  cbv beta. rewrite Qred_correct. lra.
Qed.

Lemma no_signal_on_constant_close (c : Q) (df : list Bar) :
  Forall (fun b => close b == c) df ->
  Forall (fun row => long_signal row = false /\ short_signal row = false)
         (calculate_indicators sqrt df).
Proof.
  intro H. pose proof (macd_diff_of_constant_close c df H) as Hdiff.
  assert (Hbull : Forall (fun b => b = false) (macd_bullish_col df)).
  { unfold macd_bullish_col.
    apply (Forall_map2 (fun d => d == 0)); [|exact Hdiff].
    intros d p Hd. unfold fgtb, fltb.
    now rewrite (Qlt_bool_irrefl 0 d) by (now symmetry). }
  assert (Hbear : Forall (fun b => b = false) (macd_bearish_col df)).
  { unfold macd_bearish_col.
    apply (Forall_map2 (fun d => d == 0)); [|exact Hdiff].
    intros d p Hd. unfold fltb.
    now rewrite (Qlt_bool_irrefl d 0) by assumption. }
  unfold calculate_indicators, mapi. cbv zeta.
  apply Forall_mapi_from. intros i b.
  unfold long_signal, short_signal. cbn [macd_bullish macd_bearish].
  now rewrite (cellb_all_false _ i Hbull), (cellb_all_false _ i Hbear).
Qed.

Lemma loop_without_signals (rows : list Row) :
  Forall (fun row => long_signal row = false /\ short_signal row = false)
         rows ->
  forall st, position st = None -> fold_left body rows st = st.
Proof.
  induction 1 as [|row rows [Hl Hs] _ IH]; intros st Hflat; [reflexivity|].
  simpl.
  assert (Hbody : body st row = st).
  { destruct (passes_filters (tester st) row) eqn:Hpass.
    - rewrite (body_accepted st row Hpass), Hflat, Hl, Hs. reflexivity.
    - now apply body_rejected. }
  rewrite Hbody. now apply IH.
Qed.

(** X10.  On a series whose closes are all equal, the MACD histogram is 0
    on every bar, no entry signal arises, and the run records no trade:
    the tester's trade list is left as it was, and a tester without trades
    gets the ['error'] entry. *)
Theorem constant_close_never_trades
        (t : ForwardTester) (df : list Bar) (days : option Z) (c : Q) :
  Forall (fun b => close b == c) df ->
  trades (snd (run sqrt t df days)) = trades t
  /\ Forall (fun row => macd_bullish row = false
                        /\ macd_bearish row = false)
            (calculate_indicators sqrt df)
  /\ (trades t = [] ->
      forall d, fst (run sqrt t df days) = Returned d ->
                d = ErrorEntry no_trade_message).
Proof.
  intro Hflat.
  assert (Hsel : Forall (fun b => close b == c) (select_bars days df)).
  { unfold select_bars. destruct days as [N|]; [|exact Hflat].
    destruct (negb (N =? 0)%Z && (100 <? List.length df)%nat);
      [|exact Hflat].
    unfold recent_bars. rewrite Forall_forall in *.
    intros b Hb. apply filter_In in Hb. apply Hflat. tauto. }
  assert (Htrades : trades (snd (run sqrt t df days)) = trades t).
  { pose proof (run_unfold sqrt t df days) as Hrun.
    destruct (select_bars days df) as [|first rest] eqn:Hbars.
    - now rewrite Hrun.
    - cbv zeta in Hrun. rewrite Hrun. simpl snd. unfold run_loop.
      rewrite loop_without_signals; [reflexivity| |reflexivity].
      apply Forall_skipn_of.
      now apply (no_signal_on_constant_close c). }
  split; [exact Htrades|]. split.
  - pose proof (macd_diff_of_constant_close c df Hflat) as Hdiff.
    unfold calculate_indicators, mapi. cbv zeta.
    apply Forall_mapi_from. intros i b. cbn [macd_bullish macd_bearish].
    split; apply cellb_all_false.
    + unfold macd_bullish_col.
      apply (Forall_map2 (fun d => d == 0)); [|exact Hdiff].
      intros d p Hd. unfold fgtb, fltb.
      now rewrite (Qlt_bool_irrefl 0 d) by (now symmetry).
    + unfold macd_bearish_col.
      apply (Forall_map2 (fun d => d == 0)); [|exact Hdiff].
      intros d p Hd. unfold fltb.
      now rewrite (Qlt_bool_irrefl d 0) by assumption.
  - intros Hnone d Hd.
    pose proof (run_unfold sqrt t df days) as Hrun.
    destruct (select_bars days df) as [|first rest] eqn:Hbars.
    + rewrite Hrun in Hd. discriminate.
    + cbv zeta in Hrun. rewrite Hrun in Htrades, Hd. simpl in Htrades, Hd.
      injection Hd as <-. unfold generate_report.
      now rewrite Htrades, Hnone.
Qed.


(** ** No look-ahead in the indicator engine *)

Lemma firstn_mapi_from {A B : Type} (f : nat -> A -> B) (n : nat) :
  forall l i, firstn n (mapi_from f i l) = mapi_from f i (firstn n l).
Proof.
  induction n as [|n IH]; intros l i; [reflexivity|].
  destruct l as [|a l]; simpl; [reflexivity|]. now rewrite IH.
Qed.

Lemma mapi_from_ext {A B : Type} (f g : nat -> A -> B) (l : list A) :
  forall i,
    (forall k a, (k < List.length l)%nat -> f (i + k)%nat a = g (i + k)%nat a) ->
    mapi_from f i l = mapi_from g i l.
Proof.
  induction l as [|a l IH]; intros i H; simpl; [reflexivity|].
  f_equal.
  - specialize (H 0%nat a). rewrite Nat.add_0_r in H. apply H. simpl. lia.
  - apply IH. intros k b Hk.
    replace (S i + k)%nat with (i + S k)%nat by lia. apply H. simpl. lia.
Qed.

Lemma firstn_map2 {A B C : Type} (f : A -> B -> C) (n : nat) :
  forall xs ys,
    firstn n (map2 f xs ys) = map2 f (firstn n xs) (firstn n ys).
Proof.
  induction n as [|n IH]; intros xs ys; [reflexivity|].
  destruct xs as [|x xs]; [reflexivity|].
  destruct ys as [|y ys]; [reflexivity|].
  simpl. now rewrite IH.
Qed.

Lemma firstn_ewm_from (alpha : Q) (n : nat) :
  forall xs prev,
    firstn n (ewm_from alpha prev xs) = ewm_from alpha prev (firstn n xs).
Proof.
  induction n as [|n IH]; intros xs prev; [reflexivity|].
  destruct xs as [|x xs]; [reflexivity|].
  cbn [ewm_from firstn]. now rewrite IH.
Qed.

Lemma firstn_ewm_mean (span : Z) (n : nat) (xs : list Q) :
  firstn n (ewm_mean span xs) = ewm_mean span (firstn n xs).
Proof.
  destruct n as [|n]; [reflexivity|].
  destruct xs as [|x xs]; [reflexivity|].
  cbn [ewm_mean firstn]. now rewrite firstn_ewm_from.
Qed.

Lemma shift1_as_firstn (xs : list float64) :
  shift1 xs = firstn (List.length xs) (NaN :: xs).
Proof.
  destruct xs as [|x xs]; [reflexivity|].
  unfold shift1. rewrite removelast_firstn_len. reflexivity.
Qed.

Lemma firstn_cons_firstn {A : Type} (a : A) (l : list A) (k n : nat) :
  (k <= n)%nat -> firstn k (a :: firstn n l) = firstn k (a :: l).
Proof.
  intro H. destruct k as [|k]; [reflexivity|].
  simpl. f_equal. rewrite firstn_firstn. f_equal. lia.
Qed.

Lemma firstn_shift1 (n : nat) (xs : list float64) :
  firstn n (shift1 xs) = shift1 (firstn n xs).
Proof.
  rewrite !shift1_as_firstn, firstn_firstn, length_firstn.
  now rewrite firstn_cons_firstn by lia.
Qed.

Lemma firstn_diff (n : nat) (xs : list float64) :
  firstn n (diff xs) = diff (firstn n xs).
Proof. unfold diff. now rewrite firstn_map2, firstn_shift1. Qed.

Lemma window_firstn {A : Type} (w n i : nat) (xs : list A) :
  (i < n)%nat -> (w <= i + 1)%nat ->
  window w (firstn n xs) i = window w xs i.
Proof.
  intros Hi Hw. unfold window.
  rewrite skipn_firstn_comm, firstn_firstn. f_equal. lia.
Qed.

Lemma firstn_rolling (w : nat) (agg : list Q -> float64) (n : nat)
      (xs : list float64) :
  firstn n (rolling w agg xs) = rolling w agg (firstn n xs).
Proof.
  unfold rolling, mapi. rewrite firstn_mapi_from.
  apply mapi_from_ext. intros k a Hk. simpl.
  destruct (Nat.ltb_spec (k + 1) w) as [Hlt|Hge]; [reflexivity|].
  rewrite window_firstn; [reflexivity| |lia].
  rewrite length_firstn in Hk. lia.
Qed.

Ltac push_firstn :=
  repeat first
    [ rewrite firstn_map
    | rewrite firstn_map2
    | rewrite firstn_ewm_mean
    | rewrite firstn_shift1
    | rewrite firstn_diff
    | rewrite firstn_rolling ].

Lemma firstn_columns (n : nat) (df : list Bar) :
  firstn n (macd_col df) = macd_col (firstn n df)
  /\ firstn n (macd_signal_col df) = macd_signal_col (firstn n df)
  /\ firstn n (macd_diff_col df) = macd_diff_col (firstn n df)
  /\ firstn n (macd_prev_col df) = macd_prev_col (firstn n df)
  /\ firstn n (macd_bullish_col df) = macd_bullish_col (firstn n df)
  /\ firstn n (macd_bearish_col df) = macd_bearish_col (firstn n df)
  /\ firstn n (ema6_col df) = ema6_col (firstn n df)
  /\ firstn n (ema7_col df) = ema7_col (firstn n df)
  /\ firstn n (ema21_col df) = ema21_col (firstn n df)
  /\ firstn n (bb_mid_col df) = bb_mid_col (firstn n df)
  /\ firstn n (bb_std_col sqrt df) = bb_std_col sqrt (firstn n df)
  /\ firstn n (bb_high_col sqrt df) = bb_high_col sqrt (firstn n df)
  /\ firstn n (bb_low_col sqrt df) = bb_low_col sqrt (firstn n df)
  /\ firstn n (bb_width_col sqrt df) = bb_width_col sqrt (firstn n df)
  /\ firstn n (bb_width_prev_col sqrt df)
     = bb_width_prev_col sqrt (firstn n df)
  /\ firstn n (bb_expanding_col sqrt df)
     = bb_expanding_col sqrt (firstn n df)
  /\ firstn n (rsi_col df) = rsi_col (firstn n df)
  /\ firstn n (volume_usdt_col df) = volume_usdt_col (firstn n df).
Proof.
  unfold macd_bullish_col, macd_bearish_col, macd_prev_col, macd_diff_col,
    macd_signal_col, macd_col, exp1_col, exp2_col, ema6_col, ema7_col,
    ema21_col, bb_expanding_col, bb_width_prev_col, bb_width_col,
    bb_high_col, bb_low_col, bb_mid_col, bb_std_col, rsi_col, rs_col,
    gain_col, loss_col, delta_col, volume_usdt_col, closeF_col, close_col.
  repeat split; push_firstn; reflexivity.
Qed.

Lemma nth_firstn_lt {A : Type} (n i : nat) (l : list A) (d : A) :
  (i < n)%nat -> nth i (firstn n l) d = nth i l d.
Proof.
  intro H. rewrite nth_firstn.
  destruct (Nat.ltb_spec i n); [reflexivity|lia].
Qed.

(** X11.  The indicator engine does not look ahead: the rows it returns
    for the first [n] bars are the rows it returns when given those [n]
    bars alone.  Appending bars to a series therefore leaves every
    enriched row computed so far unchanged. *)
Theorem calculate_indicators_is_causal (df more : list Bar) (n : nat) :
  firstn n (calculate_indicators sqrt df)
  = calculate_indicators sqrt (firstn n df)
  /\ firstn (List.length df) (calculate_indicators sqrt (df ++ more))
     = calculate_indicators sqrt df.
Proof.
  assert (Hgen : forall k l,
             firstn k (calculate_indicators sqrt l)
             = calculate_indicators sqrt (firstn k l)).
  { intros k l. unfold calculate_indicators, mapi. cbv zeta.
    rewrite firstn_mapi_from.
    destruct (firstn_columns k l)
      as (H1 & H2 & H3 & H4 & H5 & H6 & H7 & H8 & H9 & H10 & H11 & H12
          & H13 & H14 & H15 & H16 & H17 & H18).
    rewrite <- H1, <- H2, <- H3, <- H4, <- H5, <- H6, <- H7, <- H8, <- H9,
      <- H10, <- H11, <- H12, <- H13, <- H14, <- H15, <- H16, <- H17,
      <- H18.
    apply mapi_from_ext. intros i b Hi. simpl.
    assert (Hk : (i < k)%nat) by (rewrite length_firstn in Hi; lia).
    unfold cell, cellQ, cellb.
    now rewrite !(nth_firstn_lt k i) by exact Hk. }
  split; [apply Hgen|].
  rewrite Hgen, firstn_app, Nat.sub_diag, firstn_all. simpl.
  now rewrite app_nil_r.
Qed.


(** ** MACD flags and RSI range *)

Lemma nth_map2_pair (g h : Q -> float64 -> bool) :
  (forall a b, g a b && h a b = false) ->
  forall xs ys i,
    nth i (map2 g xs ys) false && nth i (map2 h xs ys) false = false.
Proof.
  intros Hgh xs. induction xs as [|x xs IH]; intros ys i.
  - destruct i; reflexivity.
  - destruct ys as [|y ys]; [destruct i; reflexivity|].
    destruct i as [|i]; simpl; [apply Hgh|apply IH].
Qed.

(** X12.  On every row the indicator engine returns, the bullish and the
    bearish MACD cross flags are not both set, so the LONG and the SHORT
    entry signals never arise on the same bar. *)
Theorem macd_flags_exclude_each_other (df : list Bar) :
  Forall (fun row => macd_bullish row && macd_bearish row = false
                     /\ long_signal row && short_signal row = false)
         (calculate_indicators sqrt df).
Proof.
  unfold calculate_indicators, mapi. cbv zeta.
  apply Forall_mapi_from. intros i b.
  unfold long_signal, short_signal. cbn [macd_bullish macd_bearish].
  assert (H : cellb (macd_bullish_col df) i && cellb (macd_bearish_col df) i
              = false).
  { unfold cellb, macd_bullish_col, macd_bearish_col.
    apply nth_map2_pair. intros d p. unfold fgtb, fltb.
    destruct (Qlt_bool 0 d) eqn:E1; [|reflexivity].
    destruct (Qlt_bool d 0) eqn:E2; [|now rewrite andb_false_r].
    apply Qlt_bool_iff in E1, E2. lra. }
  split; [exact H|].
  destruct (cellb (macd_bullish_col df) i); [|reflexivity].
  simpl in H. rewrite H. simpl. apply andb_false_r.
Qed.

Lemma Forall_firstn_of {A : Type} (P : A -> Prop) (n : nat) :
  forall l, Forall P l -> Forall P (firstn n l).
Proof.
  induction n as [|n IH]; intros l H; [constructor|].
  destruct l as [|a l]; [constructor|].
  inversion H; subst. simpl. constructor; auto.
Qed.

Lemma all_finite_some (xs : list float64) :
  forall qs, all_finite xs = Some qs -> xs = map Fin qs.
Proof.
  induction xs as [|x xs IH]; intros qs H; simpl in H.
  - injection H as <-. reflexivity.
  - destruct x as [q| | |]; try discriminate.
    destruct (all_finite xs) as [qs'|]; [|discriminate].
    injection H as <-. simpl. now rewrite (IH qs').
Qed.

Lemma Qsum_nonneg (qs : list Q) :
  Forall (fun q => 0 <= q) qs -> 0 <= Qsum qs.
Proof.
  unfold Qsum.
  assert (H : forall acc, 0 <= acc -> Forall (fun q => 0 <= q) qs ->
                          0 <= fold_left (fun a x => Qred (a + x)) qs acc).
  { induction qs as [|q qs IH]; intros acc Hacc Hqs; cbn [fold_left];
      [exact Hacc|].
    inversion Hqs; subst. apply IH; [|assumption].
    rewrite Qred_correct. lra. }
  intro Hqs. apply H; [lra|exact Hqs].
Qed.

Lemma mean_agg_nonneg (qs : list Q) :
  Forall (fun q => 0 <= q) qs -> nonneg_or_nan (mean_agg qs).
Proof.
  intro H. destruct qs as [|q qs]; [exact I|].
  unfold mean_agg, nonneg_or_nan. rewrite Qred_correct.
  apply Qle_shift_div_l.
  - unfold Qlen. change 0 with (inject_Z 0). rewrite <- Zlt_Qlt.
    simpl List.length. lia.
  - pose proof (Qsum_nonneg _ H). lra.
Qed.

Lemma rolling_mean_nonneg (w : nat) (xs : list float64) :
  Forall nonneg_or_nan xs ->
  Forall nonneg_or_nan (rolling w mean_agg xs).
Proof.
  intro H. unfold rolling, mapi. apply Forall_mapi_from. intros i _.
  destruct (i + 1 <? w)%nat; [exact I|].
  destruct (all_finite (window w xs i)) as [qs|] eqn:E; [|exact I].
  apply mean_agg_nonneg.
  apply all_finite_some in E.
  assert (Hwin : Forall nonneg_or_nan (window w xs i)).
  { unfold window. now apply Forall_firstn_of, Forall_skipn_of. }
  rewrite E in Hwin. rewrite Forall_map in Hwin. exact Hwin.
Qed.

Lemma Forall_map2_both {A B C : Type} (P : A -> Prop) (S : B -> Prop)
      (R : C -> Prop) (f : A -> B -> C) :
  (forall a b, P a -> S b -> R (f a b)) ->
  forall xs ys, Forall P xs -> Forall S ys -> Forall R (map2 f xs ys).
Proof.
  intros Hf xs. induction xs as [|x xs IH]; intros ys Hxs Hys; simpl;
    [constructor|].
  destruct ys as [|y ys]; [constructor|].
  inversion Hxs; inversion Hys; subst. constructor; auto.
Qed.

Lemma delta_number_or_nan (df : list Bar) :
  Forall number_or_nan (delta_col df).
Proof.
  unfold delta_col, diff.
  assert (Hc : Forall (fun x => exists q, x = Fin q) (closeF_col df)).
  { unfold closeF_col. apply Forall_map. apply Forall_forall.
    intros q _. eauto. }
  apply (Forall_map2_both (fun x => exists q, x = Fin q) number_or_nan).
  - intros a b [q ->] Hb. destruct b; try contradiction; exact I.
  - exact Hc.
  - rewrite shift1_as_firstn. apply Forall_firstn_of.
    constructor; [exact I|].
    eapply Forall_impl; [|exact Hc]. intros x [q ->]. exact I.
Qed.

Lemma gain_and_loss_nonneg (df : list Bar) :
  Forall nonneg_or_nan (gain_col df) /\ Forall nonneg_or_nan (loss_col df).
Proof.
  pose proof (delta_number_or_nan df) as Hd.
  split; apply rolling_mean_nonneg; apply Forall_map;
    (eapply Forall_impl; [|exact Hd]); intros d Hnum.
  - destruct d as [q| | |]; try contradiction; simpl; [|lra].
    destruct (Qlt_bool 0 q) eqn:E; simpl; [|lra].
    apply Qlt_bool_iff in E. lra.
  - destruct d as [q| | |]; try contradiction; simpl; [|lra].
    destruct (Qlt_bool q 0) eqn:E; simpl; [|lra].
    apply Qlt_bool_iff in E. lra.
Qed.

Lemma rsi_formula_range (gain loss : float64) :
  nonneg_or_nan gain -> nonneg_or_nan loss ->
  exists q,
    fillna0 (fsub (Fin 100)
                  (fdiv (Fin 100)
                        (fadd (Fin 1) (fdiv gain (replace0_nan loss)))))
    = Fin q
    /\ 0 <= q /\ q < 100.
Proof.
  intros Hg Hl.
  destruct loss as [l| | |]; try contradiction;
    [|exists 0; rewrite fdiv_nan_r; simpl; split; [reflexivity|lra]].
  unfold replace0_nan, feqb.
  destruct (Qeq_bool l 0) eqn:El;
    [exists 0; rewrite fdiv_nan_r; simpl; split; [reflexivity|lra]|].
  destruct gain as [g| | |]; try contradiction;
    [|exists 0; simpl; split; [reflexivity|lra]].
  simpl in Hg, Hl.
  assert (Hlpos : 0 < l).
  { apply Qle_lteq in Hl as [Hl|Hl]; [exact Hl|].
    symmetry in Hl. apply Qeq_bool_iff in Hl. congruence. }
  unfold fdiv at 2. rewrite El.
  set (rs := Qred (g / l)).
  assert (Hrs : 0 <= rs).
  { unfold rs. rewrite Qred_correct. apply Qle_shift_div_l; [exact Hlpos|].
    lra. }
  unfold fadd. set (den := Qred (1 + rs)).
  assert (Hden : 1 <= den) by (unfold den; rewrite Qred_correct; lra).
  unfold fdiv.
  destruct (Qeq_bool den 0) eqn:Eden;
    [apply Qeq_bool_iff in Eden; lra|].
  set (x := Qred (100 / den)).
  assert (Hx : 0 < x /\ x <= 100).
  { unfold x. rewrite Qred_correct. split.
    - apply Qlt_shift_div_l; lra.
    - apply Qle_shift_div_r; lra. }
  unfold fsub, fneg, fadd, fillna0.
  eexists. split; [reflexivity|]. rewrite Qred_correct. lra.
Qed.

(** X13.  Every RSI value the indicator engine returns is a number
    between 0 and 100, never NaN and never infinite: the warm-up cells hold
    0, and a bar with a positive average loss holds
    [100 - 100 / (1 + gain / loss)] with a non-negative average gain. *)
Theorem rsi_is_between_0_and_100 (df : list Bar) :
  Forall (fun row => exists q, rsi row = Fin q /\ 0 <= q /\ q <= 100)
         (calculate_indicators sqrt df).
Proof.
  destruct (gain_and_loss_nonneg df) as [Hg Hl].
  unfold calculate_indicators, mapi. cbv zeta.
  apply Forall_mapi_from. intros i b. cbn [rsi].
  unfold cell, rsi_col, rs_col.
  destruct (Nat.lt_ge_cases i (List.length df)) as [Hi|Hi].
  - set (f := fun rs => fsub (Fin 100) (fdiv (Fin 100) (fadd (Fin 1) rs))).
    change NaN with (f NaN) at 1. rewrite map_nth.
    rewrite (nth_map2 fdiv NaN NaN NaN)
      by (rewrite ?length_map, ?length_gain_col, ?length_loss_col; exact Hi).
    change NaN with (replace0_nan NaN) at 2. rewrite map_nth.
    destruct (rsi_formula_range (nth i (gain_col df) NaN)
                                (nth i (loss_col df) NaN))
      as (q & Hq & H0 & H100);
      [| |exists q; split; [exact Hq|split; [exact H0|lra]]].
    + rewrite Forall_forall in Hg. apply Hg. apply nth_In.
      now rewrite length_gain_col.
    + rewrite Forall_forall in Hl. apply Hl. apply nth_In.
      now rewrite length_loss_col.
  - rewrite nth_overflow.
    + exists 0. simpl. split; [reflexivity|lra].
    + rewrite length_map, length_map2, length_map, length_gain_col,
        length_loss_col. lia.
Qed.


(** ** Divergence analyzer: sorting and correlation *)

Lemma insert_by_time_sorted (d : Divergence) (sorted : list Divergence) :
  Sorted Z.le (map div_timestamp sorted) ->
  Sorted Z.le (map div_timestamp (insert_by_time d sorted)).
Proof.
  induction sorted as [|x rest IH]; intro H; simpl.
  - repeat constructor.
  - destruct (Z.leb_spec (div_timestamp x) (div_timestamp d)) as [Hle|Hgt].
    + simpl in H. inversion H as [|? ? Hrest Hhd]; subst.
      simpl. constructor; [exact (IH Hrest)|].
      destruct rest as [|y rest]; simpl.
      * constructor. exact Hle.
      * destruct (div_timestamp y <=? div_timestamp d)%Z; simpl;
          constructor; [now inversion Hhd|exact Hle].
    + simpl. constructor; [exact H|]. constructor. lia.
Qed.

Lemma sort_by_time_sorted (ds : list Divergence) :
  Sorted Z.le (map div_timestamp (sort_by_time ds)).
Proof.
  unfold sort_by_time.
  assert (H : forall acc,
             Sorted Z.le (map div_timestamp acc) ->
             Sorted Z.le
               (map div_timestamp
                    (fold_left (fun sorted d => insert_by_time d sorted)
                               ds acc))).
  { induction ds as [|d ds IH]; intros acc Hacc; simpl; [exact Hacc|].
    apply IH. now apply insert_by_time_sorted. }
  apply H. constructor.
Qed.

Lemma insert_by_time_perm (d : Divergence) (sorted : list Divergence) :
  Permutation (insert_by_time d sorted) (d :: sorted).
Proof.
  induction sorted as [|x rest IH]; simpl; [reflexivity|].
  destruct (div_timestamp x <=? div_timestamp d)%Z; [|reflexivity].
  rewrite IH. apply perm_swap.
Qed.

Lemma sort_by_time_perm (ds : list Divergence) :
  Permutation (sort_by_time ds) ds.
Proof.
  unfold sort_by_time.
  assert (H : forall acc,
             Permutation
               (fold_left (fun sorted d => insert_by_time d sorted) ds acc)
               (acc ++ ds)).
  { induction ds as [|d ds IH]; intro acc; simpl.
    - now rewrite app_nil_r.
    - rewrite IH, insert_by_time_perm. apply Permutation_middle. }
  apply (H []).
Qed.

(** X14.  [analyze] returns its divergences sorted by timestamp, earliest
    first, whether or not trades are given. *)
Theorem analyze_is_sorted_by_time
        (df : list Row) (trades_df : option (list Trade)) :
  Sorted Z.le (map div_timestamp (analyze df trades_df)).
Proof. unfold analyze. cbv zeta. apply sort_by_time_sorted. Qed.

Lemma correlate_keeps_event (div : Divergence) (ts : list Trade) :
  div_timestamp (correlate div ts) = div_timestamp div
  /\ div_type (correlate div ts) = div_type div
  /\ indicator (correlate div ts) = indicator div
  /\ price_action (correlate div ts) = price_action div
  /\ indicator_action (correlate div ts) = indicator_action div
  /\ severity (correlate div ts) = severity div
  /\ price (correlate div ts) = price div.
Proof.
  induction ts as [|trade rest IH]; simpl; [auto 10|].
  destruct (holds div trade); simpl; auto 10.
Qed.

(** X15.  [analyze] neither drops nor invents divergences: what it returns
    is a rearrangement of what the three detectors found, each event with
    its timestamp, type, indicator, descriptions, severity and price
    unchanged by the correlation pass. *)
Theorem analyze_rearranges_detected_events
        (df : list Row) (trades_df : option (list Trade)) :
  Permutation
    (map (fun d => (div_timestamp d, div_type d, indicator d,
                    price_action d, indicator_action d, severity d,
                    price d))
         (analyze df trades_df))
    (map (fun d => (div_timestamp d, div_type d, indicator d,
                    price_action d, indicator_action d, severity d,
                    price d))
         (detect_all df))
  /\ List.length (analyze df trades_df) = List.length (detect_all df).
Proof.
  assert (Hperm :
    Permutation
      (map (fun d => (div_timestamp d, div_type d, indicator d,
                      price_action d, indicator_action d, severity d,
                      price d))
           (analyze df trades_df))
      (map (fun d => (div_timestamp d, div_type d, indicator d,
                      price_action d, indicator_action d, severity d,
                      price d))
           (detect_all df))).
  { unfold analyze. cbv zeta. rewrite sort_by_time_perm.
    destruct trades_df as [ts|]; [|reflexivity].
    rewrite map_map.
    erewrite map_ext; [reflexivity|].
    intro d. cbv beta.
    destruct (correlate_keeps_event d ts)
      as (-> & -> & -> & -> & -> & -> & ->).
    reflexivity. }
  split; [exact Hperm|].
  apply Permutation_length in Hperm. now rewrite !length_map in Hperm.
Qed.

(** X16.  The correlation pass takes the first trade, in the order of the
    trade list, whose window holds the divergence: it marks the divergence
    as impacted, with that trade's side, and with WIN when that trade's
    PnL% is above 0 and LOSS otherwise; later trades that also hold it are
    ignored.  A divergence that no trade holds is returned as it is. *)
Theorem correlation_takes_first_matching_trade
        (div : Divergence) (before rest : list Trade) (trade : Trade) :
  Forall (fun other => holds div other = false) before ->
  holds div trade = true ->
  correlate div (before ++ trade :: rest) = correlate div [trade]
  /\ impacted_trade (correlate div (before ++ trade :: rest)) = Some true
  /\ trade_side (correlate div (before ++ trade :: rest))
     = Some (side trade)
  /\ trade_result (correlate div (before ++ trade :: rest))
     = Some (if is_win trade then WIN else LOSS)
  /\ correlate div before = div.
Proof.
  intros Hbefore Hin.
  assert (Hnone : forall l, Forall (fun other => holds div other = false) l ->
                            forall tail,
                              correlate div (l ++ tail) = correlate div tail).
  { induction 1 as [|other l Hout _ IH]; intro tail; simpl; [reflexivity|].
    rewrite Hout. apply IH. }
  assert (Hfirst : correlate div (before ++ trade :: rest)
                   = correlate div [trade]).
  { rewrite (Hnone before Hbefore). simpl. now rewrite Hin. }
  split; [exact Hfirst|]. rewrite Hfirst. simpl. rewrite Hin. simpl.
  repeat split.
  rewrite <- (app_nil_r before). now rewrite (Hnone before Hbefore).
Qed.


(** ** Divergence analyzer: what the detectors report *)

Lemma in_range (a b i : nat) : In i (range a b) -> (a <= i < b)%nat.
Proof. unfold range. rewrite in_seq. lia. Qed.

Lemma row_at (df : list Row) (i : nat) :
  (i < List.length df)%nat ->
  exists row, In row df
              /\ row_timestamp df i = row_time row
              /\ row_close df i = close (bar row).
Proof.
  intro Hi.
  destruct (nth_error df i) as [row|] eqn:E;
    [|apply nth_error_None in E; lia].
  exists row. split; [now apply nth_error_In in E|].
  unfold row_timestamp, row_close, cellQ, row_time.
  split; apply nth_error_nth; rewrite nth_error_map, E; reflexivity.
Qed.

Lemma detected_events_are_fresh (df : list Row) (d : Divergence) :
  In d (detect_all df) -> fresh_event df d.
Proof.
  unfold detect_all, detect_rsi_divergence, detect_macd_divergence,
    detect_volume_divergence.
  rewrite !in_app_iff, !in_flat_map.
  intros [(i & Hi & Hd) | [(i & Hi & Hd) | (i & Hi & Hd)]];
    apply in_range in Hi;
    (destruct (row_at df i) as (row & Hrow & Hts & Hpx); [lia|]).
  - apply in_app_iff in Hd as [Hd|Hd].
    + unfold rsi_top in Hd.
      repeat match type of Hd with
             | In _ (if ?c then _ else _) => destruct c
             end; simpl in Hd; try contradiction.
      destruct Hd as [<-|[]]. unfold fresh_event. simpl.
      repeat split; eauto.
    + unfold rsi_bottom in Hd.
      repeat match type of Hd with
             | In _ (if ?c then _ else _) => destruct c
             end; simpl in Hd; try contradiction.
      destruct Hd as [<-|[]]. unfold fresh_event. simpl.
      repeat split; eauto.
  - unfold macd_top in Hd.
    repeat match type of Hd with
           | In _ (if ?c then _ else _) => destruct c
           end; simpl in Hd; try contradiction.
    destruct Hd as [<-|[]]. unfold fresh_event. simpl.
    repeat split; eauto.
  - unfold volume_fade in Hd.
    repeat match type of Hd with
           | In _ (if ?c then _ else _) => destruct c
           end; simpl in Hd; try contradiction.
    destruct Hd as [<-|[]]. unfold fresh_event. simpl.
    repeat split; eauto 10.
Qed.

(** X17.  Without trades, every divergence [analyze] returns carries the
    timestamp and the close of a row of the frame, has no correlation
    entry, and is one of: an RSI divergence (BEARISH or BULLISH), a MACD
    divergence (BEARISH, severity HIGH), a volume warning (WARNING,
    severity MEDIUM). *)
Theorem uncorrelated_events_come_from_rows (df : list Row) (d : Divergence) :
  In d (analyze df None) ->
  impacted_trade d = None /\ trade_side d = None /\ trade_result d = None
  /\ (exists row, In row df
                  /\ div_timestamp d = row_time row
                  /\ price d = close (bar row))
  /\ ((indicator d = "RSI"%string
       /\ (div_type d = BEARISH \/ div_type d = BULLISH))
      \/ (indicator d = "MACD"%string
          /\ div_type d = BEARISH /\ severity d = HIGH)
      \/ (indicator d = "Volume"%string
          /\ div_type d = WARNING /\ severity d = MEDIUM)).
Proof.
  unfold analyze. cbv zeta. rewrite In_sort_by_time.
  apply detected_events_are_fresh.
Qed.

Lemma range_empty (a b : nat) : (b <= a)%nat -> range a b = [].
Proof.
  intro H. unfold range. replace (b - a)%nat with 0%nat by lia. reflexivity.
Qed.

(** X18.  A frame of at most ten rows yields no divergence: the RSI and
    MACD scans need five rows on either side of a bar and the volume scan
    ten rows before it. *)
Theorem short_frame_has_no_divergence
        (df : list Row) (trades_df : option (list Trade)) :
  (List.length df <= 10)%nat ->
  detect_all df = [] /\ analyze df trades_df = [].
Proof.
  intro Hlen.
  assert (Hnone : detect_all df = []).
  { unfold detect_all, detect_rsi_divergence, detect_macd_divergence,
      detect_volume_divergence.
    rewrite !range_empty by lia. reflexivity. }
  split; [exact Hnone|].
  unfold analyze. cbv zeta. rewrite Hnone.
  destruct trades_df; reflexivity.
Qed.


(** ** Divergence analyzer: a constant frame *)

Lemma fold_pick_const (pick : Q -> Q -> bool) (c : Q) (rest : list Q) :
  Forall (fun x => x == c) rest ->
  forall x, x == c ->
            fold_left (fun m y => if pick m y then y else m) rest x == c.
Proof.
  induction 1 as [|y rest Hy _ IH]; intros x Hx; cbn [fold_left];
    [exact Hx|].
  apply IH. destruct (pick x y); assumption.
Qed.

Lemma Qmax_list_const (c : Q) (l : list Q) :
  l <> [] -> Forall (fun x => x == c) l -> Qmax_list l == c.
Proof.
  destruct l as [|x rest]; [congruence|]. intros _ H.
  inversion H as [|? ? Hx Hrest]; subst. unfold Qmax_list.
  now apply (fold_pick_const (fun m y => Qlt_bool m y)).
Qed.

Lemma Qmin_list_const (c : Q) (l : list Q) :
  l <> [] -> Forall (fun x => x == c) l -> Qmin_list l == c.
Proof.
  destruct l as [|x rest]; [congruence|]. intros _ H.
  inversion H as [|? ? Hx Hrest]; subst. unfold Qmin_list.
  now apply (fold_pick_const (fun m y => Qlt_bool y m)).
Qed.

Lemma slice_nonempty {A : Type} (a b : nat) (l : list A) :
  (a < b)%nat -> (a < List.length l)%nat -> slice a b l <> [].
Proof.
  intros Hab Hal H. apply (f_equal (@List.length A)) in H.
  unfold slice in H. rewrite length_firstn, length_skipn in H.
  simpl in H. lia.
Qed.

Lemma Forall_slice {A : Type} (P : A -> Prop) (a b : nat) (l : list A) :
  Forall P l -> Forall P (slice a b l).
Proof. intro H. unfold slice. now apply Forall_firstn_of, Forall_skipn_of. Qed.

Lemma cellQ_const (c : Q) (l : list Q) (i : nat) :
  (i < List.length l)%nat -> Forall (fun x => x == c) l -> cellQ l i == c.
Proof.
  intros Hi H. unfold cellQ. rewrite Forall_forall in H.
  apply H. now apply nth_In.
Qed.

Lemma Qsum_const (c : Q) (l : list Q) :
  Forall (fun x => x == c) l -> Qsum l == Qlen l * c.
Proof.
  unfold Qsum, Qlen.
  assert (H : forall acc,
             Forall (fun x => x == c) l ->
             fold_left (fun a x => Qred (a + x)) l acc
             == acc + inject_Z (Z.of_nat (List.length l)) * c).
  { induction l as [|x l IH]; intros acc Hl; cbn [fold_left List.length].
    - simpl. ring.
    - inversion Hl as [|? ? Hx Hrest]; subst.
      rewrite (IH _ Hrest), Qred_correct, Hx, Nat2Z.inj_succ.
      unfold Z.succ. rewrite inject_Z_plus. ring. }
  intro Hl. rewrite (H 0 Hl). ring.
Qed.

Lemma flat_map_nil {A B : Type} (f : A -> list B) (l : list A) :
  (forall a, In a l -> f a = []) -> flat_map f l = [].
Proof.
  induction l as [|a l IH]; intro H; simpl; [reflexivity|].
  rewrite (H a) by (left; reflexivity). apply IH.
  intros b Hb. apply H. now right.
Qed.

(** X19.  A frame whose highs, lows, MACD values and quote volumes are
    each constant, with a quote volume that is not negative, yields no
    divergence: no bar is a strict local extreme and no bar's volume is
    below 70% of the mean before it. *)
Theorem constant_frame_has_no_divergence
        (df : list Row) (trades_df : option (list Trade)) (h l m v : Q) :
  Forall (fun row => high (bar row) == h /\ low (bar row) == l
                     /\ macd row == m /\ volume_usdt row == v) df ->
  0 <= v ->
  detect_all df = [] /\ analyze df trades_df = [].
Proof.
  intros Hconst Hv.
  assert (Hh : Forall (fun x => x == h) (high_col df)).
  { unfold high_col. apply Forall_map.
    eapply Forall_impl; [|exact Hconst]. now intros r (H & _). }
  assert (Hl : Forall (fun x => x == l) (low_col df)).
  { unfold low_col. apply Forall_map.
    eapply Forall_impl; [|exact Hconst]. now intros r (_ & H & _). }
  assert (Hm : Forall (fun x => x == m) (map macd df)).
  { apply Forall_map.
    eapply Forall_impl; [|exact Hconst]. now intros r (_ & _ & H & _). }
  assert (Hvol : Forall (fun x => x == v) (map volume_usdt df)).
  { apply Forall_map.
    eapply Forall_impl; [|exact Hconst]. now intros r (_ & _ & _ & H). }
  assert (Hnone : detect_all df = []).
  { unfold detect_all, detect_rsi_divergence, detect_macd_divergence,
      detect_volume_divergence.
    rewrite !flat_map_nil; [reflexivity| | |].
    - intros i Hi. apply in_range in Hi. unfold volume_fade.
      destruct (Qlt_bool (cellQ (map ema21 df) i) (cellQ (map ema7 df) i));
        [|reflexivity].
      set (recent := slice (i - 10) i (map volume_usdt df)).
      assert (Hrec : Forall (fun x => x == v) recent)
        by (now apply Forall_slice).
      assert (Hne : recent <> []).
      { apply slice_nonempty; [lia|]. rewrite length_map. lia. }
      assert (Hlen : 0 < Qlen recent).
      { unfold Qlen. change 0 with (inject_Z 0). rewrite <- Zlt_Qlt.
        destruct recent; [congruence|]. simpl List.length. lia. }
      assert (Hmean : Qsum recent / Qlen recent == v).
      { rewrite (Qsum_const v recent Hrec). field. lra. }
      assert (Hcur : cellQ (map volume_usdt df) i == v).
      { apply cellQ_const; [rewrite length_map; lia|exact Hvol]. }
      rewrite (proj2 (Qlt_bool_false_iff _ _)); [reflexivity|].
      rewrite Hmean, Hcur. lra.
    - intros i Hi. apply in_range in Hi. unfold macd_top.
      rewrite (Qlt_bool_irrefl
                 (Qmax_list (slice (i - 5) i (map macd df)))
                 (cellQ (map macd df) i)); [reflexivity|].
      rewrite (Qmax_list_const m), (cellQ_const m);
        try reflexivity; try assumption;
        try (rewrite length_map; lia);
        try (now apply Forall_slice).
      apply slice_nonempty; [lia|rewrite length_map; lia].
    - intros i Hi. apply in_range in Hi.
      unfold rsi_top, rsi_bottom.
      rewrite (Qlt_bool_irrefl
                 (Qmax_list (slice (i - 5) i (high_col df)))
                 (cellQ (high_col df) i)).
      + rewrite (Qlt_bool_irrefl
                   (cellQ (low_col df) i)
                   (Qmin_list (slice (i - 5) i (low_col df))));
          [reflexivity|].
        rewrite (Qmin_list_const l), (cellQ_const l);
          try reflexivity; try assumption;
          try (unfold low_col; rewrite length_map; lia);
          try (now apply Forall_slice).
        apply slice_nonempty; [lia|unfold low_col; rewrite length_map; lia].
      + rewrite (Qmax_list_const h), (cellQ_const h);
          try reflexivity; try assumption;
          try (unfold high_col; rewrite length_map; lia);
          try (now apply Forall_slice).
        apply slice_nonempty; [lia|unfold high_col; rewrite length_map; lia]. }
  split; [exact Hnone|].
  unfold analyze. cbv zeta. rewrite Hnone.
  destruct trades_df; reflexivity.
Qed.


(** ** Error rates *)

Lemma tally_of_tally_one (name : string) (d : Divergence)
      (stats : list (string * Tally)) :
  tally_of name (tally_one d stats)
  = if String.eqb name (indicator d)
    then (fst (tally_of name stats) + 1,
          snd (tally_of name stats)
          + (if impacted_loss d then 1 else 0))%nat
    else tally_of name stats.
Proof.
  unfold tally_of.
  induction stats as [|[key s] rest IH]; cbn [tally_one lookup].
  - rewrite (String.eqb_sym (indicator d) name).
    destruct (String.eqb name (indicator d)); reflexivity.
  - destruct (String.eqb_spec key (indicator d)) as [Hk|Hk];
      cbn [lookup].
    + destruct (String.eqb_spec key name) as [Hn|Hn].
      * subst. rewrite String.eqb_refl. reflexivity.
      * destruct (String.eqb_spec name (indicator d)); [congruence|].
        reflexivity.
    + destruct (String.eqb_spec key name) as [Hn|Hn].
      * destruct (String.eqb_spec name (indicator d)); [congruence|].
        reflexivity.
      * exact IH.
Qed.

Lemma tally_of_tally (name : string) (divs : list Divergence) :
  forall stats,
    tally_of name (fold_left (fun acc d => tally_one d acc) divs stats)
    = (fst (tally_of name stats) + events_of name divs,
       snd (tally_of name stats) + losses_of name divs)%nat.
Proof.
  unfold events_of, losses_of.
  induction divs as [|d divs IH]; intro stats; cbn [fold_left filter].
  - simpl. rewrite !Nat.add_0_r. now destruct (tally_of name stats).
  - rewrite IH, tally_of_tally_one.
    destruct (String.eqb name (indicator d)); cbn [andb fst snd].
    + destruct (impacted_loss d); cbn [List.length fst snd];
        f_equal; lia.
    + reflexivity.
Qed.

Lemma tally_one_positive (d : Divergence) (stats : list (string * Tally)) :
  Forall (fun entry => (0 < count (snd entry))%nat) stats ->
  Forall (fun entry => (0 < count (snd entry))%nat) (tally_one d stats).
Proof.
  induction 1 as [|[key s] rest Hs Hrest IH]; cbn [tally_one].
  - repeat constructor.
  - destruct (String.eqb key (indicator d)).
    + constructor; [simpl; lia|assumption].
    + constructor; assumption.
Qed.

Lemma tally_one_keys (d : Divergence) (stats : list (string * Tally))
      (key : string) :
  In key (map fst (tally_one d stats))
  <-> key = indicator d \/ In key (map fst stats).
Proof.
  induction stats as [|[k s] rest IH]; cbn [tally_one map fst In].
  - intuition.
  - destruct (String.eqb_spec k (indicator d)) as [Hk|Hk];
      cbn [map fst In].
    + subst. intuition.
    + rewrite IH. intuition.
Qed.

Lemma tally_one_nodup (d : Divergence) (stats : list (string * Tally)) :
  NoDup (map fst stats) -> NoDup (map fst (tally_one d stats)).
Proof.
  induction stats as [|[k s] rest IH]; intro H.
  - simpl. repeat constructor. intros [].
  - simpl in H. inversion H as [|? ? Hk Hrest]; subst. cbn [tally_one].
    destruct (String.eqb_spec k (indicator d)) as [Heq|Hne]; simpl.
    + constructor; assumption.
    + constructor; [|now apply IH].
      rewrite tally_one_keys. intros [Hkd|Hin]; [congruence|contradiction].
Qed.

Lemma tally_invariants (divs : list Divergence) :
  forall stats,
    Forall (fun entry => (0 < count (snd entry))%nat) stats ->
    NoDup (map fst stats) ->
    Forall (fun entry => (0 < count (snd entry))%nat)
           (fold_left (fun acc d => tally_one d acc) divs stats)
    /\ NoDup (map fst (fold_left (fun acc d => tally_one d acc) divs stats)).
Proof.
  induction divs as [|d divs IH]; intros stats Hpos Hnodup; cbn [fold_left].
  - auto.
  - apply IH; [now apply tally_one_positive|now apply tally_one_nodup].
Qed.

Lemma lookup_some_in {V : Type} (name : string) (v : V)
      (stats : list (string * V)) :
  lookup name stats = Some v -> In (name, v) stats.
Proof.
  induction stats as [|[key w] rest IH]; cbn [lookup]; [discriminate|].
  destruct (String.eqb_spec key name) as [->|_].
  - intro H. injection H as ->. now left.
  - intro H. right. now apply IH.
Qed.

Lemma lookup_map {V W : Type} (f : V -> W) (name : string)
      (stats : list (string * V)) :
  lookup name (map (fun '(key, v) => (key, f v)) stats)
  = option_map f (lookup name stats).
Proof.
  induction stats as [|[key v] rest IH]; cbn [map lookup]; [reflexivity|].
  destruct (String.eqb key name); [reflexivity|exact IH].
Qed.

(** X20.  [calculate_error_rates], given trades and at least one
    divergence, holds one entry per indicator that occurs: its count is the
    number of divergences of that indicator, its impacted losses the number
    of those marked as hitting a losing trade, and its error rate is
    impacted losses over count times 100, between 0 and 100.  An indicator
    that does not occur has no entry. *)
Theorem error_rates_count_per_indicator
        (divs : list Divergence) (ts : list Trade) (name : string) :
  divs <> [] ->
  NoDup (map fst (calculate_error_rates divs (Some ts)))
  /\ (events_of name divs = 0%nat ->
      lookup name (calculate_error_rates divs (Some ts)) = None)
  /\ ((0 < events_of name divs)%nat ->
      exists st,
        lookup name (calculate_error_rates divs (Some ts)) = Some st
        /\ stats_count st = events_of name divs
        /\ stats_impacted_losses st = losses_of name divs
        /\ (stats_impacted_losses st <= stats_count st)%nat
        /\ error_rate st
           == nat_Q (losses_of name divs) / nat_Q (events_of name divs) * 100
        /\ 0 <= error_rate st /\ error_rate st <= 100).
Proof.
  intro Hne.
  assert (Hshape : calculate_error_rates divs (Some ts)
                   = map (fun '(key, s) => (key, finish s)) (tally divs)).
  { unfold calculate_error_rates. destruct divs; [congruence|reflexivity]. }
  rewrite Hshape. clear Hshape.
  destruct (tally_invariants divs [] (Forall_nil _) (NoDup_nil _))
    as [Hpos Hnodup].
  fold (tally divs) in Hpos, Hnodup.
  pose proof (tally_of_tally name divs []) as Htally.
  fold (tally divs) in Htally. unfold tally_of in Htally at 1.
  cbn [tally_of lookup fst snd Nat.add] in Htally.
  assert (Hle : (losses_of name divs <= events_of name divs)%nat).
  { unfold losses_of, events_of.
    induction divs as [|d l IH]; cbn [filter]; [lia|].
    assert (IH' : (List.length
                     (filter (fun d0 => String.eqb name (indicator d0)
                                        && impacted_loss d0) l)
                   <= List.length
                        (filter (fun d0 => String.eqb name (indicator d0)) l))
                  %nat).
    { clear. induction l as [|e l IH]; cbn [filter]; [lia|].
      destruct (String.eqb name (indicator e)), (impacted_loss e);
        cbn [andb List.length]; lia. }
    destruct (String.eqb name (indicator d)), (impacted_loss d);
      cbn [andb List.length]; lia. }
  split; [|split].
  - rewrite map_map.
    erewrite map_ext; [exact Hnodup|]. now intros [key s].
  - intro Hzero. rewrite lookup_map.
    destruct (lookup name (tally divs)) as [s|] eqn:E; [|reflexivity].
    exfalso. injection Htally as Hc _.
    apply lookup_some_in in E. rewrite Forall_forall in Hpos.
    specialize (Hpos _ E). simpl in Hpos. lia.
  - intro Hsome. rewrite lookup_map.
    destruct (lookup name (tally divs)) as [s|] eqn:E;
      [|injection Htally as Hc _; lia].
    injection Htally as Hc Hl.
    exists (finish s). split; [reflexivity|].
    unfold finish. cbn [stats_count stats_impacted_losses error_rate].
    rewrite Hc, Hl. split; [reflexivity|]. split; [reflexivity|].
    split; [exact Hle|].
    unfold rate_of. rewrite Hc, Hl.
    destruct (Nat.ltb_spec 0 (events_of name divs)); [|lia].
    split; [reflexivity|].
    now apply percentage_bounds.
Qed.


Lemma rate_above (k : Z) (l c : nat) :
  (0 < c)%nat ->
  Qlt_bool (inject_Z k) (nat_Q l / nat_Q c * 100) = true
  <-> (k * Z.of_nat c < 100 * Z.of_nat l)%Z.
Proof.
  intro Hc. rewrite Qlt_bool_iff.
  pose proof (nat_Q_pos c Hc) as Hpos.
  assert (Hrate : nat_Q l / nat_Q c * 100 == (100 * nat_Q l) / nat_Q c)
    by (field; lra).
  rewrite Hrate. unfold nat_Q in *.
  split; intro H.
  - apply (Qmult_lt_r _ _ _ Hpos) in H.
    assert (Hsimp : 100 * inject_Z (Z.of_nat l) / inject_Z (Z.of_nat c)
                    * inject_Z (Z.of_nat c)
                    == 100 * inject_Z (Z.of_nat l)) by (field; lra).
    rewrite Hsimp in H.
    change 100 with (inject_Z 100) in H.
    rewrite <- !inject_Z_mult in H. rewrite Zlt_Qlt. exact H.
  - apply Qlt_shift_div_l; [exact Hpos|].
    change 100 with (inject_Z 100).
    rewrite <- !inject_Z_mult. rewrite <- Zlt_Qlt. exact H.
Qed.

(** X21.  The impact level of an entry follows the share of the
    indicator's divergences that hit a losing trade: HIGH when it is above
    60% (more than 3 in 5), MEDIUM when above 40% and at most 60%, LOW
    when at most 40%. *)
Theorem impact_level_follows_loss_share
        (divs : list Divergence) (ts : list Trade) (name : string)
        (st : IndicatorStats) :
  lookup name (calculate_error_rates divs (Some ts)) = Some st ->
  (impact_level st = Impact.HIGH
   <-> (3 * stats_count st < 5 * stats_impacted_losses st)%nat)
  /\ (impact_level st = Impact.MEDIUM
      <-> (2 * stats_count st < 5 * stats_impacted_losses st
           /\ 5 * stats_impacted_losses st <= 3 * stats_count st)%nat)
  /\ (impact_level st = Impact.LOW
      <-> (5 * stats_impacted_losses st <= 2 * stats_count st)%nat).
Proof.
  intro Hst.
  assert (Hne : divs <> []) by (intro E; rewrite E in Hst; discriminate).
  assert (Hshape : calculate_error_rates divs (Some ts)
                   = map (fun '(key, s) => (key, finish s)) (tally divs)).
  { unfold calculate_error_rates. destruct divs; [congruence|reflexivity]. }
  rewrite Hshape, lookup_map in Hst.
  destruct (lookup name (tally divs)) as [s|] eqn:E; [|discriminate].
  injection Hst as <-.
  destruct (tally_invariants divs [] (Forall_nil _) (NoDup_nil _))
    as [Hpos _].
  fold (tally divs) in Hpos.
  apply lookup_some_in in E. rewrite Forall_forall in Hpos.
  specialize (Hpos _ E). cbn [snd] in Hpos.
  unfold finish. cbn [impact_level stats_count stats_impacted_losses].
  unfold level_of, rate_of.
  destruct (Nat.ltb_spec 0 (count s)); [|lia].
  pose proof (rate_above 60 (impacted_losses s) (count s) Hpos) as H60.
  pose proof (rate_above 40 (impacted_losses s) (count s) Hpos) as H40.
  change (inject_Z 60) with 60 in H60. change (inject_Z 40) with 40 in H40.
  destruct (Qlt_bool 60 (nat_Q (impacted_losses s) / nat_Q (count s) * 100))
    eqn:E60.
  - assert (K : (60 * Z.of_nat (count s) < 100 * Z.of_nat (impacted_losses s))%Z)
      by (now apply H60).
    repeat split; intros; try discriminate; try lia.
  - assert (K : ~ (60 * Z.of_nat (count s)
                   < 100 * Z.of_nat (impacted_losses s))%Z)
      by (intro K; apply H60 in K; discriminate).
    destruct (Qlt_bool 40 (nat_Q (impacted_losses s) / nat_Q (count s) * 100))
      eqn:E40.
    + assert (K2 : (40 * Z.of_nat (count s)
                    < 100 * Z.of_nat (impacted_losses s))%Z)
        by (now apply H40).
      repeat split; intros; try discriminate; try lia.
    + assert (K2 : ~ (40 * Z.of_nat (count s)
                      < 100 * Z.of_nat (impacted_losses s))%Z)
        by (intro K2; apply H40 in K2; discriminate).
      repeat split; intros; try discriminate; try lia.
Qed.

Lemma total_tally_one (d : Divergence) (stats : list (string * Tally)) :
  fold_right (fun entry acc => (count (snd entry) + acc)%nat) 0%nat
             (tally_one d stats)
  = S (fold_right (fun entry acc => (count (snd entry) + acc)%nat) 0%nat
                  stats).
Proof.
  induction stats as [|[key s] rest IH]; cbn [tally_one fold_right];
    [reflexivity|].
  destruct (String.eqb key (indicator d)); cbn [fold_right snd count].
  - lia.
  - rewrite IH. lia.
Qed.

(** X22.  The counts of the entries of [calculate_error_rates] add up to
    the number of divergences given; without trades the result is empty. *)
Theorem error_rate_counts_add_up (divs : list Divergence) (ts : list Trade) :
  total_count (calculate_error_rates divs (Some ts)) = List.length divs
  /\ calculate_error_rates divs None = [].
Proof.
  split; [|destruct divs; reflexivity].
  destruct divs as [|d0 rest]; [reflexivity|].
  unfold calculate_error_rates.
  set (divs := d0 :: rest).
  assert (Hmap : forall l,
             total_count (map (fun '(key, s) => (key, finish s)) l)
             = fold_right (fun entry acc => (count (snd entry) + acc)%nat)
                          0%nat l).
  { unfold total_count.
    induction l as [|[key s] l IH]; cbn [map fold_right]; [reflexivity|].
    rewrite IH. reflexivity. }
  rewrite Hmap. unfold tally.
  assert (H : forall l stats,
             fold_right (fun entry acc => (count (snd entry) + acc)%nat)
                        0%nat
                        (fold_left (fun acc d => tally_one d acc) l stats)
             = (fold_right (fun entry acc => (count (snd entry) + acc)%nat)
                           0%nat stats
                + List.length l)%nat).
  { induction l as [|d l IH]; intro stats; cbn [fold_left List.length];
      [lia|].
    rewrite IH, total_tally_one. lia. }
  rewrite H. reflexivity.
Qed.


(** ** Where trades come from *)

Lemma passes_filters_same_config (a b : ForwardTester) (row : Row) :
  same_config a b -> passes_filters a row = passes_filters b row.
Proof.
  intros (_ & _ & _ & _ & Hv & Hh).
  unfold passes_filters, is_trading_hour. now rewrite Hv, Hh.
Qed.

Lemma body_step_signals (st : State) (row : Row) :
  body st row = st
  \/ (position st = None
      /\ exists p, body st row = set_position st (Some p)
                   /\ opened_at (tester st) row p)
  \/ (exists p trade,
        position st = Some p
        /\ closed_at (tester st) row p trade
        /\ body st row
           = {| tester := record_trade (tester st) trade
                            (row_time row, capital st + pnl_usdt trade);
                position := None;
                capital := capital st + pnl_usdt trade |}).
Proof.
  destruct (passes_filters (tester st) row) eqn:Hpass.
  - rewrite (body_accepted st row Hpass).
    destruct (position st) as [p|] eqn:Hp.
    + destruct (exit_decision (tester st) p (close (bar row)))
        as [[exit_price why]|] eqn:Hexit; [|left; reflexivity].
      right. right. exists p. eexists. split; [reflexivity|].
      split; [|reflexivity].
      split; [exact Hpass|]. exists exit_price, why. auto.
    + destruct (long_signal row) eqn:Hl.
      * right. left. split; [reflexivity|]. eexists.
        split; [reflexivity|]. unfold opened_at. simpl. auto 10.
      * destruct (short_signal row) eqn:Hs; [|left; reflexivity].
        right. left. split; [reflexivity|]. eexists.
        split; [reflexivity|]. unfold opened_at. simpl. auto 10.
  - left. now apply body_rejected.
Qed.

Lemma opened_at_same_config (a b : ForwardTester) (row : Row)
      (p : Position) :
  same_config a b -> opened_at a row p -> opened_at b row p.
Proof.
  intros Hcfg (Hpass & Htime & Hside).
  pose proof Hcfg as (_ & Hf & _).
  unfold opened_at.
  rewrite <- (passes_filters_same_config a b row Hcfg), <- Hf. auto.
Qed.

Lemma closed_at_same_config (a b : ForwardTester) (row : Row)
      (p : Position) (trade : Trade) :
  same_config a b -> closed_at a row p trade -> closed_at b row p trade.
Proof.
  intros Hcfg (Hpass & x & why & Hexit & ->).
  unfold closed_at.
  rewrite <- (passes_filters_same_config a b row Hcfg).
  split; [exact Hpass|]. exists x, why.
  rewrite <- (exit_decision_same_config a b p _ Hcfg).
  split; [exact Hexit|]. now apply close_trade_same_config.
Qed.

(** Every trade of the loop closes a position that was opened on an
    earlier-visited row of the loop. *)
Lemma loop_trade_origins (t0 : ForwardTester) (rows : list Row) (st : State) :
  same_config (tester st) t0 ->
  position st = None ->
  exists new,
    trades (tester (fold_left body rows st)) = trades (tester st) ++ new
    /\ Forall (fun trade =>
                 exists r_in r_out p,
                   In r_in rows /\ In r_out rows
                   /\ opened_at t0 r_in p
                   /\ closed_at t0 r_out p trade) new.
Proof.
  intros Hcfg Hflat.
  pose (Inv := fun (todo : list Row) (s : State) =>
    incl todo rows
    /\ same_config (tester s) t0
    /\ (forall p, position s = Some p ->
                  exists r_in, In r_in rows /\ opened_at t0 r_in p)
    /\ exists new,
         trades (tester s) = trades (tester st) ++ new
         /\ Forall (fun trade =>
                      exists r_in r_out p,
                        In r_in rows /\ In r_out rows
                        /\ opened_at t0 r_in p
                        /\ closed_at t0 r_out p trade) new).
  assert (Hend : Inv [] (fold_left body rows st)).
  { apply (loop_invariant Inv) with (rows := rows).
    - intros s row rest (Hincl & Hc & Hopen & new & Ht & Hnew).
      assert (Hrow : In row rows) by (apply Hincl; left; reflexivity).
      assert (Hrest : incl rest rows)
        by (intros x Hx; apply Hincl; right; exact Hx).
      assert (Hc' : same_config (tester (body s row)) t0).
      { destruct (body_keeps_config s row) as (K1 & K2 & K3 & K4 & K5 & K6).
        destruct Hc as (C1 & C2 & C3 & C4 & C5 & C6).
        unfold same_config. rewrite K1, K2, K3, K4, K5, K6. auto 10. }
      split; [exact Hrest|]. split; [exact Hc'|].
      destruct (body_step_signals s row)
        as [Hsame | [(Hnone & p & Hbody & Hin)
                    | (p & trade & Hp & Hout & Hbody)]].
      + rewrite Hsame. split; [exact Hopen|]. exists new. auto.
      + rewrite Hbody. simpl. split.
        * intros q Hq. injection Hq as <-. exists row.
          split; [exact Hrow|]. now apply (opened_at_same_config (tester s)).
        * exists new. auto.
      + rewrite Hbody. simpl. split; [discriminate|].
        exists (new ++ [trade]). rewrite Ht, <- app_assoc.
        split; [reflexivity|]. apply Forall_app. split; [exact Hnew|].
        repeat constructor.
        destruct (Hopen p Hp) as (r_in & Hr_in & Hopened).
        exists r_in, row, p.
        split; [exact Hr_in|]. split; [exact Hrow|].
        split; [exact Hopened|].
        now apply (closed_at_same_config (tester s)).
    - unfold Inv. split; [apply incl_refl|]. split; [exact Hcfg|].
      split; [intros p Hp; congruence|].
      exists []. rewrite app_nil_r. auto. }
  destruct Hend as (_ & _ & _ & new & Ht & Hnew). eauto.
Qed.

Lemma run_trade_origins (t : ForwardTester) (df : list Bar)
      (days : option Z) :
  exists new,
    trades (snd (run sqrt t df days)) = trades t ++ new
    /\ Forall (fun trade =>
                 exists r_in r_out p,
                   In r_in (skipn 30 (calculate_indicators sqrt
                                        (select_bars days df)))
                   /\ In r_out (skipn 30 (calculate_indicators sqrt
                                            (select_bars days df)))
                   /\ opened_at t r_in p
                   /\ closed_at t r_out p trade) new.
Proof.
  pose proof (run_unfold sqrt t df days) as Hrun.
  destruct (select_bars days df) as [|first rest] eqn:Hbars.
  - rewrite Hrun. exists []. simpl. now rewrite app_nil_r.
  - cbv zeta in Hrun. rewrite Hrun. simpl snd. unfold run_loop.
    set (st0 := {| tester := _; position := None; capital := _ |}).
    destruct (loop_trade_origins t
                (skipn 30 (calculate_indicators sqrt (first :: rest))) st0)
      as (new & Ht & Hnew).
    + unfold same_config. simpl. auto 10.
    + reflexivity.
    + exists new. auto.
Qed.


Lemma row_times_of_loop (bars : list Bar) (row : Row) :
  In row (skipn 30 (calculate_indicators sqrt bars)) ->
  In (row_time row) (map timestamp (skipn 30 bars)).
Proof.
  intro H. apply (in_map row_time) in H.
  rewrite <- skipn_map in H. unfold row_time in H.
  rewrite <- (map_map bar timestamp), bars_of_calculate_indicators in H.
  now rewrite <- skipn_map.
Qed.

(** X23.  Every trade of a run is entered on one bar and left on another,
    both from position 30 on in the series the run works on (none within
    the 30-bar warm-up), and both inside the tester's trading hours. *)
Theorem trades_happen_on_accepted_bars
        (t : ForwardTester) (df : list Bar) (days : option Z) :
  exists new,
    trades (snd (run sqrt t df days)) = trades t ++ new
    /\ Forall (fun trade =>
                 is_trading_hour t (entry_time trade) = true
                 /\ is_trading_hour t (exit_time trade) = true
                 /\ In (entry_time trade)
                       (map timestamp (skipn 30 (select_bars days df)))
                 /\ In (exit_time trade)
                       (map timestamp (skipn 30 (select_bars days df))))
              new.
Proof.
  destruct (run_trade_origins t df days) as (new & Ht & Hnew).
  exists new. split; [exact Ht|].
  eapply Forall_impl; [|exact Hnew].
  intros trade (r_in & r_out & p & Hin & Hout & Hopened & Hclosed).
  destruct Hopened as (Hpass_in & Htime & _).
  destruct Hclosed as (Hpass_out & x & why & _ & ->).
  cbn [entry_time exit_time close_trade]. rewrite Htime.
  unfold passes_filters in Hpass_in, Hpass_out.
  apply andb_true_iff in Hpass_in as [Hpass_in _].
  apply andb_true_iff in Hpass_in as [Hhour_in _].
  apply andb_true_iff in Hpass_out as [Hpass_out _].
  apply andb_true_iff in Hpass_out as [Hhour_out _].
  split; [exact Hhour_in|]. split; [exact Hhour_out|].
  split; now apply row_times_of_loop.
Qed.

(** X24.  Every trade of a run was entered on a bar that gave the signal
    of its side and passed the volume and Bollinger filters: for LONG a
    bullish MACD cross with the close above EMA6 and EMA7 above EMA21, at
    the close plus the fee; for SHORT the mirror image, at the close less
    the fee. *)
Theorem entries_follow_signals
        (t : ForwardTester) (df : list Bar) (days : option Z) :
  exists new,
    trades (snd (run sqrt t df days)) = trades t ++ new
    /\ Forall (fun trade =>
                 exists row,
                   In row (calculate_indicators sqrt (select_bars days df))
                   /\ entry_time trade = row_time row
                   /\ bb_expanding row = true
                   /\ volume_min t <= volume_usdt row
                   /\ match side trade with
                      | LONG =>
                          macd_bullish row = true
                          /\ ema6 row < close (bar row)
                          /\ ema21 row < ema7 row
                          /\ entry trade = close (bar row) * (1 + fees t)
                      | SHORT =>
                          macd_bearish row = true
                          /\ close (bar row) < ema6 row
                          /\ ema7 row < ema21 row
                          /\ entry trade = close (bar row) * (1 - fees t)
                      end) new.
Proof.
  destruct (run_trade_origins t df days) as (new & Ht & Hnew).
  exists new. split; [exact Ht|].
  eapply Forall_impl; [|exact Hnew].
  intros trade (r_in & r_out & p & Hin & _ & Hopened & Hclosed).
  destruct Hopened as (Hpass & Htime & Hside).
  destruct Hclosed as (_ & x & why & _ & ->).
  cbn [entry_time side entry close_trade].
  exists r_in.
  split; [|split; [exact Htime|]].
  { rewrite <- (firstn_skipn 30 (calculate_indicators sqrt
                                   (select_bars days df))).
    apply in_or_app. now right. }
  unfold passes_filters in Hpass.
  apply andb_true_iff in Hpass as [Hpass Hbb].
  apply andb_true_iff in Hpass as [_ Hvol].
  apply negb_true_iff, Qlt_bool_false_iff in Hvol.
  split; [exact Hbb|]. split; [exact Hvol|].
  destruct Hside as [(-> & Hsig & ->) | (-> & _ & Hsig & ->)].
  - unfold long_signal in Hsig.
    apply andb_true_iff in Hsig as [Hsig H3].
    apply andb_true_iff in Hsig as [H1 H2].
    apply Qlt_bool_iff in H2, H3. auto.
  - unfold short_signal in Hsig.
    apply andb_true_iff in Hsig as [Hsig H3].
    apply andb_true_iff in Hsig as [H1 H2].
    apply Qlt_bool_iff in H2, H3. auto.
Qed.

Lemma pnl_pct_of_close_trade (t : ForwardTester) (p : Position)
      (ts : Timestamp) (x : Q) (why : Reason) :
  ~ position_size t == 0 -> ~ entry_price p == 0 ->
  exists q,
    pnl_pct (close_trade t p ts x why) = Fin q
    /\ q == match pos_side p with
            | LONG => (x - entry_price p) / entry_price p * 100
            | SHORT => (entry_price p - x) / entry_price p * 100
            end.
Proof.
  intros Hps He. unfold close_trade. cbn [pnl_pct].
  assert (Hden : ~ entry_price p * position_size t == 0).
  { intro H. apply Qmult_integral in H. tauto. }
  unfold fdiv.
  destruct (Qeq_bool (entry_price p * position_size t) 0) eqn:E;
    [apply Qeq_bool_iff in E; contradiction|].
  unfold fmul. eexists. split; [reflexivity|].
  rewrite !Qred_correct.
  destruct (pos_side p); field; auto.
Qed.

(** X25.  With a position size other than 0, the percent PnL of every
    trade of a run with a nonzero entry price is the relative move from
    entry to exit price times 100 (exit minus entry for LONG, entry minus
    exit for SHORT): it does not depend on the position size. *)
Theorem pnl_pct_is_relative_price_move
        (t : ForwardTester) (df : list Bar) (days : option Z) :
  ~ position_size t == 0 ->
  exists new,
    trades (snd (run sqrt t df days)) = trades t ++ new
    /\ Forall (fun trade =>
                 ~ entry trade == 0 ->
                 exists q,
                   pnl_pct trade = Fin q
                   /\ q == match side trade with
                           | LONG => (exit trade - entry trade)
                                     / entry trade * 100
                           | SHORT => (entry trade - exit trade)
                                      / entry trade * 100
                           end) new.
Proof.
  intro Hps.
  destruct (run_trade_origins t df days) as (new & Ht & Hnew).
  exists new. split; [exact Ht|].
  eapply Forall_impl; [|exact Hnew].
  intros trade (r_in & r_out & p & _ & _ & _ & Hclosed) He.
  destruct Hclosed as (_ & x & why & _ & ->).
  cbn [entry exit side close_trade] in *.
  exact (pnl_pct_of_close_trade t p (row_time r_out) x why Hps He).
Qed.


(** ** Market data and trading hours *)

Lemma clip_bounds (lower upper : Q) (x : float64) :
  lower <= upper -> isna x = false ->
  exists v, clip lower upper x = Fin v /\ lower <= v /\ v <= upper.
Proof.
  intros Hlu Hx. unfold clip.
  destruct x as [q| | |]; try discriminate; simpl.
  - destruct (Qlt_bool q lower) eqn:E1.
    + exists lower. split; [reflexivity|]. split; [apply Qle_refl|exact Hlu].
    + destruct (Qlt_bool upper q) eqn:E2.
      * exists upper. split; [reflexivity|].
        split; [exact Hlu|apply Qle_refl].
      * apply Qlt_bool_false_iff in E1, E2. exists q. auto.
  - exists upper. split; [reflexivity|]. split; [exact Hlu|apply Qle_refl].
  - exists lower. split; [reflexivity|]. split; [apply Qle_refl|exact Hlu].
Qed.

(** X26.  The volume that [get_ohlc_days] estimates for a bar,
    [(high - low) / close * 100000] clipped to [1000, 500000], is a number
    within these bounds unless both [close] and [high - low] are 0 (then it
    is NaN); so for a close of at least 75 the estimated quote volume,
    volume times close, is at least the default minimum of 75000. *)
Theorem estimated_volume_is_clamped (high low close : Q) :
  ~ (close == 0 /\ high == low) ->
  exists v,
    estimated_volume high low close = Fin v
    /\ 1000 <= v /\ v <= 500000
    /\ (75 <= close -> volume_min default_tester <= v * close).
Proof.
  intro Hdef.
  assert (Hnum : isna (fmul (fdiv (fsub (Fin high) (Fin low)) (Fin close))
                            (Fin 100000)) = false).
  { unfold fsub, fneg, fadd, fdiv.
    destruct (Qeq_bool close 0) eqn:Ec.
    - destruct (Qeq_bool (Qred (high + - low)) 0) eqn:En.
      + exfalso. apply Hdef. apply Qeq_bool_iff in Ec, En.
        rewrite Qred_correct in En. split; [exact Ec|lra].
      + destruct (Qlt_bool (Qred (high + - low)) 0); reflexivity.
    - reflexivity. }
  destruct (clip_bounds 1000 500000 _ ltac:(lra) Hnum) as (v & Hv & H1 & H2).
  exists v. unfold estimated_volume. rewrite Hv.
  split; [reflexivity|]. split; [exact H1|]. split; [exact H2|].
  intro Hclose. change (volume_min default_tester) with 75000.
  assert (H : 0 <= (v - 1000) * close + 1000 * (close - 75)).
  { assert (0 <= (v - 1000) * close) by (apply Qmult_le_0_compat; lra).
    lra. }
  setoid_replace (v * close)
    with ((v - 1000) * close + 1000 * (close - 75) + 75000) by ring.
  lra.
Qed.

Lemma hour_of_next_day (ts k : Z) :
  hour (ts + k * ns_per_day)%Z = hour ts.
Proof.
  unfold hour, ns_per_day.
  replace (ts + k * (24 * ns_per_hour))%Z
    with (ts + (k * 24) * ns_per_hour)%Z by ring.
  rewrite Z.div_add by (unfold ns_per_hour; lia).
  rewrite Z.add_comm, Z.mul_comm.
  replace (24 * k + ts / ns_per_hour)%Z
    with (ts / ns_per_hour + k * 24)%Z by ring.
  apply Z.mod_add. lia.
Qed.

(** X27.  Whether an instant is in the trading hours depends on its hour
    of the day only, a number from 0 to 23: two instants with the same hour
    get the same answer, so the answer repeats every 24 hours, and a window
    [start, end) holds its start hour and not its end hour. *)
Theorem trading_hours_repeat_daily (t : ForwardTester) (ts : Timestamp) :
  (0 <= hour ts < 24)%Z
  /\ (forall k, is_trading_hour t (ts + k * ns_per_day)%Z
                = is_trading_hour t ts)
  /\ (forall other, hour other = hour ts ->
                    is_trading_hour t other = is_trading_hour t ts)
  /\ (is_trading_hour t ts = true <->
      exists start stop,
        In (start, stop) (trading_hours t)
        /\ (start <= hour ts < stop)%Z).
Proof.
  split; [unfold hour; apply Z.mod_pos_bound; lia|].
  split; [intro k; unfold is_trading_hour; now rewrite hour_of_next_day|].
  split; [intros other H; unfold is_trading_hour; now rewrite H|].
  unfold is_trading_hour. rewrite existsb_exists. split.
  - intros ([start stop] & Hin & Hwin).
    apply andb_true_iff in Hwin as [H1 H2].
    apply Z.leb_le in H1. apply Z.ltb_lt in H2.
    exists start, stop. auto.
  - intros (start & stop & Hin & H1 & H2).
    exists (start, stop). split; [exact Hin|].
    apply andb_true_iff. split; [now apply Z.leb_le|now apply Z.ltb_lt].
Qed.

End Coverage.

(** * The further properties on the sample inputs *)

Lemma winning_run_reports :
  exists r,
    fst (run Qsqrt_floor default_tester winning_series None)
    = Returned (ReportEntries r)
    /\ ~ initial_capital r == 0.
Proof.
  eexists. split; [vm_compute; reflexivity|].
  vm_compute. discriminate.
Qed.

Lemma sample_closes_nonneg :
  Forall (fun b => 0 <= close b) winning_series
  /\ Forall (fun b => 0 <= close b) losing_series.
Proof.
  assert (H : forall l,
             forallb (fun b => Qle_bool 0 (close b)) l = true ->
             Forall (fun b => 0 <= close b) l).
  { intros l Hl. apply Forall_forall. intros b Hb.
    rewrite forallb_forall in Hl. apply Qle_bool_iff. now apply Hl. }
  split; apply H; vm_compute; reflexivity.
Qed.

Lemma default_tester_is_sane : sane_config default_tester.
Proof. unfold sane_config. simpl. repeat split; unfold Qle; simpl; lia. Qed.

Lemma final_capital_witness :
  exists r,
    fst (run Qsqrt_floor default_tester winning_series None)
    = Returned (ReportEntries r)
    /\ exists new,
         trades_df r = trades default_tester ++ new
         /\ final_capital r = capital_after (initial_capital r) new.
Proof.
  destruct winning_run_reports as (r & Hr & _). exists r.
  split; [exact Hr|].
  destruct (final_capital_is_start_plus_pnl Qsqrt_floor default_tester
              winning_series None r Hr) as (new & H1 & H2 & _).
  exists new. auto.
Defined.

Lemma equity_restarts_witness :
  exists r,
    fst (run Qsqrt_floor default_tester winning_series None)
    = Returned (ReportEntries r)
    /\ exists new,
         trades_df r = trades default_tester ++ new
         /\ List.length (report_equity_curve r) = S (List.length new).
Proof.
  destruct winning_run_reports as (r & Hr & _). exists r.
  split; [exact Hr|].
  destruct (trades_accumulate_equity_restarts Qsqrt_floor default_tester
              winning_series None r Hr) as (new & H1 & _ & H3 & _).
  exists new. auto.
Defined.

Lemma trade_windows_witness :
  Sorted Z.lt (map timestamp winning_series)
  /\ exists new,
       trades (snd (run Qsqrt_floor default_tester winning_series None))
       = trades default_tester ++ new
       /\ Sorted Z.lt (map timestamp
                           (firstn 1 (select_bars None winning_series))
                       ++ trade_times new).
Proof.
  assert (H : Sorted Z.lt (map timestamp winning_series))
    by (vm_compute; repeat constructor).
  split; [exact H|].
  destruct (trade_windows_do_not_overlap Qsqrt_floor default_tester
              winning_series None H) as (new & H1 & H2 & _).
  exists new. auto.
Defined.

Lemma stop_loss_witness :
  sane_config default_tester
  /\ Forall (fun b => 0 <= close b) losing_series
  /\ exists new,
       trades (snd (run Qsqrt_floor default_tester losing_series None))
       = trades default_tester ++ new
       /\ Forall (fun trade =>
                    reason trade = STOP_LOSS ->
                    pnl_usdt trade <= 0 /\ is_win trade = false) new.
Proof.
  split; [exact default_tester_is_sane|].
  split; [exact (proj2 sample_closes_nonneg)|].
  exact (stop_loss_trades_never_win Qsqrt_floor default_tester losing_series
           None default_tester_is_sane (proj2 sample_closes_nonneg)).
Defined.


Lemma win_rate_witness :
  exists r,
    generate_report (tester_with [won_trade; lost_trade; flat_trade])
                    4000 100 = ReportEntries r
    /\ 0 <= win_rate r /\ win_rate r <= 100.
Proof.
  eexists. split; [reflexivity|].
  apply (win_rate_between_0_and_100
           (tester_with [won_trade; lost_trade; flat_trade]) 4000 100).
  reflexivity.
Defined.

Lemma max_drawdown_witness :
  exists r,
    fst (run Qsqrt_floor default_tester winning_series None)
    = Returned (ReportEntries r)
    /\ ~ initial_capital r == 0
    /\ fleb (max_drawdown_pct r) (Fin 0) = true.
Proof.
  destruct winning_run_reports as (r & Hr & Hstart). exists r.
  split; [exact Hr|].
  split; [exact Hstart|].
  exact (max_drawdown_never_positive Qsqrt_floor default_tester
           winning_series None r Hr Hstart).
Defined.


Lemma negative_day_count_witness :
  (-1 < 0)%Z
  /\ (100 < List.length long_series)%nat
  /\ run Qsqrt_floor default_tester long_series (Some (-1)%Z)
     = (Raised IndexError, default_tester).
Proof.
  assert (H1 : (-1 < 0)%Z) by lia.
  assert (H2 : (100 < List.length long_series)%nat)
    by (vm_compute; repeat constructor).
  split; [exact H1|]. split; [exact H2|].
  exact (proj2 (negative_day_count_raises Qsqrt_floor default_tester
                  long_series (-1)%Z H1 H2)).
Defined.

Lemma flat_series_is_constant :
  Forall (fun b => close b == 100) flat_series.
Proof.
  apply Forall_forall. intros b Hb. unfold flat_series in Hb.
  apply in_map_iff in Hb as (i & <- & _). reflexivity.
Qed.

Lemma constant_close_witness :
  Forall (fun b => close b == 100) flat_series
  /\ trades (snd (run Qsqrt_floor default_tester flat_series None))
     = trades default_tester.
Proof.
  split; [exact flat_series_is_constant|].
  exact (proj1 (constant_close_never_trades Qsqrt_floor default_tester
                  flat_series None 100 flat_series_is_constant)).
Defined.

Lemma first_match_witness :
  Forall (fun other => holds sample_divergence other = false)
         [won_trade; lost_trade]
  /\ holds sample_divergence flat_trade = true
  /\ trade_side (correlate sample_divergence
                   ([won_trade; lost_trade] ++ flat_trade :: [won_trade]))
     = Some SHORT.
Proof.
  assert (H1 : Forall (fun other => holds sample_divergence other = false)
                      [won_trade; lost_trade])
    by (repeat constructor).
  assert (H2 : holds sample_divergence flat_trade = true) by reflexivity.
  split; [exact H1|]. split; [exact H2|].
  destruct (correlation_takes_first_matching_trade sample_divergence
              [won_trade; lost_trade] [won_trade] flat_trade H1 H2)
    as (_ & _ & Hside & _).
  exact Hside.
Defined.

Lemma fading_rows_event :
  exists d, analyze fading_rows None = [d].
Proof. eexists. vm_compute. reflexivity. Qed.

Lemma uncorrelated_event_witness :
  exists d,
    In d (analyze fading_rows None)
    /\ impacted_trade d = None
    /\ exists row, In row fading_rows /\ div_timestamp d = row_time row.
Proof.
  destruct fading_rows_event as [d Hd]. exists d.
  assert (Hin : In d (analyze fading_rows None))
    by (rewrite Hd; left; reflexivity).
  split; [exact Hin|].
  destruct (uncorrelated_events_come_from_rows fading_rows d Hin)
    as (H1 & _ & _ & (row & Hrow & Hts & _) & _).
  split; [exact H1|]. exists row. auto.
Defined.

Lemma short_frame_witness :
  (List.length (firstn 10 fading_rows) <= 10)%nat
  /\ analyze (firstn 10 fading_rows) (Some [won_trade]) = [].
Proof.
  assert (H : (List.length (firstn 10 fading_rows) <= 10)%nat)
    by (vm_compute; repeat constructor).
  split; [exact H|].
  exact (proj2 (short_frame_has_no_divergence (firstn 10 fading_rows)
                  (Some [won_trade]) H)).
Defined.

Lemma constant_rows_are_constant :
  Forall (fun row => high (bar row) == 100 /\ low (bar row) == 100
                     /\ macd row == 0 /\ volume_usdt row == 100000)
         constant_rows.
Proof.
  apply Forall_forall. intros row Hrow. unfold constant_rows in Hrow.
  apply in_map_iff in Hrow as (i & <- & _). simpl.
  repeat split; reflexivity.
Qed.

Lemma constant_frame_witness :
  Forall (fun row => high (bar row) == 100 /\ low (bar row) == 100
                     /\ macd row == 0 /\ volume_usdt row == 100000)
         constant_rows
  /\ 0 <= 100000
  /\ analyze constant_rows None = [].
Proof.
  assert (Hv : 0 <= 100000) by (unfold Qle; simpl; lia).
  split; [exact constant_rows_are_constant|]. split; [exact Hv|].
  exact (proj2 (constant_frame_has_no_divergence constant_rows None
                  100 100 0 100000 constant_rows_are_constant Hv)).
Defined.

Lemma error_rates_witness :
  sample_events <> []
  /\ exists st,
       lookup "RSI" (calculate_error_rates sample_events (Some [])) = Some st
       /\ stats_count st = 2%nat
       /\ stats_impacted_losses st = 1%nat.
Proof.
  assert (Hne : sample_events <> []) by discriminate.
  split; [exact Hne|].
  destruct (error_rates_count_per_indicator sample_events [] "RSI" Hne)
    as (_ & _ & Hsome).
  destruct Hsome as (st & Hst & Hc & Hl & _);
    [vm_compute; repeat constructor|].
  exists st. split; [exact Hst|]. rewrite Hc, Hl. split; reflexivity.
Defined.

Lemma impact_level_witness :
  exists st,
    lookup "RSI" (calculate_error_rates sample_events (Some [])) = Some st
    /\ (impact_level st = Impact.MEDIUM
        <-> (2 * stats_count st < 5 * stats_impacted_losses st
             /\ 5 * stats_impacted_losses st <= 3 * stats_count st)%nat).
Proof.
  eexists. split; [reflexivity|].
  apply (impact_level_follows_loss_share sample_events [] "RSI").
  reflexivity.
Defined.

Lemma pnl_pct_witness :
  ~ position_size default_tester == 0
  /\ exists new,
       trades (snd (run Qsqrt_floor default_tester winning_series None))
       = trades default_tester ++ new
       /\ Forall (fun trade =>
                    ~ entry trade == 0 ->
                    exists q,
                      pnl_pct trade = Fin q
                      /\ q == match side trade with
                              | LONG => (exit trade - entry trade)
                                        / entry trade * 100
                              | SHORT => (entry trade - exit trade)
                                         / entry trade * 100
                              end) new.
Proof.
  assert (H : ~ position_size default_tester == 0) by discriminate.
  split; [exact H|].
  exact (pnl_pct_is_relative_price_move Qsqrt_floor default_tester
           winning_series None H).
Defined.

Lemma estimated_volume_witness :
  ~ (100 == 0 /\ 101 == 99)
  /\ exists v, estimated_volume 101 99 100 = Fin v
               /\ 1000 <= v /\ v <= 500000.
Proof.
  assert (H : ~ (100 == 0 /\ 101 == 99)) by (intros [H _]; discriminate).
  split; [exact H|].
  destruct (estimated_volume_is_clamped 101 99 100 H)
    as (v & Hv & H1 & H2 & _).
  exists v. auto.
Defined.
